(** * GreenAI: the weekly YOLO training pipeline, the Streamlit application
      and its metrics shim

    A shallow embedding of
    - [airflow_dags/yolo_training_pipeline.py] (module [Pipeline]),
    - [appgen.py] (module [Appgen]),
    - [metrics_middleware.py] (module [Metrics]),
    followed by the properties established about them.

    Python code that mutates its surroundings (the MLflow tracking server
    and model registry, Airflow's XCom table, numpy arrays, Streamlit's
    session state, a Prometheus gauge) is embedded in a state-and-exception
    monad over an explicit world; the third-party services (the YOLO
    trainer and validator, the HTTP endpoint, OpenCV's drawing routines,
    Python's float formatting) are fields of an environment record.
    [print] calls are left out: they write to the task log only. *)

From Stdlib Require Import PrimFloat FloatOps SpecFloat ZArith.
From stdpp Require Import gmap strings list pretty.

Set Warnings "-inexact-float,-register-all".
Open Scope string_scope.
Open Scope list_scope.
Open Scope nat_scope.

(** ** Python values, exceptions and control flow *)

Module Py.

(** Exception classes that the sources raise or match on. [Other] stands
    for any further subclass of [Exception] an external library raises. *)
Inductive exn_class :=
| ZeroDivisionError | OverflowError
| KeyError | IndexError | TypeError | ValueError | AttributeError
| MlflowException
| RequestException | HTTPError | ConnectionError | JSONDecodeError
| Other (name : string).

(** An exception instance: its class and [str(e)]. *)
Record exn := Exn { exn_cls : exn_class; exn_str : string }.

(** [except IndexError] *)
Definition is_IndexError (e : exn) : bool :=
  match exn_cls e with IndexError => true | _ => false end.

(** [except requests.RequestException]: the class and its subclasses
    ([response.json()] raises requests' own JSONDecodeError). *)
Definition is_RequestException (e : exn) : bool :=
  match exn_cls e with
  | RequestException | HTTPError | ConnectionError | JSONDecodeError => true
  | _ => false
  end.

(** [except Exception] *)
Definition is_Exception (e : exn) : bool := true.

Inductive result (A : Type) := Ok (a : A) | Raise (e : exn).
Arguments Ok {A} a.
Arguments Raise {A} e.

(** A computation over a world [S]: it returns or raises, and the world
    it leaves behind is kept in both cases (nothing is rolled back). *)
Definition M (S A : Type) : Type := S → result A * S.

#[global] Instance M_ret {S} : MRet (M S) := λ A a s, (Ok a, s).

#[global] Instance M_bind {S} : MBind (M S) := λ A B k m s,
  match m s with
  | (Ok a, s') => k a s'
  | (Raise e, s') => (Raise e, s')
  end.

Definition raise {S A} (e : exn) : M S A := λ s, (Raise e, s).
Definition get {S} : M S S := λ s, (Ok s, s).
Definition modify {S} (f : S → S) : M S unit := λ s, (Ok tt, f s).

(** A pure step that may raise. *)
Definition lift {S A} (r : result A) : M S A := λ s, (r, s).

(** [try: body  except <matches> as e: handler e] *)
Definition try_except {S A} (body : M S A) (matches : exn → bool)
    (handler : exn → M S A) : M S A := λ s,
  match body s with
  | (Ok a, s') => (Ok a, s')
  | (Raise e, s') => if matches e then handler e s' else (Raise e, s')
  end.

(** [for x in xs: body x] *)
Fixpoint for_each {S A} (xs : list A) (body : A → M S unit) : M S unit :=
  match xs with
  | [] => mret tt
  | x :: xs' => body x ;; for_each xs' body
  end.

(** Numbers. The validator hands back either a Python [float] or a numpy
    [float64]; both are IEEE doubles and agree on [+], [-], [*] and the
    comparisons, but not on division by zero. *)
Inductive number := PyFloat (x : float) | NpFloat64 (x : float).

Definition float_of (n : number) : float :=
  match n with PyFloat x | NpFloat64 x => x end.

Definition is_np (n : number) : bool :=
  match n with PyFloat _ => false | NpFloat64 _ => true end.

Definition arith (op : float → float → float) (a b : number) : number :=
  if is_np a || is_np b then NpFloat64 (op (float_of a) (float_of b))
  else PyFloat (op (float_of a) (float_of b)).

Definition num_add := arith PrimFloat.add.
Definition num_sub := arith PrimFloat.sub.
Definition num_mul := arith PrimFloat.mul.

(** [a / b]: Python raises on a zero divisor (of either sign); numpy
    warns and answers with the IEEE quotient (nan or an infinity). *)
Definition truediv (a b : number) : result number :=
  match a, b with
  | PyFloat x, PyFloat y =>
      if PrimFloat.eqb y 0
      then Raise (Exn ZeroDivisionError "float division by zero")
      else Ok (PyFloat (PrimFloat.div x y))
  | _, _ => Ok (NpFloat64 (PrimFloat.div (float_of a) (float_of b)))
  end.

(** [a > b] *)
Definition gt (a b : number) : bool := PrimFloat.ltb (float_of b) (float_of a).

(** [float(z)] for an [int]: round to nearest even, OverflowError beyond
    the doubles. *)
Definition float_of_int (z : Z) : result float :=
  match binary_normalize prec emax z 0 false with
  | S754_infinity _ => Raise (Exn OverflowError "int too large to convert to float")
  | sf => Ok (SF2Prim sf)
  end.

(** [int(x)] for a double: truncation toward zero. *)
Definition int_of_float (x : float) : result Z :=
  match Prim2SF x with
  | S754_zero _ => Ok 0%Z
  | S754_finite s m e =>
      let mag := match e with
                 | Z0 => Z.pos m
                 | Zpos p => (Z.pos m * 2 ^ Z.pos p)%Z
                 | Zneg p => (Z.pos m / 2 ^ Z.pos p)%Z
                 end in
      Ok (if s then (- mag)%Z else mag)
  | S754_infinity _ => Raise (Exn OverflowError "cannot convert float infinity to integer")
  | S754_nan => Raise (Exn ValueError "cannot convert float NaN to integer")
  end.

(** The values that are logged as parameters or kept in dictionaries. *)
Inductive value :=
| VNone
| VBool (b : bool)
| VInt (z : Z)
| VNum (x : number)
| VStr (s : string)
| VList (l : list value)
| VDict (d : list (string * value)).

(** [d[key]] on a dictionary field that may not have been set. *)
Definition getitem {S A} (key : string) (field : option A) : M S A :=
  match field with
  | Some a => mret a
  | None => raise (Exn KeyError ("'" +:+ key +:+ "'"))
  end.

(** [xs[0]] *)
Definition first {S A} (xs : list A) : M S A :=
  match xs with
  | x :: _ => mret x
  | [] => raise (Exn IndexError "list index out of range")
  end.

End Py.
Import Py.

(** ** airflow_dags/yolo_training_pipeline.py *)

Module Pipeline.

(** *** Data passed between the tasks *)

(** The [dataset_info] dictionary. *)
Record DatasetInfo := mkDataset {
  train_images : Z;
  val_images : Z;
  test_images : Z;
  classes : list string;
  dataset_version : string;
  data_path : string }.

(** The keyword arguments of [model.train]. *)
Record TrainConfig := mkTrainConfig {
  cfg_data : string;
  cfg_epochs : Z;
  cfg_batch : Z;
  cfg_imgsz : Z;
  cfg_lr0 : float;
  cfg_device : string;
  cfg_project : string;
  cfg_name : string;
  cfg_save_period : Z }.

(** [val_results.box]: what the validator reports. *)
Record BoxMetrics := mkBox {
  box_map50 : number;
  box_map : number;
  box_mp : number;
  box_mr : number }.

(** The [evaluation_metrics] dictionary. *)
Record EvaluationMetrics := mkEval {
  map50 : number;
  map50_95 : number;
  precision : number;
  recall : number;
  f1_score : number }.

(** The [ab_test_results] dictionary; a version is [None] in Python when
    it is [None] here. *)
Record AbTestResults := mkAb {
  new_model_version : option nat;
  prod_model_version : option nat;
  new_model_score : number;
  prod_model_score : number;
  improvement : number;
  significant_improvement : bool }.

(** The [model_info] dictionary. The first four keys are set by the
    training task; the last three are added by later tasks and are absent
    ([None] here, a KeyError on access) until then. *)
Record ModelInfo := mkInfo {
  run_id : nat;
  model_path : string;
  model_version : option nat;
  training_metrics : list (string * value);
  evaluation_metrics : option EvaluationMetrics;
  model_quality : option string;
  ab_test_results : option AbTestResults }.

(** *** The MLflow tracking server and model registry *)

(** A run: its name, status, parameters (stored as strings and immutable
    once written), latest metric values and artifact paths. Run ids are
    opaque and never reused; here a run's id is its position in the
    server's list of runs. *)
Record Run := mkRun {
  run_name : string;
  status : string;
  params : gmap string string;
  metrics : gmap string float;
  artifacts : list string }.

Inductive Stage := StageNone | Staging | Production | Archived.

#[global] Instance Stage_eq_dec : EqDecision Stage.
Proof. solve_decision. Defined.

(** A registered version as the registry stores it. Versions of a name are
    numbered 1, 2, ... in order of registration: version [v] is entry
    [v - 1] of the name's list. *)
Record VersionEntry := mkEntry {
  source_run : nat;
  current_stage : Stage;
  tags : gmap string string }.

(** A version as the client returns it ([.version], [.run_id]). *)
Record ModelVersion := mkVersion {
  version : nat;
  mv_run_id : nat;
  mv_stage : Stage }.

(** Everything the tasks read and write: the tracking server, Airflow's
    XCom table (the entries under key 'dataset_info' and those under key
    'model_info', each by the id of the task that pushed it), the
    invocations of the trainer so far, and the wall clock. *)
Record World := mkWorld {
  experiments : list string;
  runs : list Run;
  registered_models : gmap string (list VersionEntry);
  xcom_dataset_info : gmap string DatasetInfo;
  xcom_model_info : gmap string ModelInfo;
  train_calls : list TrainConfig;
  clock : nat }.

Definition set_experiments (f : list string → list string) (w : World) : World :=
  mkWorld (f (experiments w)) (runs w) (registered_models w)
          (xcom_dataset_info w) (xcom_model_info w) (train_calls w) (clock w).

Definition set_runs (f : list Run → list Run) (w : World) : World :=
  mkWorld (experiments w) (f (runs w)) (registered_models w)
          (xcom_dataset_info w) (xcom_model_info w) (train_calls w) (clock w).

Definition set_registered_models
    (f : gmap string (list VersionEntry) → gmap string (list VersionEntry))
    (w : World) : World :=
  mkWorld (experiments w) (runs w) (f (registered_models w))
          (xcom_dataset_info w) (xcom_model_info w) (train_calls w) (clock w).

Definition set_xcom_dataset_info
    (f : gmap string DatasetInfo → gmap string DatasetInfo) (w : World) : World :=
  mkWorld (experiments w) (runs w) (registered_models w)
          (f (xcom_dataset_info w)) (xcom_model_info w) (train_calls w) (clock w).

Definition set_xcom_model_info
    (f : gmap string ModelInfo → gmap string ModelInfo) (w : World) : World :=
  mkWorld (experiments w) (runs w) (registered_models w)
          (xcom_dataset_info w) (f (xcom_model_info w)) (train_calls w) (clock w).

Definition set_train_calls (f : list TrainConfig → list TrainConfig) (w : World) : World :=
  mkWorld (experiments w) (runs w) (registered_models w)
          (xcom_dataset_info w) (xcom_model_info w) (f (train_calls w)) (clock w).

Definition set_clock (f : nat → nat) (w : World) : World :=
  mkWorld (experiments w) (runs w) (registered_models w)
          (xcom_dataset_info w) (xcom_model_info w) (train_calls w) (f (clock w)).

(** The services outside the repository. *)
Record Env := mkEnv {
  (** [YOLO(weights)]: loading a checkpoint *)
  YOLO : string → result unit;
  (** [model.train] on the training configuration: [results.results_dict]
      when the results object has one *)
  model_train : TrainConfig → result (option (list (string * value)));
  (** [YOLO(path).val(data=...)], by checkpoint path and dataset file *)
  model_val : string → string → result BoxMetrics;
  (** [str(v)] for a value that is not already a string *)
  py_str : value → string;
  (** [f"{x:.3f}"] *)
  format_3f : float → string;
  (** [datetime.now().isoformat()] at a clock reading *)
  isoformat : nat → string }.

Definition MlflowError {A} (msg : string) : M World A :=
  raise (Exn MlflowException msg).

(** [mlflow.get_experiment_by_name] *)
Definition get_experiment_by_name (name : string) : M World (option string) :=
  w ← get;
  mret (if bool_decide (name ∈ experiments w) then Some name else None).

(** [mlflow.create_experiment]: refuses a name that exists. *)
Definition create_experiment (name : string) : M World unit :=
  w ← get;
  if bool_decide (name ∈ experiments w)
  then MlflowError ("Experiment '" +:+ name +:+ "' already exists.")
  else modify (set_experiments (λ es, es ++ [name])).

(** [mlflow.set_experiment]: creates the experiment when it is missing. *)
Definition set_experiment (name : string) : M World unit :=
  w ← get;
  if bool_decide (name ∈ experiments w) then mret tt
  else modify (set_experiments (λ es, es ++ [name])).

Definition set_status (rid : nat) (st : string) : World → World :=
  set_runs (alter (λ r, mkRun (run_name r) st (params r) (metrics r) (artifacts r)) rid).

(** Leaving a [with mlflow.start_run(...)] block ends the run, as FINISHED
    or, when the block raised, as FAILED; the exception passes through. *)
Definition end_run {A} (rid : nat) (body : M World A) : M World A := λ w,
  match body w with
  | (Ok a, w') => (Ok a, set_status rid "FINISHED" w')
  | (Raise e, w') => (Raise e, set_status rid "FAILED" w')
  end.

(** [with mlflow.start_run(run_name=name) as run: body]: a new run. The
    block receives the run id; the fluent logging calls made inside the
    block take it as their first argument. *)
Definition start_run {A} (name : string) (body : nat → M World A) : M World A :=
  w ← get;
  let rid := length (runs w) in
  modify (set_runs (λ rs, rs ++ [mkRun name "RUNNING" ∅ ∅ []])) ;;
  end_run rid (body rid).

(** [with mlflow.start_run(run_id=rid): body]: an existing run resumed. *)
Definition resume_run {A} (rid : nat) (body : nat → M World A) : M World A :=
  w ← get;
  match runs w !! rid with
  | None => MlflowError "Run not found"
  | Some _ => modify (set_status rid "RUNNING") ;; end_run rid (body rid)
  end.

(** [mlflow.get_run(run_id)] *)
Definition get_run (rid : nat) : M World Run :=
  w ← get;
  match runs w !! rid with
  | None => MlflowError "Run not found"
  | Some r => mret r
  end.

(** The string a parameter value is stored as. *)
Definition param_string (env : Env) (v : value) : string :=
  match v with VStr s => s | _ => py_str env v end.

(** [mlflow.log_param(key, value)]: a parameter may be written again only
    with the value it already has. *)
Definition log_param (env : Env) (rid : nat) (key : string) (v : value) : M World unit :=
  r ← get_run rid;
  let s := param_string env v in
  match params r !! key with
  | Some old =>
      if bool_decide (old = s) then mret tt
      else MlflowError ("Changing param values is not allowed. Param with key='"
                        +:+ key +:+ "' was already logged.")
  | None =>
      modify (set_runs (alter (λ r, mkRun (run_name r) (status r)
                                      (<[key := s]> (params r)) (metrics r) (artifacts r)) rid))
  end.

(** [mlflow.log_params(dict)] *)
Definition log_params (env : Env) (rid : nat) (kvs : list (string * value)) : M World unit :=
  for_each kvs (λ kv, log_param env rid kv.1 kv.2).

(** [mlflow.log_metric(key, value)] *)
Definition log_metric (rid : nat) (key : string) (x : float) : M World unit :=
  get_run rid ;;
  modify (set_runs (alter (λ r, mkRun (run_name r) (status r) (params r)
                                  (<[key := x]> (metrics r)) (artifacts r)) rid)).

(** [mlflow.log_artifact(local_path, artifact_path)] *)
Definition log_artifact (rid : nat) (artifact_path : string) : M World unit :=
  get_run rid ;;
  modify (set_runs (alter (λ r, mkRun (run_name r) (status r) (params r) (metrics r)
                                  (artifacts r ++ [artifact_path])) rid)).

(** Creating a version of [name] from run [rid]: the registered model is
    created when the name is new; the version starts in stage None and
    gets the next number. *)
Definition create_model_version (name : string) (rid : nat) : M World ModelVersion :=
  w ← get;
  let vs := default [] (registered_models w !! name) in
  modify (set_registered_models (<[name := vs ++ [mkEntry rid StageNone ∅]]>)) ;;
  mret (mkVersion (S (length vs)) rid StageNone).

(** [mlflow.pytorch.log_model(..., artifact_path, registered_model_name)] *)
Definition pytorch_log_model (rid : nat) (artifact_path : string)
    (registered_model_name : string) : M World unit :=
  log_artifact rid artifact_path ;;
  create_model_version registered_model_name rid ;;
  mret tt.

(** [mlflow.register_model("runs:/<rid>/model", name)]: the run of the
    URI is looked up first. *)
Definition mlflow_register_model (rid : nat) (name : string) : M World ModelVersion :=
  get_run rid ;;
  create_model_version name rid.

Definition stage_of_string (s : string) : option Stage :=
  if bool_decide (s = "None") then Some StageNone
  else if bool_decide (s = "Staging") then Some Staging
  else if bool_decide (s = "Production") then Some Production
  else if bool_decide (s = "Archived") then Some Archived
  else None.

(** The versions of a list that are in stage [st], by version number. *)
Definition versions_in (st : Stage) (vs : list VersionEntry) : list ModelVersion :=
  omap (λ ie : nat * VersionEntry,
          if bool_decide (current_stage ie.2 = st)
          then Some (mkVersion (S ie.1) (source_run ie.2) st) else None)
       (imap pair vs).

(** [client.get_latest_versions(name, stages=[stage])]: the version with
    the highest number among those in the stage, if any; an unknown name
    is an error. *)
Definition get_latest_versions (name : string) (stage : string) : M World (list ModelVersion) :=
  w ← get;
  match registered_models w !! name, stage_of_string stage with
  | None, _ => MlflowError ("Registered Model with name=" +:+ name +:+ " not found")
  | _, None => MlflowError ("Invalid Model Version stage: " +:+ stage)
  | Some vs, Some st =>
      mret (match last (versions_in st vs) with Some mv => [mv] | None => [] end)
  end.

(** Rewriting the entry of version [v] of [name]; an unknown name or
    version (also Python's [None]) is an error. *)
Definition update_version (name : string) (v : option nat)
    (f : VersionEntry → VersionEntry) : M World unit :=
  w ← get;
  match registered_models w !! name, v with
  | Some vs, Some (S i) =>
      match vs !! i with
      | Some _ => modify (set_registered_models (<[name := alter f i vs]>))
      | None => MlflowError "Model Version not found"
      end
  | _, _ => MlflowError "Model Version not found"
  end.

(** [client.transition_model_version_stage(name, version, stage)]; the
    tasks leave [archive_existing_versions] False. *)
Definition transition_model_version_stage (name : string) (v : option nat)
    (stage : string) : M World unit :=
  match stage_of_string stage with
  | None => MlflowError ("Invalid Model Version stage: " +:+ stage)
  | Some st => update_version name v (λ e, mkEntry (source_run e) st (tags e))
  end.

(** [client.set_model_version_tag(name, version, key, value)] *)
Definition set_model_version_tag (name : string) (v : option nat)
    (key value : string) : M World unit :=
  update_version name v
    (λ e, mkEntry (source_run e) (current_stage e) (<[key := value]> (tags e))).

(** The number of versions of [name] that are in Production. *)
Definition production_count (name : string) (w : World) : nat :=
  length (filter (λ e, current_stage e = Production)
                 (default [] (registered_models w !! name))).

(** The stage of version [v] of [name]. *)
Definition stage_of (name : string) (v : nat) (w : World) : option Stage :=
  match v with
  | O => None
  | S i => current_stage <$> (default [] (registered_models w !! name) !! i)
  end.

(** *** The tasks *)

Definition EXPERIMENT_NAME : string := "greenai-yolo-training".
Definition MODEL_NAME : string := "greenai-yolo-model".

(** [context]: the task instance the callable runs as. *)
Record Context := mkContext { task_id : string }.

(** [context['task_instance'].xcom_push(key='dataset_info', value=d)] *)
Definition xcom_push_dataset_info (ctx : Context) (d : DatasetInfo) : M World unit :=
  modify (set_xcom_dataset_info (<[task_id ctx := d]>)).

(** [context['task_instance'].xcom_push(key='model_info', value=m)] *)
Definition xcom_push_model_info (ctx : Context) (m : ModelInfo) : M World unit :=
  modify (set_xcom_model_info (<[task_id ctx := m]>)).

(** [xcom_pull(key='dataset_info', task_ids=t)]: Python's [None] when the
    task pushed nothing under the key. *)
Definition xcom_pull_dataset_info (task_ids : string) : M World (option DatasetInfo) :=
  w ← get; mret (xcom_dataset_info w !! task_ids).

(** [xcom_pull(key='model_info', task_ids=t)] *)
Definition xcom_pull_model_info (task_ids : string) : M World (option ModelInfo) :=
  w ← get; mret (xcom_model_info w !! task_ids).

(** Subscripting what [xcom_pull] returned: [None[...]] is a TypeError. *)
Definition subscriptable {A} (pulled : option A) : M World A :=
  match pulled with
  | Some a => mret a
  | None => raise (Exn TypeError "'NoneType' object is not subscriptable")
  end.

(** [datetime.now().isoformat()] *)
Definition datetime_now (env : Env) : M World string :=
  w ← get;
  modify (set_clock S) ;;
  mret (isoformat env (clock w)).

Definition setup_mlflow : M World unit :=
  try_except
    (experiment ← get_experiment_by_name EXPERIMENT_NAME;
     match experiment with
     | None => create_experiment EXPERIMENT_NAME
     | Some _ => mret tt
     end)
    is_Exception
    (λ e, create_experiment EXPERIMENT_NAME) ;;
  set_experiment EXPERIMENT_NAME.

(** The items of a [dataset_info] dictionary. *)
Definition dataset_items (d : DatasetInfo) : list (string * value) :=
  [ ("train_images", VInt (train_images d));
    ("val_images", VInt (val_images d));
    ("test_images", VInt (test_images d));
    ("classes", VList (VStr <$> classes d));
    ("dataset_version", VStr (dataset_version d));
    ("data_path", VStr (data_path d)) ].

(** [mlflow.log_params(d)] on what was pulled from XCom. *)
Definition log_params_pulled (env : Env) (run : nat) (d : option DatasetInfo) : M World unit :=
  match d with
  | Some d => log_params env run (dataset_items d)
  | None => raise (Exn AttributeError "'NoneType' object has no attribute 'items'")
  end.

Definition prepare_dataset (env : Env) (ctx : Context) : M World DatasetInfo :=
  let dataset_info :=
    mkDataset 1000 200 100
      ["healthy"; "diseased"; "pest_damage"; "nutrient_deficiency"]
      "1.0" "/opt/airflow/data/crop_disease_dataset" in
  setup_mlflow ;;
  start_run "dataset_preparation" (λ run,
    log_params env run (dataset_items dataset_info) ;;
    total ← lift (float_of_int (train_images dataset_info + val_images dataset_info
                                + test_images dataset_info));
    log_metric run "total_images" total) ;;
  xcom_push_dataset_info ctx dataset_info ;;
  mret dataset_info.

Definition training_params : list (string * value) :=
  [ ("model_size", VStr "yolov8n");
    ("epochs", VInt 50);
    ("batch_size", VInt 16);
    ("image_size", VInt 640);
    ("learning_rate", VNum (PyFloat 0.01));
    ("optimizer", VStr "SGD");
    ("augmentation", VBool true);
    ("device", VStr "cpu") ].

(** [isinstance(value, (int, float))] and the double that is logged. *)
Definition numeric (v : value) : option (result float) :=
  match v with
  | VInt z => Some (float_of_int z)
  | VBool b => Some (Ok (if b then 1%float else 0%float))
  | VNum x => Some (Ok (float_of x))
  | _ => None
  end.

(** The [train_config] dictionary of the run with id [run]; its numbers
    are those of [training_params]. *)
Definition train_config_for (run : nat) : TrainConfig :=
  mkTrainConfig "/opt/airflow/data/dataset.yaml" 50 16 640 0.01 "cpu"
    "/opt/airflow/runs" ("yolo_training_" +:+ pretty run) 10.

Definition train_yolo_model (env : Env) (ctx : Context) : M World ModelInfo :=
  dataset_info ← xcom_pull_dataset_info "prepare_dataset";
  setup_mlflow ;;
  start_run "yolo_training" (λ run,
    log_params env run training_params ;;
    log_params_pulled env run dataset_info ;;
    try_except
      (lift (YOLO env "yolov8n.pt") ;;
       let train_config := train_config_for run in
       modify (set_train_calls (λ calls, calls ++ [train_config])) ;;
       results ← lift (model_train env train_config);
       match results with
       | Some metrics =>
           for_each metrics (λ kv,
             match numeric kv.2 with
             | Some x => x ← lift x; log_metric run kv.1 x
             | None => mret tt
             end)
       | None => mret tt
       end ;;
       let model_path :=
         "/opt/airflow/runs/yolo_training_" +:+ pretty run +:+ "/weights/best.pt" in
       pytorch_log_model run "model" MODEL_NAME ;;
       log_artifact run "model_weights" ;;
       let model_info := mkInfo run model_path None (default [] results) None None None in
       xcom_push_model_info ctx model_info ;;
       mret model_info)
      is_Exception
      (λ e,
       log_param env run "training_status" (VStr "failed") ;;
       log_param env run "error_message" (VStr (exn_str e)) ;;
       raise e)).

(** [2 * (mp * mr) / (mp + mr)] *)
Definition f1_of (mp mr : number) : result number :=
  truediv (num_mul (PyFloat 2) (num_mul mp mr)) (num_add mp mr).

(** ["good" if map50 > 0.7 else "needs_improvement"] *)
Definition quality_of (map50 : number) : string :=
  if gt map50 (PyFloat 0.7) then "good" else "needs_improvement".

(** The items of an [evaluation_metrics] dictionary. *)
Definition metric_items (m : EvaluationMetrics) : list (string * number) :=
  [ ("map50", map50 m); ("map50_95", map50_95 m); ("precision", precision m);
    ("recall", recall m); ("f1_score", f1_score m) ].

Definition evaluate_model (env : Env) (ctx : Context) : M World EvaluationMetrics :=
  model_info ← xcom_pull_model_info "train_yolo_model";
  setup_mlflow ;;
  model_info ← subscriptable model_info;
  resume_run (run_id model_info) (λ run,
    try_except
      (lift (YOLO env (model_path model_info)) ;;
       box ← lift (model_val env (model_path model_info) "/opt/airflow/data/dataset.yaml");
       f1 ← lift (f1_of (box_mp box) (box_mr box));
       let evaluation_metrics :=
         mkEval (box_map50 box) (box_map box) (box_mp box) (box_mr box) f1 in
       for_each (metric_items evaluation_metrics) (λ kv,
         log_metric run ("eval_" +:+ kv.1) (float_of kv.2)) ;;
       let model_quality := quality_of (map50 evaluation_metrics) in
       log_param env run "model_quality" (VStr model_quality) ;;
       let model_info :=
         mkInfo (run_id model_info) (model_path model_info) (model_version model_info)
                (training_metrics model_info) (Some evaluation_metrics)
                (Some model_quality) (ab_test_results model_info) in
       xcom_push_model_info ctx model_info ;;
       mret evaluation_metrics)
      is_Exception
      (λ e,
       log_param env run "evaluation_status" (VStr "failed") ;;
       log_param env run "error_message" (VStr (exn_str e)) ;;
       raise e)).

Definition register_model (env : Env) (ctx : Context) : M World nat :=
  model_info ← xcom_pull_model_info "evaluate_model";
  setup_mlflow ;;
  try_except
    (model_info ← subscriptable model_info;
     quality ← getitem "model_quality" (model_quality model_info);
     registered ← mlflow_register_model (run_id model_info) MODEL_NAME;
     let model_info :=
       mkInfo (run_id model_info) (model_path model_info) (Some (version registered))
              (training_metrics model_info) (evaluation_metrics model_info)
              (model_quality model_info) (ab_test_results model_info) in
     (if bool_decide (quality = "good") then
        transition_model_version_stage MODEL_NAME (Some (version registered)) "Staging" ;;
        set_model_version_tag MODEL_NAME (Some (version registered)) "quality" quality ;;
        now ← datetime_now env;
        set_model_version_tag MODEL_NAME (Some (version registered)) "training_date" now
      else mret tt) ;;
     xcom_push_model_info ctx model_info ;;
     mret (version registered))
    is_Exception
    (λ e, raise e).

(** A version number, or [None], as a parameter value. *)
Definition version_value (v : option nat) : value :=
  match v with Some n => VInt (Z.of_nat n) | None => VNone end.

(** The items of an [ab_test_results] dictionary. *)
Definition ab_items (ab : AbTestResults) : list (string * value) :=
  [ ("new_model_version", version_value (new_model_version ab));
    ("prod_model_version", version_value (prod_model_version ab));
    ("new_model_score", VNum (new_model_score ab));
    ("prod_model_score", VNum (prod_model_score ab));
    ("improvement", VNum (improvement ab));
    ("significant_improvement", VBool (significant_improvement ab)) ].

Definition run_ab_test (env : Env) (ctx : Context) : M World AbTestResults :=
  model_info ← xcom_pull_model_info "register_model";
  setup_mlflow ;;
  try_except
    (ab_test_results ←
       try_except
         (latest ← get_latest_versions MODEL_NAME "Production";
          prod_model ← first latest;
          model_info ← subscriptable model_info;
          evaluation_metrics ← getitem "evaluation_metrics" (evaluation_metrics model_info);
          let new_model_score := map50 evaluation_metrics in
          prod_run ← get_run (mv_run_id prod_model);
          let prod_model_score :=
            PyFloat (default 0%float (metrics prod_run !! "eval_map50")) in
          let improvement := num_sub new_model_score prod_model_score in
          let improvement_threshold := PyFloat 0.05 in
          let ab_test_results :=
            mkAb (model_version model_info) (Some (version prod_model))
                 new_model_score prod_model_score improvement
                 (gt improvement improvement_threshold) in
          start_run "ab_test_results" (λ run,
            log_params env run (ab_items ab_test_results)) ;;
          mret ab_test_results)
         is_IndexError
         (λ _,
          model_info ← subscriptable model_info;
          evaluation_metrics ← getitem "evaluation_metrics" (evaluation_metrics model_info);
          mret (mkAb (model_version model_info) None (map50 evaluation_metrics)
                     (PyFloat 0) (map50 evaluation_metrics) true));
     model_info ← subscriptable model_info;
     let model_info :=
       mkInfo (run_id model_info) (model_path model_info) (model_version model_info)
              (training_metrics model_info) (evaluation_metrics model_info)
              (model_quality model_info) (Some ab_test_results) in
     xcom_push_model_info ctx model_info ;;
     mret ab_test_results)
    is_Exception
    (λ e, raise e).

(** The promotion rule. *)
Definition should_promote (quality : string) (ab_results : AbTestResults) : bool :=
  bool_decide (quality = "good")
  && significant_improvement ab_results
  && gt (new_model_score ab_results) (PyFloat 0.6).

Definition promote_to_production (env : Env) (ctx : Context) : M World string :=
  model_info ← xcom_pull_model_info "run_ab_test";
  setup_mlflow ;;
  try_except
    (model_info ← subscriptable model_info;
     ab_results ← getitem "ab_test_results" (ab_test_results model_info);
     quality ← getitem "model_quality" (model_quality model_info);
     if should_promote quality ab_results then
       try_except
         (latest ← get_latest_versions MODEL_NAME "Production";
          current_prod ← first latest;
          transition_model_version_stage MODEL_NAME (Some (version current_prod)) "Archived")
         is_IndexError
         (λ _, mret tt) ;;
       transition_model_version_stage MODEL_NAME (model_version model_info) "Production" ;;
       now ← datetime_now env;
       set_model_version_tag MODEL_NAME (model_version model_info)
         "promoted_to_production" now ;;
       set_model_version_tag MODEL_NAME (model_version model_info)
         "promotion_reason"
         ("A/B test improvement: " +:+ format_3f env (float_of (improvement ab_results))) ;;
       promoted_at ← datetime_now env;
       evaluation_metrics ← getitem "evaluation_metrics" (evaluation_metrics model_info);
       let deployment_info :=
         [ ("model_name", VStr MODEL_NAME);
           ("model_version", version_value (model_version model_info));
           ("promoted_at", VStr promoted_at);
           ("performance_metrics",
            VDict (prod_map id VNum <$> metric_items evaluation_metrics)) ] in
       start_run "production_promotion" (λ run, log_params env run deployment_info) ;;
       mret "promoted"
     else mret "not_promoted")
    is_Exception
    (λ e, raise e).

(** *** The DAG *)

(** [default_args['retries']] *)
Definition retries : nat := 1.

(** A task instance: the callable is tried again after a failure, up to
    [n] more times; its last failure fails the task. *)
Fixpoint with_retries {A} (n : nat) (callable : M World A) : M World A :=
  match n with
  | O => callable
  | S k => try_except callable is_Exception (λ _, with_retries k callable)
  end.

(** [PythonOperator(task_id=..., python_callable=..., dag=dag)] *)
Definition PythonOperator {A} (task_id : string)
    (python_callable : Env → Context → M World A) (env : Env) : M World A :=
  with_retries retries (python_callable env (mkContext task_id)).

Definition prepare_dataset_task := PythonOperator "prepare_dataset" prepare_dataset.
Definition train_model_task := PythonOperator "train_yolo_model" train_yolo_model.
Definition evaluate_model_task := PythonOperator "evaluate_model" evaluate_model.
Definition register_model_task := PythonOperator "register_model" register_model.
Definition ab_test_task := PythonOperator "run_ab_test" run_ab_test.
Definition promote_model_task := PythonOperator "promote_to_production" promote_to_production.

(** One run of the DAG through the promotion task: a task starts when the
    one before it has succeeded, and a failed task fails the run.
    [notify_completion], which only assembles a printed summary, is not
    part of the embedding. *)
Definition dag_run (env : Env) : M World string :=
  prepare_dataset_task env ;;
  train_model_task env ;;
  evaluate_model_task env ;;
  register_model_task env ;;
  ab_test_task env ;;
  promote_model_task env.

(** The world after a sequence of DAG runs, each with its own behaviour of
    the external services. *)
Definition dag_runs (envs : list Env) (w : World) : World :=
  foldl (λ w env, (dag_run env w).2) w envs.

End Pipeline.

(** ** appgen.py *)

Module Appgen.

(** *** Images and detections *)

(** A numpy array: its shape and its elements. Arrays are objects: the
    program holds references to them, and the world of this module is the
    store of arrays, a reference being a position in the store. *)
Record ndarray := mkArray { shape : list nat; data : list Z }.

(** The file object Streamlit hands over for an upload. *)
Record UploadedFile := mkFile { file_name : string; file_bytes : list Z }.

(** One box of a result: the tensors [box.cls], [box.conf] and the rows of
    [box.xyxy]. *)
Record Box := mkBox {
  cls : list float;
  conf : list float;
  xyxy : list (list float) }.

(** A loaded model: [model.names] and [model(img_array)], which gives the
    boxes of each result. *)
Record Model := mkModel {
  names : gmap Z string;
  predict : ndarray → result (list (list Box)) }.

(** A detection dictionary, with keys "class", "confidence" and "bbox". *)
Record Detection := mkDetection {
  class : string;
  confidence : float;
  bbox : Z * Z * Z * Z }.

(** *** JSON documents *)

Inductive json :=
| JNull
| JBool (b : bool)
| JNumber (x : float)
| JString (s : string)
| JArray (items : list json)
| JObject (members : list (string * json)).

(** A request as [requests.post] sends it. *)
Record Request := mkRequest {
  req_url : string;
  req_headers : list (string * string);
  req_json : json }.

(** A response: its status code and what [response.json()] gives. *)
Record Response := mkResponse {
  status_code : Z;
  json_body : result json }.

(** The services outside the repository. *)
Record Env := mkEnv {
  (** [load_yolo_model()], that is [YOLO("model.pt")] *)
  load_yolo_model : result Model;
  (** [np.array(Image.open(image))]: the decoded pixels *)
  decode : UploadedFile → result ndarray;
  (** [cv2.rectangle(img, pt1, pt2, color, thickness)]: the pixels after
      the call (OpenCV writes them into [img]) *)
  rectangle : ndarray → Z * Z → Z * Z → Z * Z * Z → Z → result ndarray;
  (** [cv2.putText(img, text, org, FONT_HERSHEY_SIMPLEX, scale, color,
      thickness)], likewise *)
  putText : ndarray → string → Z * Z → float → Z * Z * Z → Z → result ndarray;
  (** [f"{x:.2f}"] *)
  format_2f : float → string;
  (** [requests.post(url, headers=..., json=...)] *)
  post : Request → result Response }.

(** *** The store of arrays *)

(** A new array object. *)
Definition alloc (a : ndarray) : M (list ndarray) nat :=
  h ← get;
  modify (λ h : list ndarray, h ++ [a]) ;;
  mret (length h).

(** Reading through a reference. Python has no dangling references; the
    error branch is for positions that are not references. *)
Definition deref (ref : nat) : M (list ndarray) ndarray :=
  h ← get;
  match h !! ref with
  | Some a => mret a
  | None => raise (Exn (Other "ReferenceError") "no such array")
  end.

(** [image.copy()]: a new array with the same contents. *)
Definition copy (image : nat) : M (list ndarray) nat :=
  a ← deref image;
  alloc a.

(** A call that writes its result into the array it is given. *)
Definition in_place (img : nat) (draw : ndarray → result ndarray) : M (list ndarray) unit :=
  a ← deref img;
  a' ← lift (draw a);
  modify (λ h : list ndarray, <[img := a']> h).

(** *** Detection *)

(** [t[0]] on a tensor. *)
Definition item0 {A} (t : list A) : result A :=
  match t with
  | x :: _ => Ok x
  | [] => Raise (Exn IndexError "index 0 is out of bounds for dimension 0 with size 0")
  end.

Definition rbind {A B} (r : result A) (k : A → result B) : result B :=
  match r with Ok a => k a | Raise e => Raise e end.

(** [x1, y1, x2, y2 = map(int, row)] *)
Definition unpack4 (row : list float) : result (Z * Z * Z * Z) :=
  match row with
  | [a; b; c; d] =>
      rbind (int_of_float a) (λ x1,
      rbind (int_of_float b) (λ y1,
      rbind (int_of_float c) (λ x2,
      rbind (int_of_float d) (λ y2, Ok (x1, y1, x2, y2)))))
  | a :: b :: c :: d :: _ :: _ =>
      rbind (int_of_float a) (λ _,
      rbind (int_of_float b) (λ _,
      rbind (int_of_float c) (λ _,
      rbind (int_of_float d) (λ _,
      Raise (Exn ValueError "too many values to unpack (expected 4)")))))
  | _ => Raise (Exn ValueError "not enough values to unpack (expected 4)")
  end.

(** The body of the inner loop: the dictionary appended for one box. *)
Definition detection_of (model : Model) (box : Box) : result Detection :=
  rbind (item0 (cls box)) (λ c,
  rbind (int_of_float c) (λ cls,
  rbind (match names model !! cls with
         | Some n => Ok n
         | None => Raise (Exn KeyError (pretty cls))
         end) (λ class_name,
  rbind (item0 (conf box)) (λ conf,
  rbind (item0 (xyxy box)) (λ row,
  rbind (unpack4 row) (λ bbox,
  Ok (mkDetection class_name conf bbox))))))).

(** Both loops: the detections of all boxes of all results, in order,
    unless a box raises. *)
Fixpoint collect (model : Model) (boxes : list Box) : result (list Detection) :=
  match boxes with
  | [] => Ok []
  | box :: rest =>
      rbind (detection_of model box) (λ d,
      rbind (collect model rest) (λ ds, Ok (d :: ds)))
  end.

Definition detect_objects (env : Env) (image : UploadedFile)
    (confidence_threshold : float) : M (list ndarray) (nat * list Detection) :=
  model ← lift (load_yolo_model env);
  pixels ← lift (decode env image);
  img_array ← alloc pixels;
  results ← lift (predict model pixels);
  detected_objects ← lift (collect model (concat results));
  mret (img_array, detected_objects).

(** The default of [detect_objects]'s [confidence_threshold]. *)
Definition default_confidence_threshold : float := 0.5.

Definition visualize_detections (env : Env) (image : nat)
    (detections : list Detection) : M (list ndarray) nat :=
  img_with_boxes ← copy image;
  for_each detections (λ det,
    let '(x1, y1, x2, y2) := bbox det in
    let label := class det +:+ " " +:+ format_2f env (confidence det) in
    in_place img_with_boxes (λ a, rectangle env a (x1, y1) (x2, y2) (0, 255, 0)%Z 2%Z) ;;
    in_place img_with_boxes
      (λ a, putText env a label (x1, y1 - 10)%Z 0.9%float (0, 255, 0)%Z 2%Z)) ;;
  mret img_with_boxes.

(** The detection step of [main], given the values of the widgets: the
    slider's [confidence_threshold] and the uploader's [uploaded_file]. It
    answers with the original image, the detections and the image that is
    displayed. *)
Definition main_detection (env : Env) (confidence_threshold : float)
    (uploaded_file : option UploadedFile)
    : M (list ndarray) (option (nat * list Detection * nat)) :=
  match uploaded_file with
  | Some uploaded_file =>
      '(original_image, detected_objects) ←
        detect_objects env uploaded_file default_confidence_threshold;
      detected_image ← visualize_detections env original_image detected_objects;
      mret (Some (original_image, detected_objects, detected_image))
  | None => mret None
  end.

(** *** The chat request *)

Fixpoint lookup_member (key : string) (members : list (string * json)) : option json :=
  match members with
  | [] => None
  | (k, v) :: rest => if bool_decide (k = key) then Some v else lookup_member key rest
  end.

(** [j[key]] for a string key. *)
Definition subscript (j : json) (key : string) : result json :=
  match j with
  | JObject members =>
      match lookup_member key members with
      | Some v => Ok v
      | None => Raise (Exn KeyError ("'" +:+ key +:+ "'"))
      end
  | JArray _ => Raise (Exn TypeError "list indices must be integers or slices, not str")
  | JString _ => Raise (Exn TypeError "string indices must be integers, not 'str'")
  | _ => Raise (Exn TypeError "object is not subscriptable")
  end.

(** [j[0]] *)
Definition subscript0 (j : json) : result json :=
  match j with
  | JArray (x :: _) => Ok x
  | JArray [] => Raise (Exn IndexError "list index out of range")
  | JObject _ => Raise (Exn KeyError "0")
  | JString (String c _) => Ok (JString (String c ""))
  | JString "" => Raise (Exn IndexError "string index out of range")
  | _ => Raise (Exn TypeError "object is not subscriptable")
  end.

(** [key in j] *)
Definition contains (key : string) (j : json) : result bool :=
  match j with
  | JObject members => Ok (bool_decide (is_Some (lookup_member key members)))
  | JArray items =>
      Ok (existsb (λ x, match x with JString s => bool_decide (s = key) | _ => false end) items)
  | JString s => Ok (bool_decide (is_Some (String.index 0 key s)))
  | _ => Raise (Exn TypeError "argument is not iterable")
  end.

(** The truth value of a document. *)
Definition truthy (j : json) : bool :=
  match j with
  | JNull => false
  | JBool b => b
  | JNumber x => negb (PrimFloat.eqb x 0)
  | JString s => negb (bool_decide (s = ""))
  | JArray items => negb (bool_decide (items = []))
  | JObject members => negb (bool_decide (members = []))
  end.

(** [payload[key].append(part)] *)
Definition append_to (payload : json) (key : string) (part : json) : result json :=
  rbind (subscript payload key) (λ target,
  match payload, target with
  | JObject members, JArray items =>
      Ok (JObject ((λ kv : string * json,
                      if bool_decide (kv.1 = key) then (key, JArray (items ++ [part])) else kv)
                   <$> members))
  | _, _ => Raise (Exn AttributeError "object has no attribute 'append'")
  end).

(** [response.raise_for_status()] *)
Definition raise_for_status (response : Response) : result unit :=
  if bool_decide (400 ≤ status_code response < 600)%Z
  then Raise (Exn HTTPError ("HTTP error " +:+ pretty (status_code response)))
  else Ok tt.

(** [requests.post]: the request goes out, and is recorded in the world of
    this function, the requests sent so far. *)
Definition requests_post (env : Env) (request : Request) : M (list Request) Response :=
  modify (λ sent : list Request, sent ++ [request]) ;;
  lift (post env request).

Definition send_amaliai_request (env : Env) (api_key prompt : string)
    (image_base64 : option string) (model_name : string) (stream : bool)
    : M (list Request) json :=
  let base_url :=
    "https://generativelanguage.googleapis.com/v1beta/models/" +:+ model_name
    +:+ ":generateContent" in
  let headers := [("Content-Type", "application/json")] in
  let payload := JObject [("contents", JArray [])] in
  payload ←
    match image_base64 with
    | Some (String _ _ as image_base64) =>
        let image_part :=
          JObject [("parts",
            JArray [ JObject [("text", JString prompt)];
                     JObject [("inlineData",
                       JObject [("mimeType", JString "image/png");
                                ("data", JString image_base64)])] ])] in
        lift (append_to payload "contents" image_part)
    | _ =>
        lift (append_to payload "content"
                (JObject [("parts", JArray [JObject [("text", JString prompt)]])]))
    end;
  try_except
    (let url := base_url +:+ "?key=" +:+ api_key in
     response ← requests_post env (mkRequest url headers payload);
     lift (raise_for_status response) ;;
     response_json ← lift (json_body response);
     has ← lift (contains "candidates" response_json);
     candidates ← (if has then lift (subscript response_json "candidates")
                   else mret JNull);
     if has && truthy candidates then
       candidates ← lift (subscript response_json "candidates");
       lift (rbind (subscript0 candidates) (λ c,
             rbind (subscript c "content") (λ c,
             rbind (subscript c "parts") (λ p,
             rbind (subscript0 p) (λ p, subscript p "text")))))
     else mret (JString "No response generated"))
    is_RequestException
    (λ e, mret (JString ("Request failed: " +:+ exn_str e))).

(** The defaults of [send_amaliai_request]. *)
Definition default_model_name : string := "gemini-2.0-flash".
Definition default_stream : bool := true.

End Appgen.

(** ** metrics_middleware.py *)

Module Metrics.

(** Streamlit's session state and the Prometheus metrics of the module.
    A counter or gauge that is only ever incremented is the number of
    [inc()] calls made on it. *)
Record World := mkWorld {
  session_state : gmap string value;
  REQUEST_COUNT : gmap (string * string) Z;
  ACTIVE_USERS : Z;
  YOLO_DETECTIONS : Z;
  GEMINI_API_CALLS : gmap string Z }.

Definition track_yolo_detection (w : World) : World :=
  mkWorld (session_state w) (REQUEST_COUNT w) (ACTIVE_USERS w)
          (YOLO_DETECTIONS w + 1) (GEMINI_API_CALLS w).

Definition track_gemini_api_call (status : string) (w : World) : World :=
  mkWorld (session_state w) (REQUEST_COUNT w) (ACTIVE_USERS w) (YOLO_DETECTIONS w)
          (<[status := (default 0 (GEMINI_API_CALLS w !! status) + 1)%Z]> (GEMINI_API_CALLS w)).

Definition track_request (endpoint method : string) (w : World) : World :=
  mkWorld (session_state w)
          (<[(method, endpoint) := (default 0 (REQUEST_COUNT w !! (method, endpoint)) + 1)%Z]>
             (REQUEST_COUNT w))
          (ACTIVE_USERS w) (YOLO_DETECTIONS w) (GEMINI_API_CALLS w).

(** [track_active_users()], called when [time.time()] reads [now]. *)
Definition track_active_users (now : float) (w : World) : World :=
  if bool_decide ("user_id" ∉ dom (session_state w)) then
    mkWorld (<["user_id" := VNum (PyFloat now)]> (session_state w)) (REQUEST_COUNT w)
            (ACTIVE_USERS w + 1) (YOLO_DETECTIONS w) (GEMINI_API_CALLS w)
  else w.

End Metrics.

(** ** appgen.py: the conversation *)

Module Conversation.
Import Appgen.

(** A message of the history: a dictionary with keys "role" and
    "content". The content of an assistant message is whatever
    [send_amaliai_request] returned. *)
Record Message := mkMessage { role : string; content : json }.

(** [st.session_state]: the three keys of the application, each absent
    until set. [parent_message_id] is [Some None] when set to [None]. *)
Record SessionState := mkSession {
  conversation_id : option string;
  conversation_history : option (list Message);
  parent_message_id : option (option string) }.

(** What Streamlit has been asked to render. *)
Inductive element :=
| Header (text : string)
| Button (label : string)
| Info (text : string)
| Error (text : string)
| Markdown (body : string) (unsafe_allow_html : bool).

(** The application between two reruns: the session, the arrays, the
    requests sent, and what has been rendered in the sidebar and on the
    page. *)
Record App := mkApp {
  session_state : SessionState;
  arrays : list ndarray;
  sent : list Request;
  sidebar : list element;
  page : list element }.

(** The services of [Appgen.Env] and two more. *)
Record Env := mkEnv {
  services : Appgen.Env;
  (** the PNG of an array in base64: [cv2.cvtColor], [Image.fromarray],
      [save] and [base64.b64encode] *)
  png_base64 : ndarray → result string;
  (** [f"{x:.2%}"] *)
  format_percent : float → string;
  (** [str(v)] of a value that is not a string *)
  str_of : json → string }.

(** The module-level initialisation, run with [str(uuid.uuid4())] at
    hand: a key is set only when it is absent. *)
Definition init_session_state (uuid4 : string) (st : SessionState) : SessionState :=
  let st := match conversation_id st with
            | None => mkSession (Some uuid4) (conversation_history st) (parent_message_id st)
            | Some _ => st
            end in
  let st := match conversation_history st with
            | None => mkSession (conversation_id st) (Some []) (parent_message_id st)
            | Some _ => st
            end in
  match parent_message_id st with
  | None => mkSession (conversation_id st) (conversation_history st) (Some None)
  | Some _ => st
  end.

Definition set_session (f : SessionState → SessionState) (a : App) : App :=
  mkApp (f (session_state a)) (arrays a) (sent a) (sidebar a) (page a).

(** [st.sidebar.<widget>(...)] *)
Definition to_sidebar (e : element) : M App unit :=
  modify (λ a, mkApp (session_state a) (arrays a) (sent a) (sidebar a ++ [e]) (page a)).

(** [st.<widget>(...)] *)
Definition to_page (e : element) : M App unit :=
  modify (λ a, mkApp (session_state a) (arrays a) (sent a) (sidebar a) (page a ++ [e])).

(** [st.session_state.conversation_history] *)
Definition get_history : M App (list Message) :=
  a ← get;
  match conversation_history (session_state a) with
  | Some history => mret history
  | None => raise (Exn AttributeError
                     "st.session_state has no attribute 'conversation_history'")
  end.

(** [st.session_state.conversation_history.append(message)] *)
Definition append_message (message : Message) : M App unit :=
  history ← get_history;
  modify (set_session (λ st, mkSession (conversation_id st) (Some (history ++ [message]))
                                       (parent_message_id st))).

(** [xs[-n:]] *)
Definition last_n {A} (n : nat) (xs : list A) : list A := drop (length xs - n) xs.

(** [c[:100] + "..." if len(c) > 100 else c], then formatted into the
    f-string. *)
Definition summary_content (env : Env) (c : json) : result string :=
  match c with
  | JString s =>
      Ok (if 100 <? String.length s then String.substring 0 100 s +:+ "..." else s)
  | JArray items =>
      if 100 <? length items
      then Raise (Exn TypeError "can only concatenate list (not 'str') to list")
      else Ok (str_of env c)
  | JObject members =>
      if 100 <? length members
      then Raise (Exn TypeError "unhashable type: 'slice'")
      else Ok (str_of env c)
  | _ => Raise (Exn TypeError "object has no len()")
  end.

Definition newline : string := String (Ascii.ascii_of_nat 10) "".
Definition indent : string := "                ".

(** The HTML of one entry of the sidebar. *)
Definition entry_html (role content : string) : string :=
  newline +:+ indent
  +:+ "<div style='background-color:#1a4203; padding:8px; margin-bottom:3px; border-radius:5px'>"
  +:+ newline +:+ indent
  +:+ "<strong>" +:+ (if bool_decide (role = "user") then "You" else "GreenAI")
  +:+ ":</strong><br>"
  +:+ newline +:+ indent +:+ content
  +:+ newline +:+ indent +:+ "</div>"
  +:+ newline +:+ indent.

(** [display_conversation_history()], given whether the Clear History
    button was pressed and a fresh [str(uuid.uuid4())]. *)
Definition display_conversation_history (env : Env) (clear_pressed : bool) (uuid4 : string)
    : M App unit :=
  to_sidebar (Header "💬 Conversation History") ;;
  to_sidebar (Button "🗑️ Clear History") ;;
  (if clear_pressed
   then modify (set_session (λ _, mkSession (Some uuid4) (Some []) (Some None)))
   else mret tt) ;;
  history ← get_history;
  match history with
  | [] => to_sidebar (Info "No conversation history yet.")
  | _ =>
      let num_summary_messages := 3 in
      let summary_messages := last_n num_summary_messages history in
      for_each summary_messages (λ message,
        content ← lift (summary_content env (content message));
        to_sidebar (Markdown (entry_html (role message) content) true)) ;;
      let total_messages := length history in
      to_sidebar (Markdown ("**Total Messages:** " +:+ pretty total_messages) false)
  end.

(** The [objects_context] of [main]. *)
Definition objects_context (env : Env) (detected_objects : list Detection) : string :=
  match detected_objects with
  | [] => "No Objects detected"
  | _ =>
      String.concat newline
        ((λ obj, "- " +:+ class obj +:+ " (confidence: "
                 +:+ format_percent env (confidence obj) +:+ ")") <$> detected_objects)
  end.

(** Running a computation over the requests sent inside the application. *)
Definition on_requests {A} (m : M (list Request) A) : M App A := λ a,
  let '(r, sent') := m (sent a) in
  (r, mkApp (session_state a) (arrays a) sent' (sidebar a) (page a)).

(** How the block that processes a question ends: with [st.rerun()],
    which stops the script, or by falling through. *)
Inductive outcome := Rerun | Continue.

(** The last block of [main], [if uploaded_file and question: ...], for an
    uploaded file, given the key read from the environment, the Stream
    Response checkbox, the chat input and what the detection step left. *)
Definition process_question (env : Env) (GEMINI_API_KEY : option string)
    (stream_response : bool) (question : option string)
    (original_image : nat) (detected_objects : list Detection) : M App outcome :=
  let objects_context := objects_context env detected_objects in
  match question with
  | Some (String _ _ as question) =>
      a ← get;
      pixels ← match arrays a !! original_image with
               | Some pixels => mret pixels
               | None => raise (Exn (Other "ReferenceError") "no such array")
               end;
      img_base64 ← lift (png_base64 env pixels);
      let full_prompt :=
        "I have uploaded an image eith the following detected objects: "
        +:+ objects_context +:+ " Question: " +:+ question in
      try_except
        (append_message (mkMessage "user" (JString question)) ;;
         response ← on_requests
           (send_amaliai_request (services env) (default "None" GEMINI_API_KEY)
              full_prompt (Some img_base64) default_model_name stream_response);
         append_message (mkMessage "assistant" response) ;;
         mret Rerun)
        is_Exception
        (λ e, to_page (Error ("An error occured: " +:+ exn_str e)) ;; mret Continue)
  | _ => mret Continue
  end.

End Conversation.

(** ** airflow_dags/yolo_training_pipeline.py: the notification task *)

Module Completion.
Import Py Pipeline.

(** The [summary] dictionary. *)
Record Summary := mkSummary {
  pipeline_date : string;
  summary_model_version : option nat;
  summary_model_quality : string;
  summary_evaluation_metrics : EvaluationMetrics;
  promotion_status : option string;
  mlflow_url : string
}.

(** [notify_completion]. [MLFLOW_TRACKING_URI] is read from the process
    environment when the module is loaded; [promotion_result] is what
    [xcom_pull(task_ids='promote_to_production')] answers: the value the
    promotion task returned. The entries of the dictionary are evaluated
    in the order they are written. *)
Definition notify_completion (MLFLOW_TRACKING_URI : string) (promotion_result : option string)
    (env : Env) (ctx : Context) : M World Summary :=
  model_info ← xcom_pull_model_info "promote_to_production";
  pipeline_date ← datetime_now env;
  model_info ← subscriptable model_info;
  let model_version := model_version model_info in
  model_quality ← getitem "model_quality" (model_quality model_info);
  evaluation_metrics ← getitem "evaluation_metrics" (evaluation_metrics model_info);
  let summary :=
    mkSummary pipeline_date model_version model_quality evaluation_metrics promotion_result
              (MLFLOW_TRACKING_URI +:+ "/#/models/" +:+ MODEL_NAME) in
  mret summary.

Definition notify_task (MLFLOW_TRACKING_URI : string) (promotion_result : option string) :=
  PythonOperator "notify_completion" (notify_completion MLFLOW_TRACKING_URI promotion_result).

(** The whole DAG: the notification task follows the promotion task and
    pulls its return value. *)
Definition dag_run_with_notification (MLFLOW_TRACKING_URI : string) (env : Env)
    : M World Summary :=
  promotion_result ← dag_run env;
  notify_task MLFLOW_TRACKING_URI (Some promotion_result) env.

End Completion.

(** * Properties *)

(** ** Reasoning about computations *)

Module Triples.

(** [hoare P m Q]: from a world satisfying [P], [m] ends, returning or
    raising, in a world that [Q] relates to its result. *)
Definition hoare {S A} (P : S → Prop) (m : M S A) (Q : result A → S → Prop) : Prop :=
  ∀ s, P s → Q (m s).1 (m s).2.

(** [preserves I m]: [I] survives [m], whether it returns or raises. *)
Definition preserves {S A} (I : S → Prop) (m : M S A) : Prop :=
  ∀ s, I s → I (m s).2.

Section rules.
Context {S : Type}.
Implicit Types (I P : S → Prop).

Lemma hoare_bind {A B} P (m : M S A) (k : A → M S B) (Q1 : result A → S → Prop) Q :
  hoare P m Q1 →
  (∀ a, hoare (Q1 (Ok a)) (k a) Q) →
  (∀ e s, Q1 (Raise e) s → Q (Raise e) s) →
  hoare P (m ≫= k) Q.
Proof.
  intros Hm Hk He s Hs. specialize (Hm s Hs).
  unfold mbind, M_bind. destruct (m s) as [[a|e] s1]; cbn in *.
  - by apply Hk.
  - by apply He.
Qed.

Lemma hoare_try_except {A} P (body : M S A) matches handler (Q1 : result A → S → Prop) Q :
  hoare P body Q1 →
  (∀ a s, Q1 (Ok a) s → Q (Ok a) s) →
  (∀ e, matches e = true → hoare (Q1 (Raise e)) (handler e) Q) →
  (∀ e s, matches e = false → Q1 (Raise e) s → Q (Raise e) s) →
  hoare P (try_except body matches handler) Q.
Proof.
  intros Hm Hok Hh He s Hs. specialize (Hm s Hs).
  unfold try_except. destruct (body s) as [[a|e] s1]; cbn in *.
  - by apply Hok.
  - destruct (matches e) eqn:Hmatch.
    + by apply Hh.
    + by apply He.
Qed.

Lemma hoare_weaken {A} P P' (m : M S A) (Q Q' : result A → S → Prop) :
  hoare P' m Q' → (∀ s, P s → P' s) → (∀ r s, Q' r s → Q r s) → hoare P m Q.
Proof. intros Hm HP HQ s Hs. apply HQ, Hm, HP, Hs. Qed.

Lemma preserves_hoare {A} I (m : M S A) : preserves I m → hoare I m (λ _, I).
Proof. intros Hm s Hs. by apply Hm. Qed.

Lemma preserves_ret {A} I (a : A) : preserves I (mret a : M S A).
Proof. by intros s Hs. Qed.

Lemma preserves_raise {A} I e : preserves I (raise e : M S A).
Proof. by intros s Hs. Qed.

Lemma preserves_lift {A} I (r : result A) : preserves I (lift r : M S A).
Proof. by intros s Hs. Qed.

Lemma preserves_get I : preserves I (get : M S S).
Proof. by intros s Hs. Qed.

Lemma preserves_modify I (f : S → S) : (∀ s, I s → I (f s)) → preserves I (modify f).
Proof. intros Hf s Hs. by apply Hf. Qed.

Lemma preserves_bind {A B} I (m : M S A) (k : A → M S B) :
  preserves I m → (∀ a, preserves I (k a)) → preserves I (m ≫= k).
Proof.
  intros Hm Hk s Hs. specialize (Hm s Hs).
  unfold mbind, M_bind. destruct (m s) as [[a|e] s1]; cbn in *; [by apply Hk|done].
Qed.

Lemma preserves_try_except {A} I (body : M S A) matches handler :
  preserves I body → (∀ e, preserves I (handler e)) →
  preserves I (try_except body matches handler).
Proof.
  intros Hm Hh s Hs. specialize (Hm s Hs).
  unfold try_except. destruct (body s) as [[a|e] s1]; cbn in *; [done|].
  destruct (matches e); [by apply Hh|done].
Qed.

Lemma preserves_for_each {A} I (xs : list A) (body : A → M S unit) :
  (∀ x, preserves I (body x)) → preserves I (for_each xs body).
Proof.
  intros Hbody. induction xs as [|x xs IH]; cbn.
  - apply preserves_ret.
  - apply preserves_bind; [apply Hbody|intros _; apply IH].
Qed.

Lemma preserves_getitem {A} I key (field : option A) : preserves I (getitem key field : M S A).
Proof. destruct field; [apply preserves_ret|apply preserves_raise]. Qed.

Lemma preserves_first {A} I (xs : list A) : preserves I (first xs : M S A).
Proof. destruct xs; [apply preserves_raise|apply preserves_ret]. Qed.

(** Running a computation that returns. *)
Lemma bind_Ok {A B} (m : M S A) (k : A → M S B) s a s1 :
  m s = (Ok a, s1) → (m ≫= k) s = k a s1.
Proof. intros Hm. unfold mbind, M_bind. by rewrite Hm. Qed.

Lemma bind_Raise {A B} (m : M S A) (k : A → M S B) s e s1 :
  m s = (Raise e, s1) → (m ≫= k) s = (Raise e, s1).
Proof. intros Hm. unfold mbind, M_bind. by rewrite Hm. Qed.

(** What a returning computation went through. *)
Lemma bind_Ok_inv {A B} (m : M S A) (k : A → M S B) s b s' :
  (m ≫= k) s = (Ok b, s') → ∃ a s1, m s = (Ok a, s1) ∧ k a s1 = (Ok b, s').
Proof.
  unfold mbind, M_bind. destruct (m s) as [[a|e] s1]; [eauto|discriminate].
Qed.

Lemma try_except_Ok_inv {A} (body : M S A) matches handler s a s' :
  try_except body matches handler s = (Ok a, s') →
  body s = (Ok a, s')
  ∨ ∃ e s1, body s = (Raise e, s1) ∧ matches e = true ∧ handler e s1 = (Ok a, s').
Proof.
  unfold try_except. destruct (body s) as [[a1|e] s1]; [by left|].
  destruct (matches e) eqn:Hmatch; [right; eauto|discriminate].
Qed.

End rules.

End Triples.
Import Triples.


(** ** metrics_middleware.py *)

Module MetricsFacts.
Import Metrics.

Lemma track_active_users_new now w :
  session_state w !! "user_id" = None →
  track_active_users now w =
    mkWorld (<["user_id" := VNum (PyFloat now)]> (session_state w)) (REQUEST_COUNT w)
            (ACTIVE_USERS w + 1) (YOLO_DETECTIONS w) (GEMINI_API_CALLS w).
Proof.
  intros Hnone. unfold track_active_users.
  rewrite bool_decide_eq_true_2; [done|].
  by apply not_elem_of_dom.
Qed.

Lemma track_active_users_known now w :
  is_Some (session_state w !! "user_id") → track_active_users now w = w.
Proof.
  intros Hsome. unfold track_active_users.
  rewrite bool_decide_eq_false_2; [done|].
  intros Hnot. by apply not_elem_of_dom in Hnot; rewrite Hnot in Hsome; destruct Hsome.
Qed.

Lemma track_active_users_sets_id now w :
  is_Some (session_state (track_active_users now w) !! "user_id").
Proof.
  destruct (session_state w !! "user_id") as [v|] eqn:Hid.
  - rewrite track_active_users_known; rewrite Hid; eauto.
  - rewrite track_active_users_new by done. cbn. rewrite lookup_insert_eq. eauto.
Qed.

Lemma track_active_users_gauge now w :
  (ACTIVE_USERS w ≤ ACTIVE_USERS (track_active_users now w) ≤ ACTIVE_USERS w + 1)%Z.
Proof.
  destruct (session_state w !! "user_id") as [v|] eqn:Hid.
  - rewrite track_active_users_known by (rewrite Hid; eauto). lia.
  - rewrite track_active_users_new by done. cbn. lia.
Qed.

(** In a session that has been tracked, further calls change nothing,
    whatever the clock reads. *)
Lemma track_active_users_again nows now w :
  foldl (λ w t, track_active_users t w) (track_active_users now w) nows
  = track_active_users now w.
Proof.
  induction nows as [|t nows IH]; [done|]. cbn.
  rewrite (track_active_users_known t) by apply track_active_users_sets_id.
  apply IH.
Qed.

(** C9. The first call in a session (no "user_id" in the session state)
    stores a user id and adds exactly one to the gauge, touching nothing
    else; a call in a session that has a user id changes nothing; hence a
    second call never changes what the first left, and any number of calls
    in one session adds at most one to the gauge. *)
Theorem track_active_users_once_per_session :
  (∀ now w, session_state w !! "user_id" = None →
     let w' := track_active_users now w in
     session_state w' = <["user_id" := VNum (PyFloat now)]> (session_state w)
     ∧ ACTIVE_USERS w' = (ACTIVE_USERS w + 1)%Z
     ∧ REQUEST_COUNT w' = REQUEST_COUNT w
     ∧ YOLO_DETECTIONS w' = YOLO_DETECTIONS w
     ∧ GEMINI_API_CALLS w' = GEMINI_API_CALLS w)
  ∧ (∀ now w, is_Some (session_state w !! "user_id") → track_active_users now w = w)
  ∧ (∀ now now' w,
       track_active_users now' (track_active_users now w) = track_active_users now w)
  ∧ (∀ nows w,
       (ACTIVE_USERS w ≤ ACTIVE_USERS (foldl (λ w t, track_active_users t w) w nows)
        ≤ ACTIVE_USERS w + 1)%Z).
Proof.
  split_and!.
  - intros now w Hnone. cbn zeta. by rewrite track_active_users_new.
  - apply track_active_users_known.
  - intros now now' w. apply track_active_users_known, track_active_users_sets_id.
  - intros [|now nows] w; cbn; [lia|].
    rewrite track_active_users_again. apply track_active_users_gauge.
Qed.

(** A fresh session, tracked at two clock readings. *)
Definition fresh_session : World := mkWorld ∅ ∅ 0 0 ∅.

Lemma track_active_users_once_per_session_witness :
  ACTIVE_USERS (track_active_users 1.5 fresh_session) = 1%Z
  ∧ track_active_users 2.5 (track_active_users 1.5 fresh_session)
    = track_active_users 1.5 fresh_session.
Proof.
  destruct track_active_users_once_per_session as (Hfirst & Hknown & _ & _).
  split.
  - apply (Hfirst 1.5%float fresh_session). reflexivity.
  - apply (Hknown 2.5%float (track_active_users 1.5 fresh_session)).
    vm_compute. eauto.
Defined.

End MetricsFacts.

(** ** appgen.py *)

Module AppgenFacts.
Import Appgen.

(** *** Detection *)

(** A model that reports one box of class 0 with confidence 0.1. *)
Definition faint_model : Model :=
  mkModel {[ 0%Z := "blight" ]}
          (λ _, Ok [[mkBox [0%float] [0.1%float] [[1%float; 2%float; 3%float; 4%float]]]]).

Definition faint_env : Env :=
  mkEnv (Ok faint_model) (λ _, Ok (mkArray [1; 1; 3]%nat [0; 0; 0]%Z))
        (λ a _ _ _ _, Ok a) (λ a _ _ _ _ _, Ok a) (λ _, "0.10")
        (λ _, Raise (Exn ConnectionError "unreachable")).

Definition leaf_png : UploadedFile := mkFile "leaf.png" [137; 80; 78; 71]%Z.

(** C8. [detect_objects] gives the same result, in the same store, for any
    two thresholds; the detection step of [main] gives the same result for
    any two slider values; and a detection of confidence 0.1 is returned
    under a threshold of 0.9. *)
Theorem detect_objects_ignores_threshold :
  (∀ env image t1 t2 h, detect_objects env image t1 h = detect_objects env image t2 h)
  ∧ (∀ env t1 t2 uploaded_file h,
       main_detection env t1 uploaded_file h = main_detection env t2 uploaded_file h)
  ∧ (∀ h, (detect_objects faint_env leaf_png 0.9 h).1
          = Ok (length h, [mkDetection "blight" 0.1 (1, 2, 3, 4)%Z])).
Proof.
  split_and!.
  - intros env image t1 t2 h. reflexivity.
  - intros env t1 t2 uploaded_file h. reflexivity.
  - intros h. reflexivity.
Qed.

(** *** Rendering *)

(** What the drawing calls may change in a store that extends [h] by one
    array: nothing that was in [h]. *)
Definition extends_by_one (h h' : list ndarray) : Prop :=
  length h' = S (length h) ∧ ∀ ref a, h !! ref = Some a → h' !! ref = Some a.

Lemma in_place_extends h draw :
  preserves (extends_by_one h) (in_place (length h) draw).
Proof.
  intros h' [Hlen Hold]. unfold in_place, deref.
  unfold mbind, M_bind, get; cbn.
  destruct (h' !! length h) as [a|] eqn:Ha; cbn; [|done].
  unfold lift. destruct (draw a) as [a'|e]; cbn; [|done].
  split.
  - by rewrite length_insert.
  - intros ref b Hb. rewrite list_lookup_insert_ne; [by apply Hold|].
    apply lookup_lt_Some in Hb. lia.
Qed.

Lemma copy_returns image h a :
  h !! image = Some a → copy image h = (Ok (length h), h ++ [a]).
Proof.
  intros Ha. unfold copy, deref, alloc, mbind, M_bind, get; cbn. by rewrite Ha.
Qed.

Lemma copy_raises image h :
  h !! image = None → ∃ e, copy image h = (Raise e, h).
Proof.
  intros Ha. unfold copy, deref, alloc, mbind, M_bind, get; cbn. rewrite Ha. eauto.
Qed.

(** C10. [visualize_detections] changes no array that was in the store
    when it was called, the caller's image among them; what it returns is
    a new array, not the image; and with nothing to draw the new array has
    the image's contents. *)
Theorem visualize_detections_leaves_input env image detections h :
  let r := visualize_detections env image detections h in
  (∀ ref a, h !! ref = Some a → r.2 !! ref = Some a)
  ∧ (∀ out, r.1 = Ok out →
       out = length h ∧ out ≠ image ∧ h !! out = None ∧ is_Some (r.2 !! out))
  ∧ (detections = [] → is_Some (h !! image) →
       r.1 = Ok (length h) ∧ r.2 !! length h = h !! image).
Proof.
  cbn zeta. unfold visualize_detections.
  destruct (h !! image) as [a|] eqn:Ha.
  - rewrite (bind_Ok _ _ _ _ _ (copy_returns _ _ _ Ha)).
    set (loop := for_each detections _).
    assert (Hloop : extends_by_one h (loop (h ++ [a])).2).
    { apply preserves_for_each.
      - intros det. destruct (bbox det) as [[[x1 y1] x2] y2].
        apply preserves_bind; [apply in_place_extends|].
        intros _. apply in_place_extends.
      - split; [rewrite length_app; cbn; lia|].
        intros ref b Hb. by apply lookup_app_l_Some. }
    destruct Hloop as [Hlen Hold].
    unfold mbind, M_bind. destruct (loop (h ++ [a])) as [[[]|e] h'] eqn:Hrun; cbn in *.
    + split_and!; [done| |].
      * intros out [= <-]. split_and!; [done| | |].
        -- apply lookup_lt_Some in Ha. lia.
        -- by apply lookup_ge_None.
        -- apply lookup_lt_is_Some. lia.
      * intros -> _. subst loop. cbn in Hrun. injection Hrun as <-.
        split; [done|]. by rewrite lookup_app_r, Nat.sub_diag.
    + split_and!; [done|discriminate|].
      intros -> _. subst loop. cbn in Hrun. discriminate.
  - destruct (copy_raises _ _ Ha) as [e He].
    rewrite (bind_Raise _ _ _ _ _ He). cbn.
    split_and!; [done|discriminate|]. intros _ [? ?]; discriminate.
Qed.

(** An upload decoded into a store, then rendered with one detection. *)
Lemma visualize_detections_leaves_input_witness :
  let h := [mkArray [1; 1; 3]%nat [9; 9; 9]%Z] in
  (visualize_detections faint_env 0 [mkDetection "blight" 0.1 (1, 2, 3, 4)%Z] h).2 !! 0%nat
  = Some (mkArray [1; 1; 3]%nat [9; 9; 9]%Z).
Proof.
  cbn zeta.
  destruct (visualize_detections_leaves_input faint_env 0
              [mkDetection "blight" 0.1 (1, 2, 3, 4)%Z]
              [mkArray [1; 1; 3]%nat [9; 9; 9]%Z]) as (Hframe & _ & _).
  apply Hframe. reflexivity.
Defined.

(** *** The chat request *)

(** A reply with status 200 whose only candidate was blocked and carries
    no content. *)
Definition blocked_reply : Response :=
  mkResponse 200 (Ok (JObject [("candidates",
                        JArray [JObject [("finishReason", JString "SAFETY")]])])).

Definition blocked_env : Env :=
  mkEnv (Ok faint_model) (λ _, Ok (mkArray [] [])) (λ a _ _ _ _, Ok a)
        (λ a _ _ _ _ _, Ok a) (λ _, "") (λ _, Ok blocked_reply).

(** C6, on the code. With a text prompt alone ([image_base64] left at
    [None], or empty) the call raises KeyError('content') to its caller,
    before any request is sent, whatever the endpoint would answer; and
    with an image, a reply without the expected members raises to the
    caller as well. *)
Theorem send_amaliai_request_text_only_raises :
  (∀ env api_key prompt model_name stream sent,
     send_amaliai_request env api_key prompt None model_name stream sent
     = (Raise (Exn KeyError "'content'"), sent))
  ∧ (∀ env api_key prompt model_name stream sent,
       send_amaliai_request env api_key prompt (Some "") model_name stream sent
       = (Raise (Exn KeyError "'content'"), sent))
  ∧ (send_amaliai_request blocked_env "k" "What is this?" (Some "aGk=")
       default_model_name default_stream []).1
    = Raise (Exn KeyError "'content'").
Proof.
  split_and!.
  - intros. reflexivity.
  - intros. reflexivity.
  - reflexivity.
Qed.

End AppgenFacts.

(** ** airflow_dags/yolo_training_pipeline.py *)

Module PipelineFacts.
Import Pipeline.

(** *** Counting Production versions *)

(** The Production versions among the entries of one name. *)
Definition prod_count (vs : list VersionEntry) : nat :=
  length (filter (λ e, current_stage e = Production) vs).

(** 1 for an entry in Production, 0 for any other. *)
Definition in_production (e : VersionEntry) : nat :=
  if decide (current_stage e = Production) then 1 else 0.

Lemma prod_count_cons e vs : prod_count (e :: vs) = in_production e + prod_count vs.
Proof.
  unfold prod_count, in_production. rewrite filter_cons.
  by destruct (decide (current_stage e = Production)).
Qed.

Lemma prod_count_app vs1 vs2 : prod_count (vs1 ++ vs2) = prod_count vs1 + prod_count vs2.
Proof. unfold prod_count. by rewrite filter_app, length_app. Qed.

Lemma production_count_eq name w :
  production_count name w = prod_count (default [] (registered_models w !! name)).
Proof. reflexivity. Qed.

(** Rewriting one entry moves the count by what the entry gains or loses. *)
Lemma prod_count_alter f i vs e :
  vs !! i = Some e →
  prod_count (alter f i vs) + in_production e = prod_count vs + in_production (f e).
Proof.
  revert i. induction vs as [|x vs IH]; intros [|i] Hi; try done.
  - injection Hi as ->. change (alter f 0 (e :: vs)) with (f e :: vs).
    rewrite !prod_count_cons. lia.
  - cbn in Hi. change (alter f (S i) (x :: vs)) with (x :: alter f i vs).
    rewrite !prod_count_cons. specialize (IH i Hi). lia.
Qed.

Lemma alter_None {A} (f : A → A) i (l : list A) : l !! i = None → alter f i l = l.
Proof.
  revert i. induction l as [|x l IH]; intros [|i] Hi; try done.
  cbn in Hi. change (alter f (S i) (x :: l)) with (x :: alter f i l). by rewrite IH.
Qed.

Lemma prod_count_zero vs :
  prod_count vs = 0 ↔ ∀ i e, vs !! i = Some e → current_stage e ≠ Production.
Proof.
  induction vs as [|x vs IH].
  - split; [by intros _ i e|done].
  - rewrite prod_count_cons. unfold in_production. split.
    + intros Hzero [|i] e Hi.
      * injection Hi as <-. by destruct (decide (current_stage x = Production)).
      * cbn in Hi. apply IH in Hi; [done|lia].
    + intros Hall. rewrite decide_False by apply (Hall 0 x eq_refl).
      cbn. apply IH. intros i e Hi. by apply (Hall (S i)).
Qed.

(** What the registry answers when asked for the versions in a stage. *)
Lemma elem_of_versions_in st vs mv :
  mv ∈ versions_in st vs ↔
  ∃ i e, vs !! i = Some e ∧ current_stage e = st ∧ mv = mkVersion (S i) (source_run e) st.
Proof.
  unfold versions_in. rewrite list_elem_of_omap. split.
  - intros ([i e] & Hin & Hsome). apply elem_of_lookup_imap in Hin as (j & y & [= -> ->] & Hj).
    cbn in Hsome. case_bool_decide; [|done]. injection Hsome as <-. eauto.
  - intros (i & e & Hi & Hst & ->). exists (i, e). split.
    + apply elem_of_lookup_imap. eauto.
    + cbn. by rewrite bool_decide_eq_true_2.
Qed.

Lemma latest_None st vs :
  last (versions_in st vs) = None → ∀ i e, vs !! i = Some e → current_stage e ≠ st.
Proof.
  intros Hlast i e Hi Hst. apply last_None in Hlast.
  assert (Hin : mkVersion (S i) (source_run e) st ∈ versions_in st vs)
    by (apply elem_of_versions_in; eauto).
  rewrite Hlast in Hin. by apply elem_of_nil in Hin.
Qed.

Lemma latest_Some st vs mv :
  last (versions_in st vs) = Some mv →
  ∃ i e, vs !! i = Some e ∧ current_stage e = st ∧ mv = mkVersion (S i) (source_run e) st.
Proof.
  intros Hlast. apply elem_of_versions_in.
  apply last_Some in Hlast as [l ->]. apply elem_of_app. right. by apply list_elem_of_singleton.
Qed.

(** The entry written by a stage transition. *)
Definition staged (st : Stage) (e : VersionEntry) : VersionEntry :=
  mkEntry (source_run e) st (tags e).

(** The entry written by setting a tag. *)
Definition tagged (key value : string) (e : VersionEntry) : VersionEntry :=
  mkEntry (source_run e) (current_stage e) (<[key := value]> (tags e)).

(** Archiving the latest Production version of a name that has at most
    one leaves the name with none. *)
Lemma prod_count_archive_latest vs mv :
  prod_count vs ≤ 1 →
  last (versions_in Production vs) = Some mv →
  ∃ i e, version mv = S i ∧ vs !! i = Some e ∧ current_stage e = Production
         ∧ prod_count (alter (staged Archived) i vs) = 0.
Proof.
  intros Hone Hlast. apply latest_Some in Hlast as (i & e & Hi & Hst & ->).
  exists i, e. split_and!; try done.
  pose proof (prod_count_alter (staged Archived) i vs e Hi) as Hcount.
  unfold in_production in Hcount. cbn in Hcount.
  rewrite decide_True in Hcount by done. rewrite decide_False in Hcount by done. lia.
Qed.

Lemma prod_count_promote vs i e :
  vs !! i = Some e → prod_count vs = 0 → prod_count (alter (staged Production) i vs) = 1.
Proof.
  intros Hi Hzero.
  pose proof (prod_count_alter (staged Production) i vs e Hi) as Hcount.
  pose proof (proj1 (prod_count_zero vs) Hzero i e Hi) as Hnot.
  unfold in_production in Hcount. cbn in Hcount.
  repeat case_decide; try done; lia.
Qed.

Lemma prod_count_tagged key value vs i :
  prod_count (alter (tagged key value) i vs) = prod_count vs.
Proof.
  destruct (vs !! i) as [e|] eqn:Hi.
  - pose proof (prod_count_alter (tagged key value) i vs e Hi) as Hcount.
    unfold in_production in Hcount. cbn in Hcount. lia.
  - by rewrite alter_None.
Qed.

Lemma prod_count_demote st vs i :
  st ≠ Production → prod_count (alter (staged st) i vs) ≤ prod_count vs.
Proof.
  intros Hst. destruct (vs !! i) as [e|] eqn:Hi.
  - pose proof (prod_count_alter (staged st) i vs e Hi) as Hcount.
    unfold in_production in Hcount. cbn in Hcount.
    rewrite (decide_False (P := st = Production)) in Hcount by done. lia.
  - by rewrite alter_None.
Qed.


(** *** The tracking server *)

(** The experiments once [setup_mlflow] has run. *)
Definition with_experiment (es : list string) : list string :=
  if bool_decide (EXPERIMENT_NAME ∈ es) then es else es ++ [EXPERIMENT_NAME].

Lemma setup_mlflow_eq w : setup_mlflow w = (Ok tt, set_experiments with_experiment w).
Proof.
  destruct w as [es rs rm xd xm tc ck].
  unfold setup_mlflow, try_except, get_experiment_by_name, create_experiment,
    set_experiment, with_experiment, set_experiments, mbind, M_bind, mret, M_ret, get, modify.
  cbn. destruct (bool_decide (EXPERIMENT_NAME ∈ es)) eqn:Hin; cbn.
  - by rewrite Hin.
  - rewrite Hin. cbn. rewrite bool_decide_eq_true_2; [done|].
    apply elem_of_app. right. by apply list_elem_of_singleton.
Qed.

(** A property of the registry alone. *)
Definition on_registry (P : gmap string (list VersionEntry) → Prop) : World → Prop :=
  λ w, P (registered_models w).

(** Structural steps for [preserves] goals about the registry; the
    primitives below are closed with it. *)
Ltac keeps :=
  repeat first
    [ assumption
    | match goal with H : _ |- preserves _ _ => apply H end
    | apply preserves_ret | apply preserves_raise | apply preserves_lift
    | apply preserves_get | apply preserves_getitem | apply preserves_first
    | apply preserves_modify; intros ? ?; assumption
    | apply preserves_bind; [|intros ?]
    | apply preserves_try_except; [|intros ?]
    | apply preserves_for_each; intros ?
    | match goal with
      | |- preserves _ (match ?x with _ => _ end) => destruct x
      end ].

Section keeps_registry.
Context (P : gmap string (list VersionEntry) → Prop).
Local Abbreviation I := (on_registry P).

Lemma keeps_setup_mlflow : preserves I setup_mlflow.
Proof. intros w Hw. by rewrite setup_mlflow_eq. Qed.

Lemma keeps_get_run rid : preserves I (get_run rid).
Proof. unfold get_run, MlflowError. keeps. Qed.

Lemma keeps_log_param env rid key v : preserves I (log_param env rid key v).
Proof. unfold log_param, MlflowError. pose proof keeps_get_run. keeps. Qed.

Lemma keeps_log_params env rid kvs : preserves I (log_params env rid kvs).
Proof. unfold log_params. pose proof keeps_log_param. keeps. Qed.

Lemma keeps_log_metric rid key x : preserves I (log_metric rid key x).
Proof. unfold log_metric. pose proof keeps_get_run. keeps. Qed.

Lemma keeps_log_artifact rid path : preserves I (log_artifact rid path).
Proof. unfold log_artifact. pose proof keeps_get_run. keeps. Qed.

Lemma keeps_end_run {A} rid (body : M World A) : preserves I body → preserves I (end_run rid body).
Proof.
  intros Hbody w Hw. specialize (Hbody w Hw). unfold end_run.
  by destruct (body w) as [[a|e] w'].
Qed.

Lemma keeps_start_run {A} name (body : nat → M World A) :
  (∀ run, preserves I (body run)) → preserves I (start_run name body).
Proof.
  intros Hbody. unfold start_run.
  apply preserves_bind; [apply preserves_get|intros w].
  apply preserves_bind; [by apply preserves_modify|intros _].
  by apply keeps_end_run.
Qed.

Lemma keeps_resume_run {A} rid (body : nat → M World A) :
  (∀ run, preserves I (body run)) → preserves I (resume_run rid body).
Proof.
  intros Hbody. unfold resume_run, MlflowError.
  apply preserves_bind; [apply preserves_get|intros w].
  destruct (runs w !! rid); [|apply preserves_raise].
  apply preserves_bind; [by apply preserves_modify|intros _].
  by apply keeps_end_run.
Qed.

Lemma keeps_datetime_now env : preserves I (datetime_now env).
Proof. unfold datetime_now. keeps. Qed.

Lemma keeps_xcom_push_dataset_info ctx d : preserves I (xcom_push_dataset_info ctx d).
Proof. unfold xcom_push_dataset_info. keeps. Qed.

Lemma keeps_xcom_push_model_info ctx m : preserves I (xcom_push_model_info ctx m).
Proof. unfold xcom_push_model_info. keeps. Qed.

Lemma keeps_xcom_pull_dataset_info t : preserves I (xcom_pull_dataset_info t).
Proof. unfold xcom_pull_dataset_info. keeps. Qed.

Lemma keeps_xcom_pull_model_info t : preserves I (xcom_pull_model_info t).
Proof. unfold xcom_pull_model_info. keeps. Qed.

Lemma keeps_subscriptable {A} (pulled : option A) : preserves I (subscriptable pulled).
Proof. unfold subscriptable. keeps. Qed.

Lemma keeps_get_latest_versions name stage : preserves I (get_latest_versions name stage).
Proof. unfold get_latest_versions, MlflowError. keeps. Qed.

Lemma keeps_log_params_pulled env run d : preserves I (log_params_pulled env run d).
Proof. unfold log_params_pulled. pose proof keeps_log_params. keeps. Qed.

End keeps_registry.

(** The tasks that never write to the registry. *)
Section registry_untouched.
Context (P : gmap string (list VersionEntry) → Prop) (env : Env) (ctx : Context).
Local Abbreviation I := (on_registry P).

Lemma keeps_prepare_dataset : preserves I (prepare_dataset env ctx).
Proof.
  unfold prepare_dataset.
  apply preserves_bind; [apply keeps_setup_mlflow|intros _].
  apply preserves_bind; [|intros _].
  - apply keeps_start_run. intros run.
    pose proof (keeps_log_params P). pose proof (keeps_log_metric P). keeps.
  - pose proof (keeps_xcom_push_dataset_info P). keeps.
Qed.

Lemma keeps_evaluate_model : preserves I (evaluate_model env ctx).
Proof.
  unfold evaluate_model.
  pose proof (keeps_setup_mlflow P). pose proof (keeps_xcom_pull_model_info P).
  pose proof (@keeps_subscriptable P).
  apply preserves_bind; [keeps|intros pulled].
  apply preserves_bind; [keeps|intros _].
  apply preserves_bind; [keeps|intros model_info].
  apply keeps_resume_run. intros run.
  pose proof (keeps_log_param P). pose proof (keeps_log_metric P).
  pose proof (keeps_xcom_push_model_info P). keeps.
Qed.

Lemma keeps_run_ab_test : preserves I (run_ab_test env ctx).
Proof.
  unfold run_ab_test.
  pose proof (keeps_setup_mlflow P). pose proof (keeps_xcom_pull_model_info P).
  pose proof (@keeps_subscriptable P). pose proof (keeps_get_latest_versions P).
  pose proof (keeps_get_run P). pose proof (keeps_xcom_push_model_info P).
  apply preserves_bind; [keeps|intros pulled].
  apply preserves_bind; [keeps|intros _].
  apply preserves_try_except; [|intros e; apply preserves_raise].
  apply preserves_bind; [|intros ab; keeps].
  apply preserves_try_except; [|intros e; keeps].
  do 5 (apply preserves_bind; [keeps|intros ?]).
  apply preserves_bind; [|intros _; keeps].
  apply keeps_start_run. intros run. apply keeps_log_params.
Qed.

End registry_untouched.

(** *** The registry *)

Lemma stage_of_string_Production : stage_of_string "Production" = Some Production.
Proof. reflexivity. Qed.

Lemma stage_of_string_Archived : stage_of_string "Archived" = Some Archived.
Proof. reflexivity. Qed.

Lemma stage_of_string_Staging : stage_of_string "Staging" = Some Staging.
Proof. reflexivity. Qed.

(** A rewrite of a version either fails and changes nothing, or rewrites
    the entry of an existing version. *)
Lemma update_version_cases name v f w :
  (∃ e, update_version name v f w = (Raise e, w))
  ∨ (∃ vs i e, registered_models w !! name = Some vs ∧ v = Some (S i) ∧ vs !! i = Some e
       ∧ update_version name v f w
         = (Ok tt, set_registered_models (<[name := alter f i vs]>) w)).
Proof.
  unfold update_version, MlflowError, raise, mbind, M_bind, get, modify. cbn.
  destruct (registered_models w !! name) as [vs|] eqn:Hname; [|left; eauto].
  destruct v as [[|i]|]; [left; eauto| |left; eauto].
  destruct (vs !! i) as [e|] eqn:Hi; [|left; eauto].
  right. exists vs, i, e. eauto.
Qed.

Lemma update_version_eq name i f w vs e :
  registered_models w !! name = Some vs → vs !! i = Some e →
  update_version name (Some (S i)) f w
  = (Ok tt, set_registered_models (<[name := alter f i vs]>) w).
Proof.
  intros Hname Hi.
  unfold update_version, mbind, M_bind, get, modify. cbn. by rewrite Hname, Hi.
Qed.

Lemma get_latest_versions_eq name w vs :
  registered_models w !! name = Some vs →
  get_latest_versions name "Production" w
  = (Ok (match last (versions_in Production vs) with Some mv => [mv] | None => [] end), w).
Proof.
  intros Hname. unfold get_latest_versions, mbind, M_bind, get. cbn. by rewrite Hname.
Qed.

Lemma transition_eq name v stage st :
  stage_of_string stage = Some st →
  transition_model_version_stage name v stage = update_version name v (staged st).
Proof. intros Hst. unfold transition_model_version_stage. by rewrite Hst. Qed.

Lemma set_tag_eq name v key value :
  set_model_version_tag name v key value = update_version name v (tagged key value).
Proof. reflexivity. Qed.

(** At most one Production version under every name. *)
Definition single_production (rm : gmap string (list VersionEntry)) : Prop :=
  ∀ name, prod_count (default [] (rm !! name)) ≤ 1.

Lemma single_production_count w :
  on_registry single_production w ↔ ∀ name, production_count name w ≤ 1.
Proof. reflexivity. Qed.

Lemma single_production_insert rm name vs :
  single_production rm → prod_count vs ≤ 1 → single_production (<[name := vs]> rm).
Proof.
  intros Hrm Hvs name'. destruct (decide (name = name')) as [->|Hne].
  - by rewrite lookup_insert_eq.
  - rewrite lookup_insert_ne by done. apply Hrm.
Qed.

(** A rewrite that puts no entry into Production keeps the invariant. *)
Lemma keeps_single_update name v f :
  (∀ e, in_production (f e) ≤ in_production e) →
  preserves (on_registry single_production) (update_version name v f).
Proof.
  intros Hf w Hw.
  destruct (update_version_cases name v f w) as [[e ->]|(vs & i & e & Hname & -> & Hi & ->)];
    [done|].
  cbn. apply single_production_insert; [done|].
  pose proof (prod_count_alter f i vs e Hi) as Hcount.
  specialize (Hw name). rewrite Hname in Hw. change (prod_count vs ≤ 1) in Hw.
  specialize (Hf e). lia.
Qed.

Lemma keeps_single_transition name v stage :
  stage ≠ "Production" →
  preserves (on_registry single_production) (transition_model_version_stage name v stage).
Proof.
  intros Hstage.
  destruct (stage_of_string stage) as [st|] eqn:Hst;
    [|unfold transition_model_version_stage; rewrite Hst; apply preserves_raise].
  rewrite (transition_eq _ _ _ _ Hst). apply keeps_single_update. intros e. unfold in_production. cbn.
  destruct (decide (st = Production)) as [->|]; [|lia].
  exfalso. apply Hstage. unfold stage_of_string in Hst.
  repeat case_bool_decide; by simplify_eq.
Qed.

Lemma keeps_single_tag name v key value :
  preserves (on_registry single_production) (set_model_version_tag name v key value).
Proof. apply keeps_single_update. intros e. unfold in_production. cbn. lia. Qed.

Lemma keeps_single_create name rid :
  preserves (on_registry single_production) (create_model_version name rid).
Proof.
  intros w Hw. unfold create_model_version, mbind, M_bind, get, modify. cbn.
  apply single_production_insert; [done|].
  rewrite prod_count_app, prod_count_cons. specialize (Hw name).
  unfold in_production. cbn. rewrite decide_False by done. lia.
Qed.

(** A promotion from a world whose model name has no Production version. *)
Lemma promote_from_none name v w :
  on_registry single_production w → production_count name w = 0 →
  on_registry single_production (transition_model_version_stage name v "Production" w).2.
Proof.
  intros Hw Hzero. rewrite (transition_eq _ _ _ _ stage_of_string_Production).
  destruct (update_version_cases name v (staged Production) w)
    as [[e ->]|(vs & i & e & Hname & -> & Hi & ->)]; [done|].
  cbn. apply single_production_insert; [done|].
  rewrite production_count_eq, Hname in Hzero. change (prod_count vs = 0) in Hzero.
  by rewrite (prod_count_promote vs i e).
Qed.

(** The block that archives the current Production version. *)
Definition archive_current : M World unit :=
  try_except
    (latest ← get_latest_versions MODEL_NAME "Production";
     current_prod ← first latest;
     transition_model_version_stage MODEL_NAME (Some (version current_prod)) "Archived")
    is_IndexError
    (λ _, mret tt).

(** The entries of the model name after [archive_current]. *)
Definition archived (vs : list VersionEntry) : list VersionEntry :=
  match last (versions_in Production vs) with
  | Some mv => alter (staged Archived) (pred (version mv)) vs
  | None => vs
  end.

Lemma archive_current_eq w vs :
  registered_models w !! MODEL_NAME = Some vs →
  archive_current w
  = (Ok tt, match last (versions_in Production vs) with
            | Some _ => set_registered_models (<[MODEL_NAME := archived vs]>) w
            | None => w
            end).
Proof.
  intros Hname. unfold archive_current, try_except, archived.
  rewrite (bind_Ok _ _ _ _ _ (get_latest_versions_eq _ _ _ Hname)).
  destruct (last (versions_in Production vs)) as [mv|] eqn:Hlast; [|done].
  apply latest_Some in Hlast as (i & e & Hi & Hst & ->).
  rewrite (bind_Ok (first [_]) _ w _ w eq_refl). cbv beta. simpl version. simpl pred.
  rewrite (transition_eq _ _ _ _ stage_of_string_Archived).
  by rewrite (update_version_eq _ _ _ _ _ _ Hname Hi).
Qed.

Lemma archive_current_post :
  hoare (on_registry single_production) archive_current
        (λ r w, on_registry single_production w
                ∧ (r = Ok tt → production_count MODEL_NAME w = 0)).
Proof.
  intros w Hw.
  destruct (registered_models w !! MODEL_NAME) as [vs|] eqn:Hname.
  - rewrite (archive_current_eq _ _ Hname). cbn.
    pose proof (Hw MODEL_NAME) as Hone. rewrite Hname in Hone.
    change (prod_count vs ≤ 1) in Hone.
    unfold archived.
    destruct (last (versions_in Production vs)) as [mv|] eqn:Hlast.
    + destruct (prod_count_archive_latest vs mv Hone Hlast) as (i & e & -> & Hi & Hst & Hzero).
      cbn. split.
      * apply single_production_insert; [done|]. lia.
      * intros _. rewrite production_count_eq. cbn. by rewrite lookup_insert_eq.
    + split; [done|]. intros _. rewrite production_count_eq, Hname. cbn.
      apply prod_count_zero. by apply latest_None.
  - unfold archive_current, try_except, get_latest_versions, mbind, M_bind, get. cbn.
    rewrite Hname. cbn. by split.
Qed.

(** *** One Production version at most: every task keeps it so *)

Section single_production_tasks.
Context (env : Env) (ctx : Context).
Local Abbreviation J := (on_registry single_production).

Lemma keeps_single_train : preserves J (train_yolo_model env ctx).
Proof.
  unfold train_yolo_model.
  apply preserves_bind; [apply keeps_xcom_pull_dataset_info|intros dataset_info].
  apply preserves_bind; [apply keeps_setup_mlflow|intros _].
  apply keeps_start_run. intros run.
  apply preserves_bind; [apply keeps_log_params|intros _].
  apply preserves_bind; [apply keeps_log_params_pulled|intros _].
  apply preserves_try_except.
  - apply preserves_bind; [apply preserves_lift|intros _].
    apply preserves_bind; [by apply preserves_modify|intros _].
    apply preserves_bind; [apply preserves_lift|intros results].
    apply preserves_bind; [|intros _].
    { pose proof (keeps_log_metric single_production). keeps. }
    apply preserves_bind; [|intros _].
    { unfold pytorch_log_model.
      apply preserves_bind; [apply keeps_log_artifact|intros _].
      apply preserves_bind; [apply keeps_single_create|intros _]. apply preserves_ret. }
    apply preserves_bind; [apply keeps_log_artifact|intros _].
    apply preserves_bind; [apply keeps_xcom_push_model_info|intros _]. apply preserves_ret.
  - intros e. pose proof (keeps_log_param single_production). keeps.
Qed.

Lemma keeps_single_register : preserves J (register_model env ctx).
Proof.
  unfold register_model.
  apply preserves_bind; [apply keeps_xcom_pull_model_info|intros pulled].
  apply preserves_bind; [apply keeps_setup_mlflow|intros _].
  apply preserves_try_except; [|intros e; apply preserves_raise].
  apply preserves_bind; [apply keeps_subscriptable|intros model_info].
  apply preserves_bind; [apply preserves_getitem|intros quality].
  apply preserves_bind; [|intros registered].
  { unfold mlflow_register_model.
    apply preserves_bind; [apply keeps_get_run|intros _]. apply keeps_single_create. }
  apply preserves_bind; [|intros _].
  { case_bool_decide; [|apply preserves_ret].
    apply preserves_bind; [by apply keeps_single_transition|intros _].
    apply preserves_bind; [apply keeps_single_tag|intros _].
    apply preserves_bind; [apply keeps_datetime_now|intros now].
    apply keeps_single_tag. }
  apply preserves_bind; [apply keeps_xcom_push_model_info|intros _]. apply preserves_ret.
Qed.

Lemma keeps_single_promote : preserves J (promote_to_production env ctx).
Proof.
  unfold promote_to_production.
  apply preserves_bind; [apply keeps_xcom_pull_model_info|intros pulled].
  apply preserves_bind; [apply keeps_setup_mlflow|intros _].
  apply preserves_try_except; [|intros e; apply preserves_raise].
  apply preserves_bind; [apply keeps_subscriptable|intros model_info].
  apply preserves_bind; [apply preserves_getitem|intros ab_results].
  apply preserves_bind; [apply preserves_getitem|intros quality].
  destruct (should_promote quality ab_results); [|apply preserves_ret].
  fold archive_current.
  intros w Hw. revert w Hw. apply (hoare_bind _ _ _ _ (λ _, J) archive_current_post).
  - intros []. apply (hoare_bind _ _ _ (λ _, J)).
    + intros w [Hw Hzero]. apply promote_from_none; [done|by apply Hzero].
    + intros _. apply preserves_hoare.
      apply preserves_bind; [apply keeps_datetime_now|intros now].
      apply preserves_bind; [apply keeps_single_tag|intros _].
      apply preserves_bind; [apply keeps_single_tag|intros _].
      apply preserves_bind; [apply keeps_datetime_now|intros promoted_at].
      apply preserves_bind; [apply preserves_getitem|intros evaluation_metrics].
      apply preserves_bind; [|intros _; apply preserves_ret].
      apply keeps_start_run. intros run. apply keeps_log_params.
    + by intros e w Hw.
  - by intros e w [Hw _].
Qed.

End single_production_tasks.

Lemma preserves_with_retries {A} (I : World → Prop) n (callable : M World A) :
  preserves I callable → preserves I (with_retries n callable).
Proof.
  intros Hcall. induction n as [|n IH]; [done|].
  cbn. apply preserves_try_except; [done|by intros _].
Qed.

Lemma preserves_PythonOperator {A} (I : World → Prop) task_id
    (python_callable : Env → Context → M World A) env :
  (∀ ctx, preserves I (python_callable env ctx)) →
  preserves I (PythonOperator task_id python_callable env).
Proof. intros Hcall. apply preserves_with_retries, Hcall. Qed.

Lemma keeps_single_dag_run env : preserves (on_registry single_production) (dag_run env).
Proof.
  unfold dag_run, prepare_dataset_task, train_model_task, evaluate_model_task,
    register_model_task, ab_test_task, promote_model_task.
  repeat (apply preserves_bind; [|intros _]); apply preserves_PythonOperator; intros ctx.
  - apply keeps_prepare_dataset.
  - apply keeps_single_train.
  - apply keeps_evaluate_model.
  - apply keeps_single_register.
  - apply keeps_run_ab_test.
  - apply keeps_single_promote.
Qed.

Lemma keeps_single_dag_runs envs w :
  on_registry single_production w → on_registry single_production (dag_runs envs w).
Proof.
  revert w. induction envs as [|env envs IH]; intros w Hw; [done|].
  cbn. apply IH. by apply keeps_single_dag_run.
Qed.

(** *** Logging to a run that has just been started *)

(** The world with one more run. *)
Definition with_new_run (r : Run) : World → World :=
  set_runs (λ rs, rs ++ [r]).

(** What logging one parameter does to a run. *)
Definition param_logged (env : Env) (r : Run) (kv : string * value) : result Run :=
  match params r !! kv.1 with
  | Some old =>
      if bool_decide (old = param_string env kv.2) then Ok r
      else Raise (Exn MlflowException
                    ("Changing param values is not allowed. Param with key='"
                     +:+ kv.1 +:+ "' was already logged."))
  | None =>
      Ok (mkRun (run_name r) (status r) (<[kv.1 := param_string env kv.2]> (params r))
                (metrics r) (artifacts r))
  end.

(** What logging a dictionary of parameters does to a run: the outcome,
    and the run as the last parameter written leaves it. *)
Fixpoint params_logged (env : Env) (kvs : list (string * value)) (r : Run) : result unit * Run :=
  match kvs with
  | [] => (Ok tt, r)
  | kv :: rest =>
      match param_logged env r kv with
      | Ok r' => params_logged env rest r'
      | Raise e => (Raise e, r)
      end
  end.

Lemma lookup_new_run w r : runs (with_new_run r w) !! length (runs w) = Some r.
Proof. cbn. by rewrite lookup_app_r, Nat.sub_diag. Qed.

Lemma alter_new_run f w r :
  set_runs (alter f (length (runs w))) (with_new_run r w) = with_new_run (f r) w.
Proof.
  unfold with_new_run, set_runs. cbn. f_equal.
  rewrite <- (Nat.add_0_r (length (runs w))) at 1. by rewrite alter_app_r.
Qed.

Lemma get_run_new w r : get_run (length (runs w)) (with_new_run r w) = (Ok r, with_new_run r w).
Proof. unfold get_run, mbind, M_bind, get. cbn -[with_new_run]. by rewrite lookup_new_run. Qed.

Lemma log_param_new env w r key v :
  log_param env (length (runs w)) key v (with_new_run r w)
  = match param_logged env r (key, v) with
    | Ok r' => (Ok tt, with_new_run r' w)
    | Raise e => (Raise e, with_new_run r w)
    end.
Proof.
  unfold log_param. rewrite (bind_Ok _ _ _ _ _ (get_run_new w r)).
  unfold param_logged. cbn -[with_new_run].
  destruct (params r !! key) as [old|]; [by case_bool_decide|].
  unfold modify. by rewrite alter_new_run.
Qed.

Lemma log_params_new env w kvs r :
  log_params env (length (runs w)) kvs (with_new_run r w)
  = ((params_logged env kvs r).1, with_new_run (params_logged env kvs r).2 w).
Proof.
  unfold log_params. revert r. induction kvs as [|[key v] kvs IH]; intros r; [done|].
  cbn -[with_new_run]. unfold mbind, M_bind. cbn -[with_new_run].
  rewrite log_param_new. destruct (param_logged env r (key, v)) as [r'|e]; [|done].
  apply IH.
Qed.

Lemma log_metric_new w r key x :
  log_metric (length (runs w)) key x (with_new_run r w)
  = (Ok tt, with_new_run (mkRun (run_name r) (status r) (params r)
                                (<[key := x]> (metrics r)) (artifacts r)) w).
Proof.
  unfold log_metric. rewrite (bind_Ok _ _ _ _ _ (get_run_new w r)).
  unfold modify. by rewrite alter_new_run.
Qed.

Lemma log_artifact_new w r path :
  log_artifact (length (runs w)) path (with_new_run r w)
  = (Ok tt, with_new_run (mkRun (run_name r) (status r) (params r) (metrics r)
                                (artifacts r ++ [path])) w).
Proof.
  unfold log_artifact. rewrite (bind_Ok _ _ _ _ _ (get_run_new w r)).
  unfold modify. by rewrite alter_new_run.
Qed.

(** The run with another status. *)
Definition with_status (st : string) (r : Run) : Run :=
  mkRun (run_name r) st (params r) (metrics r) (artifacts r).

Lemma start_run_eq {A} name (body : nat → M World A) w :
  start_run name body w
  = end_run (length (runs w)) (body (length (runs w)))
            (with_new_run (mkRun name "RUNNING" ∅ ∅ []) w).
Proof. reflexivity. Qed.

Lemma end_run_new {A} (body : M World A) w r res r' :
  body (with_new_run r w) = (res, with_new_run r' w) →
  end_run (length (runs w)) body (with_new_run r w)
  = (res, with_new_run (with_status (match res with Ok _ => "FINISHED" | Raise _ => "FAILED" end)
                                    r') w).
Proof.
  intros Hbody. unfold end_run. rewrite Hbody. unfold set_status.
  destruct res; by rewrite alter_new_run.
Qed.

(** A new run that only logs a dictionary of parameters. *)
Lemma start_run_log_params env name kvs w :
  let logged := params_logged env kvs (mkRun name "RUNNING" ∅ ∅ []) in
  start_run name (λ run, log_params env run kvs) w
  = (logged.1,
     with_new_run (with_status (match logged.1 with Ok _ => "FINISHED" | Raise _ => "FAILED" end)
                               logged.2) w).
Proof.
  cbn zeta. rewrite start_run_eq. apply end_run_new. apply log_params_new.
Qed.

(** *** Promotion, step by step *)

Lemma xcom_pull_model_info_eq task w :
  xcom_pull_model_info task w = (Ok (xcom_model_info w !! task), w).
Proof. reflexivity. Qed.

Lemma try_except_Ok {S A} (body : M S A) matches handler s a s' :
  body s = (Ok a, s') → try_except body matches handler s = (Ok a, s').
Proof. intros Hbody. unfold try_except. by rewrite Hbody. Qed.

(** What [promote_to_production] does once the current Production version
    is out of the way. *)
Definition promotion_steps (env : Env) (model_info : ModelInfo) (ab_results : AbTestResults)
    : M World string :=
  transition_model_version_stage MODEL_NAME (model_version model_info) "Production" ;;
  now ← datetime_now env;
  set_model_version_tag MODEL_NAME (model_version model_info)
    "promoted_to_production" now ;;
  set_model_version_tag MODEL_NAME (model_version model_info)
    "promotion_reason"
    ("A/B test improvement: " +:+ format_3f env (float_of (improvement ab_results))) ;;
  promoted_at ← datetime_now env;
  evaluation_metrics ← getitem "evaluation_metrics" (evaluation_metrics model_info);
  let deployment_info :=
    [ ("model_name", VStr MODEL_NAME);
      ("model_version", version_value (model_version model_info));
      ("promoted_at", VStr promoted_at);
      ("performance_metrics",
       VDict (prod_map id VNum <$> metric_items evaluation_metrics)) ] in
  start_run "production_promotion" (λ run, log_params env run deployment_info) ;;
  mret "promoted".

(** The entries of the model name after [promotion_steps] on version
    [S i], with [t1] and [t2] the values of the two tags. *)
Definition promoted (i : nat) (t1 t2 : string) (vs : list VersionEntry) : list VersionEntry :=
  alter (tagged "promotion_reason" t2) i
    (alter (tagged "promoted_to_production" t1) i
       (alter (staged Production) i vs)).

Lemma promotion_steps_eq env mi ab em w vs i e :
  registered_models w !! MODEL_NAME = Some vs →
  vs !! i = Some e →
  model_version mi = Some (S i) →
  evaluation_metrics mi = Some em →
  ∃ w' t1 t2,
    promotion_steps env mi ab w = (Ok "promoted", w')
    ∧ registered_models w' = <[MODEL_NAME := promoted i t1 t2 vs]> (registered_models w).
Proof.
  intros Hname Hi Hv Hem. unfold promotion_steps. rewrite Hv, Hem.
  rewrite (transition_eq _ _ _ _ stage_of_string_Production).
  rewrite (bind_Ok _ _ _ _ _ (update_version_eq _ _ _ _ _ _ Hname Hi)).
  set (w1 := set_registered_models _ w).
  assert (Hname1 : registered_models w1 !! MODEL_NAME = Some (alter (staged Production) i vs))
    by (cbn; by rewrite lookup_insert_eq).
  rewrite (bind_Ok (datetime_now env) _ w1 (isoformat env (clock w1)) (set_clock S w1) eq_refl).
  rewrite !set_tag_eq.
  set (t1 := isoformat env (clock w1)).
  set (vs1 := alter (staged Production) i vs) in *.
  assert (Hi1 : vs1 !! i = Some (staged Production e))
    by (subst vs1; by rewrite list_lookup_alter_eq, Hi).
  rewrite (bind_Ok _ _ _ _ _
             (update_version_eq MODEL_NAME i _ (set_clock S w1) vs1 _ Hname1 Hi1)).
  set (w2 := set_registered_models _ (set_clock S w1)).
  set (vs2 := alter (tagged "promoted_to_production" t1) i vs1) in *.
  assert (Hname2 : registered_models w2 !! MODEL_NAME = Some vs2)
    by (cbn; by rewrite lookup_insert_eq).
  assert (Hi2 : vs2 !! i = Some (tagged "promoted_to_production" t1 (staged Production e)))
    by (subst vs2; by rewrite list_lookup_alter_eq, Hi1).
  set (t2 := "A/B test improvement: " +:+ _).
  rewrite (bind_Ok _ _ _ _ _ (update_version_eq MODEL_NAME i _ w2 vs2 _ Hname2 Hi2)).
  set (w3 := set_registered_models _ w2).
  rewrite (bind_Ok (datetime_now env) _ w3 (isoformat env (clock w3)) (set_clock S w3) eq_refl).
  rewrite (bind_Ok (getitem _ (Some em)) _ (set_clock S w3) em (set_clock S w3) eq_refl).
  cbv zeta.
  set (kvs := [("model_name", _); _; _; _]).
  pose proof (start_run_log_params env "production_promotion" kvs (set_clock S w3)) as Hrun.
  cbn zeta in Hrun.
  assert (Hlogged : (params_logged env kvs (mkRun "production_promotion" "RUNNING" ∅ ∅ [])).1
                    = Ok tt) by (subst kvs; vm_compute; reflexivity).
  rewrite Hlogged in Hrun. rewrite (bind_Ok _ _ _ _ _ Hrun).
  eexists _, t1, t2. split; [reflexivity|].
  subst w3 w2 w1. cbn. by rewrite !insert_insert_eq.
Qed.

Lemma archived_length vs : length (archived vs) = length vs.
Proof. unfold archived. destruct (last _); [apply length_alter|done]. Qed.

Section promotion.
Context (env : Env) (ctx : Context) (w : World).
Context (mi : ModelInfo) (ab : AbTestResults) (q : string) (em : EvaluationMetrics).
Context (vs : list VersionEntry) (i : nat) (e : VersionEntry).
Hypothesis Hpulled : xcom_model_info w !! "run_ab_test" = Some mi.
Hypothesis Hab : ab_test_results mi = Some ab.
Hypothesis Hq : model_quality mi = Some q.
Hypothesis Hem : evaluation_metrics mi = Some em.
Hypothesis Hv : model_version mi = Some (S i).
Hypothesis Hname : registered_models w !! MODEL_NAME = Some vs.
Hypothesis Hi : vs !! i = Some e.

Lemma promote_to_production_declined :
  should_promote q ab = false →
  promote_to_production env ctx w = (Ok "not_promoted", set_experiments with_experiment w).
Proof using Hpulled Hab Hq.
  intros Hrule. unfold promote_to_production.
  rewrite (bind_Ok _ _ _ _ _ (xcom_pull_model_info_eq _ w)), Hpulled.
  rewrite (bind_Ok _ _ _ _ _ (setup_mlflow_eq w)).
  apply try_except_Ok.
  rewrite (bind_Ok (subscriptable (Some mi)) _ _ mi _ eq_refl).
  rewrite Hab, Hq.
  rewrite (bind_Ok (getitem _ (Some ab)) _ _ ab _ eq_refl).
  rewrite (bind_Ok (getitem _ (Some q)) _ _ q _ eq_refl).
  by rewrite Hrule.
Qed.

Lemma promote_to_production_promoted :
  should_promote q ab = true →
  ∃ w' t1 t2,
    promote_to_production env ctx w = (Ok "promoted", w')
    ∧ registered_models w'
      = <[MODEL_NAME := promoted i t1 t2 (archived vs)]> (registered_models w).
Proof using All.
  intros Hrule.
  set (w1 := set_experiments with_experiment w).
  set (w2 := match last (versions_in Production vs) with
             | Some _ => set_registered_models (<[MODEL_NAME := archived vs]>) w1
             | None => w1
             end).
  assert (Hname2 : registered_models w2 !! MODEL_NAME = Some (archived vs)).
  { subst w2 w1. unfold archived. destruct (last (versions_in Production vs)); cbn.
    - by rewrite lookup_insert_eq.
    - done. }
  assert (Hreg2 : ∀ x, <[MODEL_NAME := x]> (registered_models w2)
                       = <[MODEL_NAME := x]> (registered_models w)).
  { intros x. subst w2 w1. destruct (last (versions_in Production vs)); cbn; [|done].
    by rewrite insert_insert_eq. }
  destruct (archived vs !! i) as [e2|] eqn:Hi2.
  2:{ apply lookup_ge_None in Hi2. rewrite archived_length in Hi2.
      apply lookup_lt_Some in Hi. lia. }
  destruct (promotion_steps_eq env mi ab em w2 (archived vs) i e2 Hname2 Hi2 Hv Hem)
    as (w' & t1 & t2 & Hsteps & Hreg).
  exists w', t1, t2. split; [|by rewrite Hreg, Hreg2].
  unfold promote_to_production.
  rewrite (bind_Ok _ _ _ _ _ (xcom_pull_model_info_eq _ w)), Hpulled.
  rewrite (bind_Ok _ _ _ _ _ (setup_mlflow_eq w)).
  apply try_except_Ok.
  rewrite (bind_Ok (subscriptable (Some mi)) _ _ mi _ eq_refl).
  rewrite Hab, Hq.
  rewrite (bind_Ok (getitem _ (Some ab)) _ _ ab _ eq_refl).
  rewrite (bind_Ok (getitem _ (Some q)) _ _ q _ eq_refl).
  rewrite Hrule. fold archive_current.
  rewrite (bind_Ok archive_current _ _ _ _ (archive_current_eq w1 vs Hname)).
  exact Hsteps.
Qed.

End promotion.

Lemma should_promote_rule q ab :
  should_promote q ab = true
  ↔ q = "good" ∧ significant_improvement ab = true
    ∧ PrimFloat.ltb 0.6 (float_of (new_model_score ab)) = true.
Proof.
  unfold should_promote, gt. rewrite !andb_true_iff, bool_decide_eq_true. cbn. tauto.
Qed.

Lemma promoted_lookup i t1 t2 vs e :
  vs !! i = Some e → current_stage <$> promoted i t1 t2 vs !! i = Some Production.
Proof. intros Hi. unfold promoted. by rewrite !list_lookup_alter_eq, Hi. Qed.

Lemma promoted_lookup_ne i j t1 t2 vs : i ≠ j → promoted i t1 t2 vs !! j = vs !! j.
Proof. intros Hne. unfold promoted. by rewrite !list_lookup_alter_ne. Qed.

Lemma prod_count_promoted i t1 t2 vs e :
  vs !! i = Some e → prod_count vs = 0 → prod_count (promoted i t1 t2 vs) = 1.
Proof.
  intros Hi Hzero. unfold promoted. rewrite !prod_count_tagged.
  by apply (prod_count_promote vs i e).
Qed.

Lemma prod_count_archived vs : prod_count vs ≤ 1 → prod_count (archived vs) = 0.
Proof.
  intros Hone. unfold archived.
  destruct (last (versions_in Production vs)) as [mv|] eqn:Hlast.
  - by destruct (prod_count_archive_latest vs mv Hone Hlast) as (i & e & -> & _ & _ & Hzero).
  - apply prod_count_zero. by apply latest_None.
Qed.

Lemma stage_of_insert name v vs rm w :
  registered_models w = <[name := vs]> rm →
  stage_of name v w = match v with O => None | S i => current_stage <$> vs !! i end.
Proof. intros Hreg. unfold stage_of. destruct v; [done|]. by rewrite Hreg, lookup_insert_eq. Qed.

Lemma production_count_insert name vs rm w :
  registered_models w = <[name := vs]> rm → production_count name w = prod_count vs.
Proof. intros Hreg. by rewrite production_count_eq, Hreg, lookup_insert_eq. Qed.

(** A world at the promotion task: version 2, in Staging, was scored by
    the A/B test; version 1 is in Production. *)
Definition staged_info (score : float) : ModelInfo :=
  mkInfo 0 "/opt/airflow/runs/yolo_training_0/weights/best.pt" (Some 2) []
         (Some (mkEval (PyFloat score) (PyFloat 0.5) (PyFloat 0.8) (PyFloat 0.7) (PyFloat 0.75)))
         (Some "good")
         (Some (mkAb (Some 2) (Some 1) (PyFloat score) (PyFloat 0.5)
                     (num_sub (PyFloat score) (PyFloat 0.5)) true)).

Definition at_promotion (score : float) : World :=
  mkWorld [EXPERIMENT_NAME] [mkRun "yolo_training" "FINISHED" ∅ {[ "eval_map50" := 0.5%float ]} []]
          {[ MODEL_NAME := [mkEntry 0 Production ∅; mkEntry 0 Staging ∅] ]}
          ∅ {[ "run_ab_test" := staged_info score ]} [] 0.

Definition quiet_env : Env :=
  mkEnv (λ _, Ok tt) (λ _, Ok None)
        (λ _ _, Ok (mkBox (PyFloat 0.75) (PyFloat 0.5) (PyFloat 0.8) (PyFloat 0.7)))
        (λ _, "") (λ _, "") (λ _, "2024-01-01T00:00:00").

(** C2. At the promotion task, with the A/B results, the quality label,
    the metrics and a registered version in the pulled [model_info]: the
    task returns "promoted" exactly when the label is "good", the
    improvement is significant and the new score is above 0.6; it then
    leaves the new version in Production; otherwise it returns
    "not_promoted" and leaves the registry as it found it. A score of
    exactly 0.6 is not promoted, a score of 0.61 is. *)
Theorem promotion_rule env ctx w mi ab q em vs i e :
  xcom_model_info w !! "run_ab_test" = Some mi →
  ab_test_results mi = Some ab →
  model_quality mi = Some q →
  evaluation_metrics mi = Some em →
  model_version mi = Some (S i) →
  registered_models w !! MODEL_NAME = Some vs →
  vs !! i = Some e →
  let r := promote_to_production env ctx w in
  let rule := q = "good" ∧ significant_improvement ab = true
              ∧ PrimFloat.ltb 0.6 (float_of (new_model_score ab)) = true in
  (r.1 = Ok "promoted" ↔ rule)
  ∧ (rule → stage_of MODEL_NAME (S i) r.2 = Some Production)
  ∧ (¬ rule → r.1 = Ok "not_promoted" ∧ registered_models r.2 = registered_models w)
  ∧ (q = "good" → significant_improvement ab = true →
     float_of (new_model_score ab) = 0.6%float → r.1 = Ok "not_promoted")
  ∧ (q = "good" → significant_improvement ab = true →
     float_of (new_model_score ab) = 0.61%float → r.1 = Ok "promoted").
Proof.
  intros Hpulled Hab Hq Hem Hv Hname Hi. cbn zeta.
  assert (Hyes : should_promote q ab = true →
                 (promote_to_production env ctx w).1 = Ok "promoted"
                 ∧ stage_of MODEL_NAME (S i) (promote_to_production env ctx w).2
                   = Some Production).
  { intros Hrule.
    destruct (promote_to_production_promoted env ctx w mi ab q em vs i e
                Hpulled Hab Hq Hem Hv Hname Hi Hrule) as (w' & t1 & t2 & -> & Hreg).
    split; [done|]. cbv [snd]. rewrite (stage_of_insert _ _ _ _ _ Hreg).
    destruct (archived vs !! i) as [e2|] eqn:Hi2; [by eapply promoted_lookup|].
    apply lookup_ge_None in Hi2. rewrite archived_length in Hi2.
    apply lookup_lt_Some in Hi. lia. }
  assert (Hno : should_promote q ab = false →
                (promote_to_production env ctx w).1 = Ok "not_promoted"
                ∧ registered_models (promote_to_production env ctx w).2
                  = registered_models w).
  { intros Hrule.
    by rewrite (promote_to_production_declined env ctx w mi ab q Hpulled Hab Hq Hrule). }
  rewrite <- should_promote_rule.
  destruct (should_promote q ab) eqn:Hrule.
  - destruct (Hyes eq_refl) as [Hres Hstage]. split_and!; try done.
    intros Hgood Hsig Hscore. exfalso.
    apply should_promote_rule in Hrule as (_ & _ & Hlt). by rewrite Hscore in Hlt.
  - destruct (Hno eq_refl) as [Hres Hreg]. split_and!; try done.
    + split; [by rewrite Hres|done].
    + intros Hgood Hsig Hscore. exfalso.
      assert (should_promote q ab = true); [|congruence].
      apply should_promote_rule. by rewrite Hscore.
Qed.

Lemma promotion_rule_witness :
  (promote_to_production quiet_env (mkContext "promote_to_production") (at_promotion 0.6)).1
  = Ok "not_promoted"
  ∧ (promote_to_production quiet_env (mkContext "promote_to_production") (at_promotion 0.61)).1
    = Ok "promoted".
Proof.
  split.
  - refine (proj1 (proj2 (proj2 (proj2
      (promotion_rule quiet_env (mkContext "promote_to_production") (at_promotion 0.6)
         (staged_info 0.6) _ "good" _ _ 1 _ _ _ _ _ _ _ _)))) _ _ _); reflexivity.
  - refine (proj2 (proj2 (proj2 (proj2
      (promotion_rule quiet_env (mkContext "promote_to_production") (at_promotion 0.61)
         (staged_info 0.61) _ "good" _ _ 1 _ _ _ _ _ _ _ _)))) _ _ _); reflexivity.
Defined.

Lemma stage_of_lookup name v vs w :
  registered_models w !! name = Some vs →
  stage_of name v w = match v with O => None | S i => current_stage <$> vs !! i end.
Proof. intros Hname. unfold stage_of. destruct v; [done|]. by rewrite Hname. Qed.

(** C4. Any sequence of DAG runs, whatever the external services do in
    each, keeps at most one Production version under every model name
    (in particular when it starts from a registry without one). And a
    promotion of a registered version that is not yet in Production
    succeeds with or without a previous Production version; afterwards the
    model name has exactly one Production version, the new one; the
    previous one, if any, is Archived, and no other version has moved. *)
Theorem one_production_version :
  (∀ envs w,
     (∀ name, production_count name w ≤ 1) →
     ∀ name, production_count name (dag_runs envs w) ≤ 1)
  ∧ (∀ env ctx w mi ab q em vs i e,
       xcom_model_info w !! "run_ab_test" = Some mi →
       ab_test_results mi = Some ab →
       model_quality mi = Some q →
       evaluation_metrics mi = Some em →
       model_version mi = Some (S i) →
       registered_models w !! MODEL_NAME = Some vs →
       vs !! i = Some e →
       should_promote q ab = true →
       production_count MODEL_NAME w ≤ 1 →
       current_stage e ≠ Production →
       let r := promote_to_production env ctx w in
       r.1 = Ok "promoted"
       ∧ production_count MODEL_NAME r.2 = 1
       ∧ stage_of MODEL_NAME (S i) r.2 = Some Production
       ∧ match last (versions_in Production vs) with
         | Some prod =>
             stage_of MODEL_NAME (version prod) w = Some Production
             ∧ stage_of MODEL_NAME (version prod) r.2 = Some Archived
             ∧ ∀ v, v ≠ S i → v ≠ version prod →
                    stage_of MODEL_NAME v r.2 = stage_of MODEL_NAME v w
         | None =>
             production_count MODEL_NAME w = 0
             ∧ ∀ v, v ≠ S i → stage_of MODEL_NAME v r.2 = stage_of MODEL_NAME v w
         end).
Proof.
  split.
  - intros envs w Hw. by apply (keeps_single_dag_runs envs w).
  - intros env ctx w mi ab q em vs i e Hpulled Hab Hq Hem Hv Hname Hi Hrule Hone Hstage.
    cbn zeta.
    destruct (promote_to_production_promoted env ctx w mi ab q em vs i e
                Hpulled Hab Hq Hem Hv Hname Hi Hrule) as (w' & t1 & t2 & -> & Hreg).
    cbv [fst snd].
    rewrite production_count_eq, Hname in Hone. change (prod_count vs ≤ 1) in Hone.
    destruct (archived vs !! i) as [e2|] eqn:Hi2.
    2:{ apply lookup_ge_None in Hi2. rewrite archived_length in Hi2.
        apply lookup_lt_Some in Hi. lia. }
    split_and!; [done| | |].
    + rewrite (production_count_insert _ _ _ _ Hreg).
      apply (prod_count_promoted _ _ _ _ e2 Hi2). by apply prod_count_archived.
    + rewrite (stage_of_insert _ _ _ _ _ Hreg). by eapply promoted_lookup.
    + unfold archived in Hreg.
      destruct (last (versions_in Production vs)) as [prod|] eqn:Hlast.
      * apply latest_Some in Hlast as (j & ej & Hj & Hstj & ->). cbn [version pred] in *.
        assert (i ≠ j) by (intros ->; congruence).
        split_and!.
        -- by rewrite (stage_of_lookup _ _ _ _ Hname), Hj; cbn; rewrite Hstj.
        -- rewrite (stage_of_insert _ _ _ _ _ Hreg).
           rewrite promoted_lookup_ne by done. by rewrite list_lookup_alter_eq, Hj.
        -- intros [|k] Hk1 Hk2;
             rewrite (stage_of_insert _ _ _ _ _ Hreg), (stage_of_lookup _ _ _ _ Hname);
             [done|].
           rewrite promoted_lookup_ne by congruence.
           by rewrite list_lookup_alter_ne by congruence.
      * split.
        -- rewrite production_count_eq, Hname. apply prod_count_zero. by apply latest_None.
        -- intros [|k] Hk;
             rewrite (stage_of_insert _ _ _ _ _ Hreg), (stage_of_lookup _ _ _ _ Hname);
             [done|].
           by rewrite promoted_lookup_ne by congruence.
Qed.

Lemma one_production_version_witness :
  let r := promote_to_production quiet_env (mkContext "promote_to_production")
             (at_promotion 0.75) in
  production_count MODEL_NAME r.2 = 1
  ∧ stage_of MODEL_NAME 2 r.2 = Some Production
  ∧ stage_of MODEL_NAME 1 r.2 = Some Archived
  ∧ production_count MODEL_NAME
      (dag_runs [quiet_env; quiet_env] (mkWorld [] [] ∅ ∅ ∅ [] 0)) ≤ 1.
Proof.
  cbn zeta.
  destruct one_production_version as [Hruns Hpromote].
  destruct (Hpromote quiet_env (mkContext "promote_to_production") (at_promotion 0.75)
              (staged_info 0.75) _ "good" _ _ 1 _
              eq_refl eq_refl eq_refl eq_refl eq_refl eq_refl eq_refl eq_refl)
    as (_ & Hcount & Hnew & _ & Hold & _).
  { vm_compute. lia. }
  { discriminate. }
  split_and!; [exact Hcount|exact Hnew|exact Hold|].
  apply Hruns. intros name. vm_compute. lia.
Defined.

(** *** The comparison *)

Lemma try_except_handled {S A} (body : M S A) matches handler s e s1 :
  body s = (Raise e, s1) → matches e = true →
  try_except body matches handler s = handler e s1.
Proof. intros Hbody Hmatch. unfold try_except. by rewrite Hbody, Hmatch. Qed.

Lemma get_run_eq rid w r : runs w !! rid = Some r → get_run rid w = (Ok r, w).
Proof. intros Hr. unfold get_run, mbind, M_bind, get. cbn. by rewrite Hr. Qed.

Lemma versions_in_snoc st vs x :
  versions_in st (vs ++ [x])
  = versions_in st vs
    ++ (if bool_decide (current_stage x = st)
        then [mkVersion (S (length vs)) (source_run x) st] else []).
Proof.
  unfold versions_in. rewrite imap_app, omap_app. f_equal.
  cbn. rewrite Nat.add_0_r. by case_bool_decide.
Qed.

(** The version the registry answers with has the highest number among
    the versions in the stage. *)
Lemma latest_is_highest st vs mv :
  last (versions_in st vs) = Some mv →
  ∀ j e, vs !! j = Some e → current_stage e = st → S j ≤ version mv.
Proof.
  revert mv. induction vs as [|x vs IH] using rev_ind; intros mv Hlast j e Hj Hst; [done|].
  rewrite versions_in_snoc in Hlast.
  apply lookup_app_Some in Hj as [Hj|[Hlen Hj]].
  - pose proof (lookup_lt_Some _ _ _ Hj) as Hlt.
    case_bool_decide.
    + rewrite last_snoc in Hlast. injection Hlast as <-. cbn. lia.
    + rewrite app_nil_r in Hlast. by eapply IH.
  - destruct (j - length vs) as [|k] eqn:Hk; [|done]. injection Hj as ->.
    rewrite bool_decide_eq_true_2 in Hlast by done.
    rewrite last_snoc in Hlast. injection Hlast as <-. cbn. lia.
Qed.

(** C3. At the comparison task, with the metrics in the pulled
    [model_info] and the model name registered: when no version is in
    Production, the verdict has no previous version, previous score 0.0
    and a significant improvement, whatever the new score; when a version
    is in Production, the one with the highest number is the previous
    version, the previous score is the eval_map50 metric of its run, 0.0
    when the run has none, the improvement is the new score less the
    previous score, and it is significant exactly when it is above
    0.05. The verdict is also what the task stores in the pushed
    [model_info]. *)
Theorem comparison_verdict env ctx w mi em vs :
  xcom_model_info w !! "register_model" = Some mi →
  evaluation_metrics mi = Some em →
  registered_models w !! MODEL_NAME = Some vs →
  let r := run_ab_test env ctx w in
  match last (versions_in Production vs) with
  | None =>
      let verdict := mkAb (model_version mi) None (map50 em) (PyFloat 0) (map50 em) true in
      production_count MODEL_NAME w = 0
      ∧ r.1 = Ok verdict
      ∧ ab_test_results <$> (xcom_model_info r.2 !! task_id ctx) = Some (Some verdict)
  | Some prod =>
      stage_of MODEL_NAME (version prod) w = Some Production
      ∧ (∀ v, stage_of MODEL_NAME v w = Some Production → v ≤ version prod)
      ∧ ∀ prod_run, runs w !! mv_run_id prod = Some prod_run →
          let previous := PyFloat (default 0%float (metrics prod_run !! "eval_map50")) in
          let improvement := num_sub (map50 em) previous in
          let verdict := mkAb (model_version mi) (Some (version prod)) (map50 em) previous
                              improvement (PrimFloat.ltb 0.05 (float_of improvement)) in
          r.1 = Ok verdict
          ∧ ab_test_results <$> (xcom_model_info r.2 !! task_id ctx) = Some (Some verdict)
  end.
Proof.
  intros Hpulled Hem Hname. cbn zeta.
  set (w1 := set_experiments with_experiment w).
  assert (Hname1 : registered_models w1 !! MODEL_NAME = Some vs) by done.
  unfold run_ab_test.
  rewrite (bind_Ok _ _ _ _ _ (xcom_pull_model_info_eq _ w)), Hpulled.
  rewrite (bind_Ok _ _ _ _ _ (setup_mlflow_eq w)). fold w1.
  set (inner := try_except _ is_IndexError _).
  assert (Houter : ∀ verdict w2, inner w1 = (Ok verdict, w2) →
            ∀ r, r = try_except (inner ≫= λ ab,
                       model_info ← subscriptable (Some mi);
                       xcom_push_model_info ctx
                         (mkInfo (run_id model_info) (model_path model_info)
                            (model_version model_info) (training_metrics model_info)
                            (evaluation_metrics model_info) (model_quality model_info)
                            (Some ab)) ;;
                       mret ab) is_Exception (λ e, raise e) w1 →
            r.1 = Ok verdict
            ∧ ab_test_results <$> (xcom_model_info r.2 !! task_id ctx) = Some (Some verdict)).
  { intros verdict w2 Hinner r ->.
    erewrite try_except_Ok; [|by rewrite (bind_Ok _ _ _ _ _ Hinner)].
    split; [done|]. cbn. by rewrite lookup_insert_eq. }
  destruct (last (versions_in Production vs)) as [prod|] eqn:Hlast.
  - pose proof (latest_is_highest _ _ _ Hlast) as Hhighest.
    pose proof (latest_Some _ _ _ Hlast) as (j & ej & Hj & Hstj & Hprod).
    split_and!.
    + rewrite (stage_of_lookup _ _ _ _ Hname), Hprod. cbn [version]. rewrite Hj. cbn.
      by rewrite Hstj.
    + intros [|k]; rewrite (stage_of_lookup _ _ _ _ Hname); [done|].
      destruct (vs !! k) as [ek|] eqn:Hk; [|done]. cbn. intros [= Hstk].
      by apply (Hhighest k ek).
    + intros prod_run Hrun. cbn zeta. eapply Houter; [|reflexivity].
      subst inner. apply try_except_Ok.
      rewrite (bind_Ok _ _ _ _ _ (get_latest_versions_eq _ _ _ Hname1)), Hlast.
      rewrite (bind_Ok (first [prod]) _ _ prod _ eq_refl).
      rewrite (bind_Ok (subscriptable (Some mi)) _ _ mi _ eq_refl).
      rewrite Hem.
      rewrite (bind_Ok (getitem _ (Some em)) _ _ em _ eq_refl).
      rewrite (bind_Ok _ _ _ _ _ (get_run_eq _ w1 _ Hrun)).
      cbv zeta.
      set (verdict := mkAb _ _ _ _ _ _).
      pose proof (start_run_log_params env "ab_test_results" (ab_items verdict) w1) as Hlog.
      cbn zeta in Hlog.
      assert (Hlogged : (params_logged env (ab_items verdict)
                           (mkRun "ab_test_results" "RUNNING" ∅ ∅ [])).1 = Ok tt)
        by (vm_compute; reflexivity).
      rewrite Hlogged in Hlog. rewrite (bind_Ok _ _ _ _ _ Hlog). reflexivity.
  - cbn zeta. split.
    + rewrite production_count_eq, Hname. apply prod_count_zero. by apply latest_None.
    + eapply Houter; [|reflexivity].
      subst inner.
      rewrite (try_except_handled _ _ _ w1 (Exn IndexError "list index out of range") w1);
        [| |reflexivity].
      2:{ rewrite (bind_Ok _ _ _ _ _ (get_latest_versions_eq _ _ _ Hname1)), Hlast.
          reflexivity. }
      rewrite (bind_Ok (subscriptable (Some mi)) _ _ mi _ eq_refl).
      rewrite Hem. reflexivity.
Qed.

(** A world at the comparison task: version 1 is in Production, its run
    scored 0.5; version 2, in Staging, scored [score]. *)
Definition at_comparison (score : float) : World :=
  mkWorld [EXPERIMENT_NAME] [mkRun "yolo_training" "FINISHED" ∅ {[ "eval_map50" := 0.5%float ]} []]
          {[ MODEL_NAME := [mkEntry 0 Production ∅; mkEntry 0 Staging ∅] ]}
          ∅
          {[ "register_model" :=
               mkInfo 0 "/opt/airflow/runs/yolo_training_0/weights/best.pt" (Some 2) []
                      (Some (mkEval (PyFloat score) (PyFloat 0.5) (PyFloat 0.8) (PyFloat 0.7)
                                    (PyFloat 0.75)))
                      (Some "good") None ]}
          [] 0.

Lemma comparison_verdict_witness :
  ∃ verdict,
    (run_ab_test quiet_env (mkContext "run_ab_test") (at_comparison 0.56)).1 = Ok verdict
    ∧ prod_model_version verdict = Some 1
    ∧ prod_model_score verdict = PyFloat 0.5
    ∧ significant_improvement verdict = true.
Proof.
  pose proof (comparison_verdict quiet_env (mkContext "run_ab_test") (at_comparison 0.56)
                _ _ _ eq_refl eq_refl eq_refl) as Hverdict.
  cbn -[run_ab_test] in Hverdict.
  destruct Hverdict as (_ & _ & Hresult).
  destruct (Hresult _ eq_refl) as [Hreturned _].
  eexists. split; [exact Hreturned|]. split_and!; reflexivity.
Defined.

(** *** A failing trainer *)

Lemma xcom_pull_dataset_info_eq task w :
  xcom_pull_dataset_info task w = (Ok (xcom_dataset_info w !! task), w).
Proof. reflexivity. Qed.

Lemma end_run_started {A} (body : M World A) w r res r' w' :
  length (runs w') = length (runs w) →
  body (with_new_run r w) = (res, with_new_run r' w') →
  end_run (length (runs w)) body (with_new_run r w)
  = (res, with_new_run (with_status (match res with Ok _ => "FINISHED" | Raise _ => "FAILED" end)
                                    r') w').
Proof.
  intros Hlen Hbody. unfold end_run. rewrite Hbody. unfold set_status.
  rewrite <- Hlen. destruct res; by rewrite alter_new_run.
Qed.

(** The run with two more parameters: the failure flag under [key] and
    the message. *)
Definition with_failure (key msg : string) (r : Run) : Run :=
  mkRun (run_name r) (status r)
        (<["error_message" := msg]> (<[key := "failed"]> (params r)))
        (metrics r) (artifacts r).

(** The handler of the training and evaluation tasks, in a run that has
    neither parameter yet. *)
Lemma failure_logged {A} env w r key e :
  params r !! key = None → params r !! "error_message" = None → key ≠ "error_message" →
  (log_param env (length (runs w)) key (VStr "failed") ;;
   log_param env (length (runs w)) "error_message" (VStr (exn_str e)) ;;
   raise e) (with_new_run r w)
  = (@Raise A e, with_new_run (with_failure key (exn_str e) r) w).
Proof.
  intros Hkey Hmsg Hne.
  erewrite bind_Ok; [|rewrite log_param_new; unfold param_logged; cbn; by rewrite Hkey].
  erewrite bind_Ok; [done|].
  rewrite log_param_new. unfold param_logged. cbn.
  by rewrite lookup_insert_ne, Hmsg.
Qed.

(** Before the trainer is called, the new run holds the training and
    dataset parameters, and none of the two the handler writes. *)
Lemma log_params_new_Ok env w kvs r r' :
  params_logged env kvs r = (Ok tt, r') →
  log_params env (length (runs w)) kvs (with_new_run r w) = (Ok tt, with_new_run r' w).
Proof. intros Hlogged. by rewrite log_params_new, Hlogged. Qed.

Lemma training_params_logged env d :
  ∃ r1 r2,
    params_logged env training_params (mkRun "yolo_training" "RUNNING" ∅ ∅ []) = (Ok tt, r1)
    ∧ params_logged env (dataset_items d) r1 = (Ok tt, r2)
    ∧ params r2 !! "training_status" = None
    ∧ params r2 !! "error_message" = None
    ∧ metrics r2 = ∅ ∧ artifacts r2 = [].
Proof. eexists _, _. split; [vm_compute; reflexivity|]. vm_compute. split_and!; reflexivity. Qed.


(** A trainer that fails, after the dataset task has run. *)
Definition out_of_memory : exn := Exn (Other "RuntimeError") "CUDA out of memory".

Definition failing_trainer : Env :=
  mkEnv (λ _, Ok tt) (λ _, Raise out_of_memory)
        (λ _ _, Ok (mkBox (PyFloat 0.75) (PyFloat 0.5) (PyFloat 0.8) (PyFloat 0.7)))
        (λ _, "") (λ _, "") (λ _, "2024-01-01T00:00:00").

Definition empty_world : World := mkWorld [] [] ∅ ∅ ∅ [] 0.

Definition after_prepare : World :=
  (prepare_dataset quiet_env (mkContext "prepare_dataset") empty_world).2.


(** *** Evaluation *)

Lemma log_param_Ok_inv env rid key v w w' :
  log_param env rid key v w = (Ok tt, w') →
  xcom_model_info w' = xcom_model_info w
  ∧ ∃ r, runs w' !! rid = Some r ∧ params r !! key = Some (param_string env v).
Proof.
  unfold log_param, get_run, MlflowError, raise, mbind, M_bind, get, modify. cbn.
  destruct (runs w !! rid) as [r|] eqn:Hr; [|discriminate]. cbn.
  destruct (params r !! key) as [old|] eqn:Hkey.
  - case_bool_decide; [|discriminate]. intros [= <-]. split; [done|].
    exists r. by subst.
  - intros [= <-]. cbn. split; [done|]. rewrite list_lookup_alter_eq, Hr. cbn.
    eexists. split; [done|]. cbn. by rewrite lookup_insert_eq.
Qed.

(** The handler of the evaluation task never returns. *)
Lemma failure_handler_raises {A} env run key e w (a : A) w' :
  (log_param env run key (VStr "failed") ;;
   log_param env run "error_message" (VStr (exn_str e)) ;;
   raise e) w ≠ (Ok a, w').
Proof.
  intros Hrun.
  apply bind_Ok_inv in Hrun as (? & ? & _ & Hrun).
  apply bind_Ok_inv in Hrun as (? & ? & _ & Hrun). discriminate.
Qed.

(** What a returning evaluation went through. *)
Lemma evaluate_model_Ok_inv env ctx w em w' :
  evaluate_model env ctx w = (Ok em, w') →
  ∃ mi box f1 run,
    xcom_model_info w !! "train_yolo_model" = Some mi
    ∧ model_val env (model_path mi) "/opt/airflow/data/dataset.yaml" = Ok box
    ∧ f1_of (box_mp box) (box_mr box) = Ok f1
    ∧ em = mkEval (box_map50 box) (box_map box) (box_mp box) (box_mr box) f1
    ∧ xcom_model_info w' !! task_id ctx
      = Some (mkInfo (run_id mi) (model_path mi) (model_version mi) (training_metrics mi)
                     (Some em) (Some (quality_of (map50 em))) (ab_test_results mi))
    ∧ runs w' !! run_id mi = Some run
    ∧ params run !! "model_quality" = Some (quality_of (map50 em)).
Proof.
  unfold evaluate_model. intros Hrun.
  rewrite (bind_Ok _ _ _ _ _ (xcom_pull_model_info_eq _ w)) in Hrun.
  rewrite (bind_Ok _ _ _ _ _ (setup_mlflow_eq w)) in Hrun.
  destruct (xcom_model_info w !! "train_yolo_model") as [mi|]; [|discriminate].
  rewrite (bind_Ok (subscriptable (Some mi)) _ _ mi _ eq_refl) in Hrun.
  unfold resume_run in Hrun.
  apply bind_Ok_inv in Hrun as (w1 & ? & [= <- <-] & Hrun).
  destruct (runs _ !! run_id mi) as [r0|]; [|discriminate].
  apply bind_Ok_inv in Hrun as ([] & w2 & _ & Hrun).
  unfold end_run in Hrun.
  destruct (try_except _ _ _ w2) as [[em'|e] w3] eqn:Hbody; [|discriminate].
  injection Hrun as -> <-.
  apply try_except_Ok_inv in Hbody as [Hbody|(e & w4 & _ & _ & Hhandler)];
    [|by apply failure_handler_raises in Hhandler].
  apply bind_Ok_inv in Hbody as ([] & ? & _ & Hbody).
  apply bind_Ok_inv in Hbody as (box & w4 & Hval & Hbody).
  apply bind_Ok_inv in Hbody as (f1 & w5 & Hf1 & Hbody).
  cbv zeta in Hbody.
  apply bind_Ok_inv in Hbody as ([] & w6 & _ & Hbody).
  apply bind_Ok_inv in Hbody as ([] & w7 & Hparam & Hbody).
  apply bind_Ok_inv in Hbody as ([] & w8 & Hpush & Hbody).
  injection Hbody as <- <-. injection Hpush as <-.
  apply log_param_Ok_inv in Hparam as (_ & run & Hrun & Hquality).
  unfold lift in Hval, Hf1. injection Hval as Hval _. injection Hf1 as Hf1 _.
  exists mi, box, f1, (with_status "FINISHED" run). split_and!; try done.
  - cbn. by rewrite lookup_insert_eq.
  - cbn. by rewrite list_lookup_alter_eq, Hrun.
Qed.

Lemma quality_of_good map50 :
  quality_of map50 = "good" ↔ PrimFloat.ltb 0.7 (float_of map50) = true.
Proof. unfold quality_of, gt. cbn. by destruct (PrimFloat.ltb _ _). Qed.


(** A validator that reports the given mAP@0.5, over a world in which the
    dataset and training tasks have run. *)
Definition validator (map50 mp mr : number) : Env :=
  mkEnv (λ _, Ok tt) (λ _, Ok None) (λ _ _, Ok (mkBox map50 (PyFloat 0.5) mp mr))
        (λ _, "") (λ _, "") (λ _, "2024-01-01T00:00:00").

Definition after_training : World :=
  (train_yolo_model quiet_env (mkContext "train_yolo_model") after_prepare).2.


(** Where both means are positive doubles with a non-zero sum, F1 is the
    harmonic mean as the doubles compute it. *)
Lemma f1_of_nonzero p r :
  PrimFloat.eqb (p + r) 0 = false →
  f1_of (PyFloat p) (PyFloat r) = Ok (PyFloat (2 * (p * r) / (p + r))).
Proof. intros Hsum. unfold f1_of, truediv. cbn. by rewrite Hsum. Qed.

(** With numpy doubles the quotient for p = r = 0 is a NaN, not a number. *)
Lemma f1_of_numpy_zero :
  ∃ x, f1_of (NpFloat64 0) (NpFloat64 0) = Ok (NpFloat64 x) ∧ PrimFloat.eqb x x = false.
Proof. eexists. split; reflexivity. Qed.

(** An evaluation never returns when the validator reports mean precision
    and mean recall 0.0. *)
Lemma evaluate_model_zero_fails env ctx w mi box :
  xcom_model_info w !! "train_yolo_model" = Some mi →
  model_val env (model_path mi) "/opt/airflow/data/dataset.yaml" = Ok box →
  box_mp box = PyFloat 0 → box_mr box = PyFloat 0 →
  ∀ em w', evaluate_model env ctx w ≠ (Ok em, w').
Proof.
  intros Hmi Hbox Hmp Hmr em w' Hrun.
  apply evaluate_model_Ok_inv in Hrun as (mi' & box' & f1 & _ & Hmi' & Hbox' & Hf1 & _).
  rewrite Hmi in Hmi'. injection Hmi' as <-. rewrite Hbox in Hbox'. injection Hbox' as <-.
  rewrite Hmp, Hmr in Hf1. discriminate.
Qed.

(** A validator with nothing to report: no predictions, so that mean
    precision and mean recall are the Python float 0.0. *)
Definition no_detections : Env := validator (PyFloat 0) (PyFloat 0) (PyFloat 0).

(** C1, on the code. For p = r = 0 the F1 expression divides by zero:
    evaluated on Python floats it raises ZeroDivisionError. The evaluation
    task then fails: it logs evaluation_status = failed, writes no F1
    metric, pushes no [model_info], and the DAG run ends with the
    ZeroDivisionError. *)
Theorem f1_divides_by_zero :
  f1_of (PyFloat 0) (PyFloat 0) = Raise (Exn ZeroDivisionError "float division by zero")
  ∧ (let r := evaluate_model no_detections (mkContext "evaluate_model") after_training in
     r.1 = Raise (Exn ZeroDivisionError "float division by zero")
     ∧ xcom_model_info r.2 !! "evaluate_model" = None
     ∧ ∃ run, runs r.2 !! 1 = Some run
              ∧ status run = "FAILED"
              ∧ params run !! "evaluation_status" = Some "failed"
              ∧ params run !! "error_message" = Some "float division by zero"
              ∧ metrics run !! "eval_f1_score" = None)
  ∧ (dag_run no_detections empty_world).1
    = Raise (Exn ZeroDivisionError "float division by zero").
Proof.
  split_and!.
  - reflexivity.
  - cbn zeta. split_and!; [vm_compute; reflexivity..|].
    eexists. split; [vm_compute; reflexivity|]. vm_compute. split_and!; reflexivity.
  - vm_compute. reflexivity.
Qed.

End PipelineFacts.

(** ** appgen.py: the chat request with an image *)

Module ChatFacts.
Import Appgen.

(** The request that [send_amaliai_request] posts for a prompt and an
    image. *)
Definition request_for (api_key prompt image_base64 model_name : string) : Request :=
  mkRequest
    (("https://generativelanguage.googleapis.com/v1beta/models/" +:+ model_name
      +:+ ":generateContent") +:+ "?key=" +:+ api_key)
    [("Content-Type", "application/json")]
    (JObject [("contents",
       JArray [JObject [("parts",
         JArray [ JObject [("text", JString prompt)];
                  JObject [("inlineData",
                    JObject [("mimeType", JString "image/png");
                             ("data", JString image_base64)])] ])]])]).

(** A reply whose first candidate carries [text]. *)
Definition reply_with (text : json) (more_candidates : list json) : json :=
  JObject [("candidates",
    JArray (JObject [("content", JObject [("parts", JArray [JObject [("text", text)]])])]
            :: more_candidates))].

(** Subscripting and membership fail with KeyError, IndexError or
    TypeError, none of which is a RequestException. *)
Lemma subscript_error j key e : subscript j key = Raise e → is_RequestException e = false.
Proof.
  destruct j as [| | | |items|members]; cbn; try (by intros [= <-]).
  destruct (lookup_member key members); [done|by intros [= <-]].
Qed.

Lemma subscript0_error j e : subscript0 j = Raise e → is_RequestException e = false.
Proof.
  destruct j as [| | |[|c s]|[|x items]|members]; cbn; try done; by intros [= <-].
Qed.

Lemma contains_error key j e : contains key j = Raise e → is_RequestException e = false.
Proof. destruct j; cbn; try done; by intros [= <-]. Qed.

(** What the function makes of a decoded reply. *)
Definition reply_text (j : json) : result json :=
  match contains "candidates" j with
  | Raise e => Raise e
  | Ok false => Ok (JString "No response generated")
  | Ok true =>
      match subscript j "candidates" with
      | Raise e => Raise e
      | Ok candidates =>
          if truthy candidates then
            rbind (subscript0 candidates) (λ c,
            rbind (subscript c "content") (λ c,
            rbind (subscript c "parts") (λ p,
            rbind (subscript0 p) (λ p, subscript p "text"))))
          else Ok (JString "No response generated")
      end
  end.

Lemma reply_text_error j e : reply_text j = Raise e → is_RequestException e = false.
Proof.
  unfold reply_text.
  destruct (contains "candidates" j) as [[]|e1] eqn:Hhas;
    [|done|intros [= <-]; by eapply contains_error].
  destruct (subscript j "candidates") as [cs|e1] eqn:Hcs;
    [|intros [= <-]; by eapply subscript_error].
  destruct (truthy cs); [|done].
  destruct (subscript0 cs) as [c|e1] eqn:H0; cbn; [|intros [= <-]; by eapply subscript0_error].
  destruct (subscript c "content") as [c1|e1] eqn:H1; cbn;
    [|intros [= <-]; by eapply subscript_error].
  destruct (subscript c1 "parts") as [p|e1] eqn:H2; cbn;
    [|intros [= <-]; by eapply subscript_error].
  destruct (subscript0 p) as [p0|e1] eqn:H3; cbn; [|intros [= <-]; by eapply subscript0_error].
  apply subscript_error.
Qed.

Section with_image.
Context (env : Env) (api_key prompt model_name : string) (stream : bool).
Context (image_base64 : string) (sent : list Request).
Hypothesis Himage : image_base64 ≠ "".

Local Abbreviation request := (request_for api_key prompt image_base64 model_name).
Local Abbreviation call :=
  (send_amaliai_request env api_key prompt (Some image_base64) model_name stream sent).

Lemma send_with_image_unfold :
  call
  = try_except
      (response ← requests_post env request;
       lift (raise_for_status response) ;;
       response_json ← lift (json_body response);
       has ← lift (contains "candidates" response_json);
       candidates ← (if has then lift (subscript response_json "candidates")
                     else mret JNull);
       if has && truthy candidates then
         candidates ← lift (subscript response_json "candidates");
         lift (rbind (subscript0 candidates) (λ c,
               rbind (subscript c "content") (λ c,
               rbind (subscript c "parts") (λ p,
               rbind (subscript0 p) (λ p, subscript p "text")))))
       else mret (JString "No response generated"))
      is_RequestException
      (λ e, mret (JString ("Request failed: " +:+ exn_str e))) sent.
Proof using Himage. destruct image_base64; [done|]. reflexivity. Qed.

Lemma send_with_image_posts_once : call.2 = sent ++ [request].
Proof using Himage.
  rewrite send_with_image_unfold.
  unfold try_except, requests_post, mbind, M_bind, modify, lift, mret, M_ret. cbn.
  destruct (post env request) as [response|e]; cbn.
  2:{ by destruct (is_RequestException e). }
  destruct (raise_for_status response) as [[]|e]; cbn.
  2:{ by destruct (is_RequestException e). }
  destruct (json_body response) as [j|e]; cbn.
  2:{ by destruct (is_RequestException e). }
  destruct (contains "candidates" j) as [has|e]; cbn.
  2:{ by destruct (is_RequestException e). }
  destruct has; cbn; [|done].
  destruct (subscript j "candidates") as [cs|e]; cbn.
  2:{ by destruct (is_RequestException e). }
  destruct (truthy cs); cbn; [|done].
  match goal with |- context [rbind ?a ?b] => destruct (rbind a b) as [t|e] end; cbn; [done|].
  by destruct (is_RequestException e).
Qed.

Lemma send_with_image_transport_error e :
  post env request = Raise e →
  call.1 = if is_RequestException e
           then Ok (JString ("Request failed: " +:+ exn_str e)) else Raise e.
Proof using Himage.
  intros Hpost. rewrite send_with_image_unfold.
  unfold try_except, requests_post, mbind, M_bind, modify, lift, mret, M_ret. cbn.
  rewrite Hpost. cbn. by destruct (is_RequestException e).
Qed.

Lemma send_with_image_status_error response :
  post env request = Ok response →
  (400 ≤ status_code response < 600)%Z →
  ∃ msg, call.1 = Ok (JString ("Request failed: " +:+ msg)).
Proof using Himage.
  intros Hpost Hstatus. rewrite send_with_image_unfold.
  unfold try_except, requests_post, mbind, M_bind, modify, lift, mret, M_ret. cbn.
  rewrite Hpost. cbn. unfold raise_for_status. rewrite bool_decide_eq_true_2 by done.
  cbn. eauto.
Qed.

Lemma send_with_image_reply response j :
  post env request = Ok response →
  ¬ (400 ≤ status_code response < 600)%Z →
  json_body response = Ok j →
  call.1 = reply_text j.
Proof using Himage.
  intros Hpost Hstatus Hjson. rewrite send_with_image_unfold.
  pose proof (reply_text_error j) as Herror. unfold reply_text in *.
  unfold try_except, requests_post, mbind, M_bind, modify, lift, mret, M_ret. cbn.
  rewrite Hpost. cbn. unfold raise_for_status. rewrite bool_decide_eq_false_2 by done.
  cbn. rewrite Hjson. cbn.
  destruct (contains "candidates" j) as [[]|e] eqn:Hhas; cbn.
  - destruct (subscript j "candidates") as [cs|e] eqn:Hcs; cbn.
    + destruct (truthy cs); cbn; [|done].
      match goal with |- context [rbind ?a ?b] => destruct (rbind a b) as [t|e] end; cbn;
        [done|].
      by rewrite (Herror e).
    + by rewrite (Herror e).
  - done.
  - by rewrite (Herror e).
Qed.

Lemma send_with_image_decode_error response e :
  post env request = Ok response →
  ¬ (400 ≤ status_code response < 600)%Z →
  json_body response = Raise e →
  call.1 = if is_RequestException e
           then Ok (JString ("Request failed: " +:+ exn_str e)) else Raise e.
Proof using Himage.
  intros Hpost Hstatus Hjson. rewrite send_with_image_unfold.
  unfold try_except, requests_post, mbind, M_bind, modify, lift, mret, M_ret. cbn.
  rewrite Hpost. cbn. unfold raise_for_status. rewrite bool_decide_eq_false_2 by done.
  cbn. rewrite Hjson. cbn. by destruct (is_RequestException e).
Qed.

End with_image.

(** An endpoint by what it answers. *)
Definition endpoint (answer : result Response) : Env :=
  mkEnv (Raise (Exn (Other "FileNotFoundError") "model.pt")) (λ _, Ok (mkArray [] []))
        (λ a _ _ _ _, Ok a) (λ a _ _ _ _ _, Ok a) (λ _, "") (λ _, answer).

(** X1. With an image, a call sends exactly one request, whether it then
    returns or raises and whatever [stream] is: the URL names the model
    and carries the key, the body carries the prompt and the image. *)
Theorem chat_request_posted_once env api_key prompt model_name stream image_base64 sent :
  image_base64 ≠ "" →
  (send_amaliai_request env api_key prompt (Some image_base64) model_name stream sent).2
  = sent ++ [request_for api_key prompt image_base64 model_name]
  ∧ send_amaliai_request env api_key prompt (Some image_base64) model_name (negb stream) sent
    = send_amaliai_request env api_key prompt (Some image_base64) model_name stream sent.
Proof. intros Himage. split; [by apply send_with_image_posts_once|done]. Qed.

Lemma chat_request_posted_once_witness :
  (send_amaliai_request (endpoint (Raise (Exn ConnectionError "refused"))) "k" "What is this?"
     (Some "aGk=") default_model_name default_stream []).2
  = [request_for "k" "What is this?" "aGk=" "gemini-2.0-flash"].
Proof.
  refine (proj1 (chat_request_posted_once _ "k" "What is this?" "gemini-2.0-flash" true
                   "aGk=" [] _)).
  discriminate.
Defined.

(** X2. With an image, a failure of the transport (a RequestException when
    posting), an HTTP status from 400 to 599, or a body that is not JSON
    makes the call return a string that starts with "Request failed: ". *)
Theorem chat_request_failure_message env api_key prompt model_name stream image_base64 sent :
  image_base64 ≠ "" →
  let request := request_for api_key prompt image_base64 model_name in
  let returned :=
    (send_amaliai_request env api_key prompt (Some image_base64) model_name stream sent).1 in
  (∀ e, post env request = Raise e → is_RequestException e = true →
        returned = Ok (JString ("Request failed: " +:+ exn_str e)))
  ∧ (∀ response, post env request = Ok response →
       (400 ≤ status_code response < 600)%Z →
       ∃ msg, returned = Ok (JString ("Request failed: " +:+ msg)))
  ∧ (∀ response e, post env request = Ok response →
       ¬ (400 ≤ status_code response < 600)%Z →
       json_body response = Raise e → is_RequestException e = true →
       returned = Ok (JString ("Request failed: " +:+ exn_str e))).
Proof.
  intros Himage. cbn zeta. split_and!.
  - intros e Hpost Hclass.
    by rewrite (send_with_image_transport_error _ _ _ _ _ _ _ Himage e Hpost), Hclass.
  - intros response Hpost Hstatus.
    by apply (send_with_image_status_error _ _ _ _ _ _ _ Himage response).
  - intros response e Hpost Hstatus Hjson Hclass.
    by rewrite (send_with_image_decode_error _ _ _ _ _ _ _ Himage response e), Hclass.
Qed.

Lemma chat_request_failure_message_witness :
  (send_amaliai_request (endpoint (Ok (mkResponse 503 (Raise (Exn JSONDecodeError "")))))
     "k" "What is this?" (Some "aGk=") default_model_name default_stream []).1
  = Ok (JString "Request failed: HTTP error 503")
  ∧ (send_amaliai_request (endpoint (Raise (Exn ConnectionError "refused")))
       "k" "What is this?" (Some "aGk=") default_model_name default_stream []).1
    = Ok (JString "Request failed: refused").
Proof.
  split.
  - destruct (chat_request_failure_message
                (endpoint (Ok (mkResponse 503 (Raise (Exn JSONDecodeError "")))))
                "k" "What is this?" "gemini-2.0-flash" true "aGk=" [])
      as (_ & Hstatus & _); [discriminate|].
    destruct (Hstatus _ eq_refl) as [msg Hmsg]; [cbn; lia|]. reflexivity.
  - destruct (chat_request_failure_message
                (endpoint (Raise (Exn ConnectionError "refused")))
                "k" "What is this?" "gemini-2.0-flash" true "aGk=" [])
      as (Htransport & _ & _); [discriminate|].
    exact (Htransport _ eq_refl eq_refl).
Defined.



End ChatFacts.

(** ** appgen.py: detection and display *)

Module DetectFacts.
Import Appgen.

Lemma rbind_Ok_inv {A B} (r : result A) (k : A → result B) b :
  rbind r k = Ok b → ∃ a, r = Ok a ∧ k a = Ok b.
Proof. destruct r as [a|e]; [eauto|discriminate]. Qed.

Lemma collect_Ok model boxes ds :
  collect model boxes = Ok ds → Forall2 (λ box d, detection_of model box = Ok d) boxes ds.
Proof.
  revert ds. induction boxes as [|box boxes IH]; intros ds Hds; cbn in Hds.
  - injection Hds as <-. constructor.
  - apply rbind_Ok_inv in Hds as (d & Hd & Hds).
    apply rbind_Ok_inv in Hds as (ds' & Hds' & [= <-]).
    constructor; [done|by apply IH].
Qed.

Lemma collect_all model boxes ds :
  Forall2 (λ box d, detection_of model box = Ok d) boxes ds → collect model boxes = Ok ds.
Proof. induction 1 as [|box d boxes ds Hd _ IH]; cbn; [done|]. by rewrite Hd, IH. Qed.

Lemma detection_of_class model box d :
  detection_of model box = Ok d →
  ∃ c id, item0 (cls box) = Ok c ∧ int_of_float c = Ok id ∧ names model !! id = Some (class d).
Proof.
  unfold detection_of. intros Hd.
  apply rbind_Ok_inv in Hd as (c & Hc & Hd).
  apply rbind_Ok_inv in Hd as (id & Hid & Hd).
  apply rbind_Ok_inv in Hd as (name & Hname & Hd).
  apply rbind_Ok_inv in Hd as (cf & _ & Hd).
  apply rbind_Ok_inv in Hd as (row & _ & Hd).
  apply rbind_Ok_inv in Hd as (bb & _ & [= <-]).
  exists c, id. split_and!; [done..|].
  destruct (names model !! id); by simplify_eq.
Qed.

(** What a returning [detect_objects] went through. *)
Lemma detect_objects_Ok_inv env image t h ref ds h' :
  detect_objects env image t h = (Ok (ref, ds), h') →
  ∃ model pixels results,
    load_yolo_model env = Ok model ∧ decode env image = Ok pixels
    ∧ predict model pixels = Ok results
    ∧ collect model (concat results) = Ok ds
    ∧ ref = length h ∧ h' = h ++ [pixels].
Proof.
  unfold detect_objects. intros Hrun.
  apply bind_Ok_inv in Hrun as (model & ? & [= Hmodel <-] & Hrun).
  apply bind_Ok_inv in Hrun as (pixels & ? & [= Hpixels <-] & Hrun).
  apply bind_Ok_inv in Hrun as (r & ? & [= <- <-] & Hrun).
  apply bind_Ok_inv in Hrun as (results & ? & [= Hresults <-] & Hrun).
  apply bind_Ok_inv in Hrun as (ds' & ? & [= Hds <-] & Hrun).
  injection Hrun as <- <- <-. exists model, pixels, results. by split_and!.
Qed.

(** X4. When [detect_objects] returns, it has stored the decoded upload as a
    new array, which it returns, and changed no other; its detections are
    those of the boxes of all results, one per box and in their order,
    each with a class name of the model. *)
Theorem detect_objects_returns env image confidence_threshold h ref detections h' :
  detect_objects env image confidence_threshold h = (Ok (ref, detections), h') →
  ∃ model pixels results,
    load_yolo_model env = Ok model
    ∧ decode env image = Ok pixels
    ∧ predict model pixels = Ok results
    ∧ ref = length h ∧ h' = h ++ [pixels]
    ∧ Forall2 (λ box d, detection_of model box = Ok d) (concat results) detections
    ∧ Forall (λ d, ∃ id, names model !! id = Some (class d)) detections.
Proof.
  intros Hrun.
  apply detect_objects_Ok_inv in Hrun
    as (model & pixels & results & Hmodel & Hpixels & Hresults & Hds & -> & ->).
  exists model, pixels, results. split_and!; try done.
  - by apply collect_Ok.
  - apply collect_Ok in Hds. induction Hds as [|box d boxes ds Hd _ IH]; constructor; [|done].
    apply detection_of_class in Hd as (c & id & _ & _ & Hname). eauto.
Qed.

(** X5. One box that cannot be turned into a detection (an empty tensor, a
    class id that is not in [model.names], a row that does not have four
    coordinates, a coordinate that is not finite) makes the whole call
    raise, after the decoded upload has been stored. *)
Theorem detect_objects_one_bad_box env image confidence_threshold h model pixels results box e :
  load_yolo_model env = Ok model →
  decode env image = Ok pixels →
  predict model pixels = Ok results →
  box ∈ concat results →
  detection_of model box = Raise e →
  let r := detect_objects env image confidence_threshold h in
  (∃ e', r.1 = Raise e') ∧ r.2 = h ++ [pixels].
Proof.
  intros Hmodel Hpixels Hresults Hbox Hbad. cbn zeta.
  unfold detect_objects, mbind, M_bind, lift, alloc, get, modify, mret, M_ret.
  rewrite Hmodel, Hpixels. cbn. rewrite Hresults. cbn.
  destruct (collect model (concat results)) as [ds|e'] eqn:Hds; cbn; [|eauto].
  exfalso. apply collect_Ok in Hds.
  apply list_elem_of_lookup in Hbox as [i Hi].
  destruct (Forall2_lookup_l _ _ _ _ _ Hds Hi) as (d & _ & Hd). congruence.
Qed.

(** A model with one class, and an upload on which it finds one box. *)
Definition blight_model (class_id : float) : Model :=
  mkModel {[ 0%Z := "blight" ]}
          (λ _, Ok [[mkBox [class_id] [0.9%float]
                       [[10.2%float; 20.7%float; 110.5%float; 220.9%float]]]]).

Definition blight_env (class_id : float) : Env :=
  mkEnv (Ok (blight_model class_id)) (λ _, Ok (mkArray [1; 1; 3] [7; 7; 7]%Z))
        (λ a _ _ _ _, Ok (mkArray (shape a) ((λ _, 255%Z) <$> data a)))
        (λ a _ _ _ _ _, Ok a) (λ _, "0.90")
        (λ _, Raise (Exn ConnectionError "refused")).

Definition upload : UploadedFile := mkFile "leaf.png" [137; 80; 78; 71]%Z.

Lemma detect_objects_returns_witness :
  ∃ detections,
    detect_objects (blight_env 0) upload 0.5 [] = (Ok (0, detections), [mkArray [1; 1; 3] [7; 7; 7]%Z])
    ∧ Forall (λ d, ∃ id, names (blight_model 0) !! id = Some (class d)) detections.
Proof.
  eexists. split; [reflexivity|].
  destruct (detect_objects_returns (blight_env 0) upload 0.5 [] 0 _ _ eq_refl)
    as (model & pixels & results & [= <-] & _ & _ & _ & _ & _ & Hnames).
  exact Hnames.
Defined.

Lemma detect_objects_one_bad_box_witness :
  ∃ e, (detect_objects (blight_env 7) upload 0.5 []).1 = Raise e.
Proof.
  refine (proj1 (detect_objects_one_bad_box (blight_env 7) upload 0.5 [] _ _ _
                   (mkBox [7%float] [0.9%float]
                          [[10.2%float; 20.7%float; 110.5%float; 220.9%float]])
                   (Exn KeyError "7") eq_refl eq_refl eq_refl _ eq_refl)).
  apply list_elem_of_singleton. reflexivity.
Defined.

(** What a returning [visualize_detections] has done to the store. *)
Lemma visualize_detections_Ok env image detections h out h' :
  visualize_detections env image detections h = (Ok out, h') →
  out = length h ∧ is_Some (h !! image) ∧ AppgenFacts.extends_by_one h h'.
Proof.
  unfold visualize_detections. intros Hrun.
  destruct (h !! image) as [a|] eqn:Ha.
  2:{ destruct (AppgenFacts.copy_raises _ _ Ha) as [e He].
      by rewrite (bind_Raise _ _ _ _ _ He) in Hrun. }
  rewrite (bind_Ok _ _ _ _ _ (AppgenFacts.copy_returns _ _ _ Ha)) in Hrun.
  set (loop := for_each detections _) in Hrun.
  assert (Hloop : AppgenFacts.extends_by_one h (loop (h ++ [a])).2).
  { apply preserves_for_each.
    - intros det. destruct (bbox det) as [[[x1 y1] x2] y2].
      apply preserves_bind; [apply AppgenFacts.in_place_extends|].
      intros _. apply AppgenFacts.in_place_extends.
    - split; [rewrite length_app; cbn; lia|].
      intros ref b Hb. by apply lookup_app_l_Some. }
  apply bind_Ok_inv in Hrun as ([] & h1 & Hh1 & [= <- <-]).
  rewrite Hh1 in Hloop. split_and!; [done|eauto|done].
Qed.

(** X6. When the detection step of [main] returns for an upload, the store
    has two more arrays: the decoded upload, which is the original image
    handed on to the chat request and is still as decoded, and the image
    with the boxes drawn, which is the one displayed; no array that was
    there before has changed. *)
Theorem main_detection_keeps_original env confidence_threshold uploaded_file h
    original_image detections detected_image h' :
  main_detection env confidence_threshold (Some uploaded_file) h
  = (Ok (Some (original_image, detections, detected_image)), h') →
  ∃ pixels,
    decode env uploaded_file = Ok pixels
    ∧ original_image = length h
    ∧ detected_image = S (length h)
    ∧ length h' = S (S (length h))
    ∧ h' !! original_image = Some pixels
    ∧ ∀ ref a, h !! ref = Some a → h' !! ref = Some a.
Proof.
  unfold main_detection. intros Hrun.
  apply bind_Ok_inv in Hrun as ([orig ds] & h1 & Hdetect & Hrun).
  apply bind_Ok_inv in Hrun as (shown & h2 & Hshow & [= <- <- <- <-]).
  apply detect_objects_Ok_inv in Hdetect
    as (model & pixels & results & _ & Hpixels & _ & _ & -> & ->).
  apply visualize_detections_Ok in Hshow as (-> & _ & [Hlen Hold]).
  rewrite length_app in *. cbn in *.
  exists pixels. split_and!; [done|done|lia|lia| |].
  - apply Hold. by rewrite lookup_app_r, Nat.sub_diag.
  - intros ref a Ha. apply Hold. by apply lookup_app_l_Some.
Qed.

Lemma main_detection_keeps_original_witness :
  ∃ detections h',
    main_detection (blight_env 0) 0.5 (Some upload) []
    = (Ok (Some (0, detections, 1)), h')
    ∧ h' !! 0 = Some (mkArray [1; 1; 3] [7; 7; 7]%Z)
    ∧ h' !! 1 = Some (mkArray [1; 1; 3] [255; 255; 255]%Z).
Proof.
  eexists _, _. split; [reflexivity|].
  destruct (main_detection_keeps_original (blight_env 0) 0.5 upload [] 0 _ 1 _ eq_refl)
    as (pixels & [= <-] & _ & _ & _ & Horiginal & _).
  split; [exact Horiginal|reflexivity].
Defined.

End DetectFacts.

(** ** appgen.py: the session, the sidebar and the question *)


Module ConversationFacts.
Import Appgen Conversation.

(** *** The session *)

(** X7. After the initialisation the three keys are set; a key that was set
    keeps its value, only an absent [conversation_id] takes the new uuid;
    running it again, with any other uuid, changes nothing. *)
Theorem init_session_state_once uuid4 uuid4' st :
  let st' := init_session_state uuid4 st in
  conversation_id st' = Some (default uuid4 (conversation_id st))
  ∧ conversation_history st' = Some (default [] (conversation_history st))
  ∧ parent_message_id st' = Some (default None (parent_message_id st))
  ∧ init_session_state uuid4' st' = st'.
Proof.
  destruct st as [[id|] [history|] [parent|]]; cbn; by split_and!.
Qed.

(** *** The sidebar *)

Lemma length_append s1 s2 :
  String.length (s1 +:+ s2) = String.length s1 + String.length s2.
Proof.
  induction s1 as [|c s1 IH]; [done|].
  change (String c s1 +:+ s2) with (String c (s1 +:+ s2)). cbn. by rewrite IH.
Qed.

Lemma length_substring_0 n s : String.length (String.substring 0 n s) = min n (String.length s).
Proof.
  revert s. induction n as [|n IH]; intros [|c s]; cbn; try done. f_equal. apply IH.
Qed.


Lemma summary_content_string env s : ∃ text, summary_content env (JString s) = Ok text.
Proof. by eexists. Qed.

(** The loop over the summary messages, when each has a string content. *)
Lemma summary_loop env messages a :
  Forall (λ m, ∃ s, content m = JString s) messages →
  ∃ shown,
    for_each messages (λ message,
      content ← lift (summary_content env (content message));
      to_sidebar (Markdown (entry_html (role message) content) true)) a
    = (Ok tt, mkApp (session_state a) (arrays a) (sent a) (sidebar a ++ shown) (page a))
    ∧ Forall2 (λ m e, ∃ text, summary_content env (content m) = Ok text
                              ∧ e = Markdown (entry_html (role m) text) true)
              messages shown.
Proof.
  intros Hstrings. revert a. induction Hstrings as [|m messages [s Hs] _ IH]; intros a.
  - exists []. split; [|constructor]. cbn. destruct a; cbn. by rewrite app_nil_r.
  - destruct (summary_content_string env s) as (text & Htext).
    set (a1 := mkApp (session_state a) (arrays a) (sent a)
                     (sidebar a ++ [Markdown (entry_html (role m) text) true]) (page a)).
    destruct (IH a1) as (shown & Hloop & Hshown).
    exists (Markdown (entry_html (role m) text) true :: shown). split.
    + cbn [for_each]. erewrite bind_Ok.
      2:{ rewrite Hs. erewrite bind_Ok; [|unfold lift; by rewrite Htext]. reflexivity. }
      fold a1. rewrite Hloop. cbn. by rewrite <- app_assoc.
    + constructor; [|done]. exists text. by rewrite Hs.
Qed.


(** A session with one question in its history. *)
Definition one_message : App :=
  mkApp (mkSession (Some "c") (Some [mkMessage "user" (JString "Is it ill?")]) (Some None))
        [mkArray [1; 1; 3] [7; 7; 7]%Z] [] [] [].

Definition offline : Env :=
  mkEnv (ChatFacts.endpoint (Raise (Exn ConnectionError "refused")))
        (λ _, Ok "aGk=") (λ _, "90.00%") (λ _, "").


(** *** Asking a question *)

Lemma append_message_eq message a history :
  conversation_history (session_state a) = Some history →
  append_message message a
  = (Ok tt, set_session (λ st, mkSession (conversation_id st) (Some (history ++ [message]))
                                         (parent_message_id st)) a).
Proof.
  intros Hhistory. unfold append_message, get_history, mbind, M_bind, get, modify. cbn.
  by rewrite Hhistory.
Qed.

(** The prompt that [main] builds for a question. *)
Definition full_prompt_for (env : Env) (detected_objects : list Detection) (question : string)
    : string :=
  "I have uploaded an image eith the following detected objects: "
  +:+ objects_context env detected_objects +:+ " Question: " +:+ question.

Lemma process_question_asked env key stream original_image detected_objects a
    question pixels img_base64 history :
  question ≠ "" →
  arrays a !! original_image = Some pixels →
  png_base64 env pixels = Ok img_base64 →
  conversation_history (session_state a) = Some history →
  let call :=
    send_amaliai_request (services env) (default "None" key)
      (full_prompt_for env detected_objects question)
      (Some img_base64) default_model_name stream (sent a) in
  let r := process_question env key stream (Some question) original_image
             detected_objects a in
  let asked := mkMessage "user" (JString question) in
  sent r.2 = call.2 ∧ arrays r.2 = arrays a ∧ sidebar r.2 = sidebar a
  ∧ match call.1 with
    | Ok response =>
        r.1 = Ok Rerun
        ∧ conversation_history (session_state r.2)
          = Some (history ++ [asked; mkMessage "assistant" response])
        ∧ page r.2 = page a
    | Raise e =>
        r.1 = Ok Continue
        ∧ conversation_history (session_state r.2) = Some (history ++ [asked])
        ∧ page r.2 = page a ++ [Error ("An error occured: " +:+ exn_str e)]
    end.
Proof.
  intros Hquestion Hpixels Himg Hhistory. cbn zeta.
  destruct question as [|c q]; [done|].
  unfold process_question, full_prompt_for.
  rewrite (bind_Ok get _ a a a eq_refl). rewrite Hpixels.
  rewrite (bind_Ok (mret pixels) _ a pixels a eq_refl).
  rewrite (bind_Ok (lift _) _ a img_base64 a) by (unfold lift; by rewrite Himg).
  cbv zeta. unfold try_except.
  rewrite (bind_Ok _ _ _ _ _ (append_message_eq _ a history Hhistory)).
  unfold on_requests, append_message, get_history, to_page, mbind, M_bind, get, modify,
    mret, M_ret.
  cbn -[send_amaliai_request].
  destruct (send_amaliai_request _ _ _ _ _ _ (sent a)) as [[response|e] sent'] eqn:Hcall;
    cbn -[send_amaliai_request].
  - split_and!; try done. by rewrite <- app_assoc.
  - by split_and!.
Qed.

(** X10. Without a question (no input, or an empty one) the block does
    nothing. With one, once the image is encoded, it never raises: the
    question is appended to the history and exactly the requests of one
    call of [send_amaliai_request] are made; if the call returns, what it
    returned is appended as the assistant's message and the script is
    rerun; if it raises, the question stays in the history without an
    answer and the error is shown on the page. *)
Theorem process_question_records env key stream original_image detected_objects a :
  process_question env key stream None original_image detected_objects a = (Ok Continue, a)
  ∧ process_question env key stream (Some "") original_image detected_objects a
    = (Ok Continue, a)
  ∧ ∀ question pixels img_base64 history,
      question ≠ "" →
      arrays a !! original_image = Some pixels →
      png_base64 env pixels = Ok img_base64 →
      conversation_history (session_state a) = Some history →
      let call :=
        send_amaliai_request (services env) (default "None" key)
          (full_prompt_for env detected_objects question)
          (Some img_base64) default_model_name stream (sent a) in
      let r := process_question env key stream (Some question) original_image
                 detected_objects a in
      let asked := mkMessage "user" (JString question) in
      sent r.2 = call.2 ∧ arrays r.2 = arrays a ∧ sidebar r.2 = sidebar a
      ∧ match call.1 with
        | Ok response =>
            r.1 = Ok Rerun
            ∧ conversation_history (session_state r.2)
              = Some (history ++ [asked; mkMessage "assistant" response])
            ∧ page r.2 = page a
        | Raise e =>
            r.1 = Ok Continue
            ∧ conversation_history (session_state r.2) = Some (history ++ [asked])
            ∧ page r.2 = page a ++ [Error ("An error occured: " +:+ exn_str e)]
        end.
Proof.
  split_and!; [done..|]. intros question pixels img history.
  apply process_question_asked.
Qed.

Lemma process_question_records_witness :
  conversation_history
    (session_state (process_question offline (Some "k") false (Some "And now?") 0 []
                      one_message).2)
  = Some [mkMessage "user" (JString "Is it ill?"); mkMessage "user" (JString "And now?");
          mkMessage "assistant" (JString "Request failed: refused")].
Proof.
  destruct (process_question_records offline (Some "k") false 0 [] one_message)
    as (_ & _ & Hasked).
  destruct (Hasked "And now?" (mkArray [1; 1; 3] [7; 7; 7]%Z) "aGk="
              [mkMessage "user" (JString "Is it ill?")])
    as (_ & _ & _ & Hanswer); [discriminate|reflexivity..|].
  exact (proj1 (proj2 Hanswer)).
Defined.

(** X11. One question makes one request, to gemini-2.0-flash, whatever the
    Stream Response checkbox says, and also without a key, which is then
    sent as "None". When the transport fails with a RequestException, the
    failure message is stored in the history as the assistant's answer and
    the script is rerun as after an answer. *)
Theorem question_makes_one_request env key stream original_image detected_objects a
    question pixels img_base64 history :
  question ≠ "" →
  arrays a !! original_image = Some pixels →
  png_base64 env pixels = Ok img_base64 →
  img_base64 ≠ "" →
  conversation_history (session_state a) = Some history →
  let request :=
    ChatFacts.request_for (default "None" key)
      (full_prompt_for env detected_objects question) img_base64 "gemini-2.0-flash" in
  let r := process_question env key stream (Some question) original_image
             detected_objects a in
  sent r.2 = sent a ++ [request]
  ∧ ∀ e, post (services env) request = Raise e → is_RequestException e = true →
         r.1 = Ok Rerun
         ∧ conversation_history (session_state r.2)
           = Some (history ++ [mkMessage "user" (JString question);
                               mkMessage "assistant"
                                 (JString ("Request failed: " +:+ exn_str e))]).
Proof.
  intros Hquestion Hpixels Himg Hnonempty Hhistory. cbn zeta.
  destruct (process_question_asked env key stream original_image detected_objects a
              question pixels img_base64 history Hquestion Hpixels Himg Hhistory)
    as (Hsent & _ & _ & Hanswer).
  split.
  - rewrite Hsent. by apply ChatFacts.send_with_image_posts_once.
  - intros e Hpost Hclass.
    rewrite (ChatFacts.send_with_image_transport_error _ _ _ _ _ _ _ Hnonempty e Hpost),
      Hclass in Hanswer.
    by destruct Hanswer as (? & ? & _).
Qed.

Lemma question_makes_one_request_witness :
  sent (process_question offline None false (Some "And now?") 0 [] one_message).2
  = [ChatFacts.request_for "None"
       (full_prompt_for offline [] "And now?") "aGk=" "gemini-2.0-flash"].
Proof.
  refine (proj1 (question_makes_one_request offline None false 0 [] one_message
                   "And now?" (mkArray [1; 1; 3] [7; 7; 7]%Z) "aGk="
                   [mkMessage "user" (JString "Is it ill?")] _ eq_refl eq_refl _ eq_refl));
    discriminate.
Defined.

End ConversationFacts.

(** ** metrics_middleware.py: the counters *)

Module CounterFacts.
Import Metrics.

(** A call into the module. *)
Inductive call :=
| Detection
| ApiCall (status : string)
| Request (endpoint method : string)
| ActiveUsers (now : float).

Definition run_call (w : World) (c : call) : World :=
  match c with
  | Detection => track_yolo_detection w
  | ApiCall status => track_gemini_api_call status w
  | Request endpoint method => track_request endpoint method w
  | ActiveUsers now => track_active_users now w
  end.

(** How many of the calls satisfy [p]. *)
Definition count (p : call → bool) (calls : list call) : Z :=
  Z.of_nat (length (filter (λ c, p c = true) calls)).

Definition is_detection (c : call) : bool :=
  match c with Detection => true | _ => false end.

Definition is_api_call (status : string) (c : call) : bool :=
  match c with ApiCall s => bool_decide (s = status) | _ => false end.

Definition is_request (endpoint method : string) (c : call) : bool :=
  match c with
  | Request e m => bool_decide (e = endpoint) && bool_decide (m = method)
  | _ => false
  end.

Lemma count_cons p c calls :
  count p (c :: calls) = ((if p c then 1 else 0) + count p calls)%Z.
Proof.
  unfold count. rewrite filter_cons. destruct (p c); cbn [length]; [|done].
  rewrite decide_True by done. cbn [length]. lia.
Qed.

(** X12. After any sequence of calls into the module, each counter has grown
    by the number of calls made for it, and for its label: detections by
    the calls of [track_yolo_detection], the API calls of a status by the
    calls of [track_gemini_api_call] with that status, the requests of a
    method and endpoint by the calls of [track_request] with them.
    Calls for other metrics or labels, in any order, do not count. *)
Theorem counters_count_their_calls calls w :
  let w' := foldl run_call w calls in
  YOLO_DETECTIONS w' = (YOLO_DETECTIONS w + count is_detection calls)%Z
  ∧ (∀ status,
       default 0%Z (GEMINI_API_CALLS w' !! status)
       = (default 0 (GEMINI_API_CALLS w !! status) + count (is_api_call status) calls)%Z)
  ∧ (∀ endpoint method,
       default 0%Z (REQUEST_COUNT w' !! (method, endpoint))
       = (default 0 (REQUEST_COUNT w !! (method, endpoint))
          + count (is_request endpoint method) calls)%Z).
Proof.
  cbn zeta. revert w. induction calls as [|c calls IH]; intros w.
  - unfold count. cbn. split_and!; intros; lia.
  - cbn [foldl]. destruct (IH (run_call w c)) as (Hdet & Hapi & Hreq).
    split_and!.
    + rewrite Hdet, count_cons. destruct c as [|s|e m|now]; cbn; try lia.
      unfold track_active_users. case_bool_decide; cbn; lia.
    + intros status. rewrite Hapi, count_cons. destruct c as [|s|e m|now]; cbn; try lia.
      * case_bool_decide as Hs.
        -- subst. rewrite lookup_insert_eq. cbn. lia.
        -- rewrite lookup_insert_ne by done. lia.
      * unfold track_active_users. case_bool_decide; cbn; lia.
    + intros endpoint method. rewrite Hreq, count_cons.
      destruct c as [|s|e m|now]; cbn; try lia.
      * destruct (decide ((m, e) = (method, endpoint))) as [[= -> ->]|Hne].
        -- rewrite lookup_insert_eq, !bool_decide_eq_true_2 by done. cbn. lia.
        -- rewrite lookup_insert_ne by done.
           destruct (bool_decide (e = endpoint)) eqn:He, (bool_decide (m = method)) eqn:Hm;
             cbn; try lia.
           apply bool_decide_eq_true in He, Hm. by subst.
      * unfold track_active_users. case_bool_decide; cbn; lia.
Qed.

End CounterFacts.

(** ** airflow_dags/yolo_training_pipeline.py: the tasks one by one *)

Module TaskFacts.
Import Pipeline PipelineFacts.

(** *** Setting up the tracker *)

Lemma with_experiment_idemp es : with_experiment (with_experiment es) = with_experiment es.
Proof.
  assert (Hin : EXPERIMENT_NAME ∈ with_experiment es).
  { unfold with_experiment. case_bool_decide; [done|].
    apply elem_of_app. right. by apply list_elem_of_singleton. }
  unfold with_experiment at 1. by rewrite bool_decide_eq_true_2.
Qed.

(** X13. [setup_mlflow] never raises. Afterwards the experiment exists; the
    experiments that existed are still there, in the same order, and the
    list is unchanged if the experiment was among them; runs, registry
    and XCom are not touched; a second call changes nothing. *)
Theorem setup_mlflow_ensures_experiment w :
  let r := setup_mlflow w in
  r.1 = Ok tt
  ∧ EXPERIMENT_NAME ∈ experiments r.2
  ∧ experiments w `prefix_of` experiments r.2
  ∧ (EXPERIMENT_NAME ∈ experiments w → experiments r.2 = experiments w)
  ∧ runs r.2 = runs w
  ∧ registered_models r.2 = registered_models w
  ∧ xcom_dataset_info r.2 = xcom_dataset_info w
  ∧ xcom_model_info r.2 = xcom_model_info w
  ∧ setup_mlflow r.2 = (Ok tt, r.2).
Proof.
  cbn zeta. rewrite setup_mlflow_eq. cbn [fst snd]. split_and!; try done.
  - cbn. unfold with_experiment. case_bool_decide; [done|].
    apply elem_of_app. right. by apply list_elem_of_singleton.
  - cbn. unfold with_experiment. case_bool_decide; [done|]. by apply prefix_app_r.
  - intros Hin. cbn. unfold with_experiment. by rewrite bool_decide_eq_true_2.
  - rewrite setup_mlflow_eq. f_equal. unfold set_experiments. cbn.
    by rewrite with_experiment_idemp.
Qed.

(** *** The dataset task *)

(** The descriptor that [prepare_dataset] builds. *)
Definition crop_disease_dataset : DatasetInfo :=
  mkDataset 1000 200 100 ["healthy"; "diseased"; "pest_damage"; "nutrient_deficiency"]
            "1.0" "/opt/airflow/data/crop_disease_dataset".

Lemma dataset_params_logged env :
  ∃ r, params_logged env (dataset_items crop_disease_dataset)
         (mkRun "dataset_preparation" "RUNNING" ∅ ∅ []) = (Ok tt, r)
       ∧ run_name r = "dataset_preparation" ∧ metrics r = ∅ ∧ artifacts r = []
       ∧ Forall (λ kv, params r !! kv.1 = Some (param_string env kv.2))
                (dataset_items crop_disease_dataset).
Proof.
  eexists. split; [vm_compute; reflexivity|]. split_and!; [reflexivity..|].
  repeat constructor.
Qed.

Lemma prepare_dataset_Ok env ctx w :
  ∃ w' run,
    prepare_dataset env ctx w = (Ok crop_disease_dataset, w')
    ∧ runs w' = runs w ++ [run]
    ∧ run_name run = "dataset_preparation"
    ∧ status run = "FINISHED"
    ∧ metrics run = {[ "total_images" := 1300%float ]}
    ∧ Forall (λ kv, params run !! kv.1 = Some (param_string env kv.2))
             (dataset_items crop_disease_dataset)
    ∧ xcom_dataset_info w' = <[task_id ctx := crop_disease_dataset]> (xcom_dataset_info w)
    ∧ registered_models w' = registered_models w
    ∧ xcom_model_info w' = xcom_model_info w
    ∧ clock w' = clock w
    ∧ train_calls w' = train_calls w.
Proof.
  destruct (dataset_params_logged env) as (r1 & Hr1 & Hname & Hmetrics & _ & Hparams).
  set (w1 := set_experiments with_experiment w).
  eexists (set_xcom_dataset_info (<[task_id ctx := crop_disease_dataset]>)
             (with_new_run _ w1)), _.
  split.
  - unfold prepare_dataset. fold crop_disease_dataset.
    rewrite (bind_Ok _ _ _ _ _ (setup_mlflow_eq w)). fold w1.
    erewrite bind_Ok; [reflexivity|].
    rewrite start_run_eq.
    apply (end_run_started _ w1 _ (Ok tt)); [done|].
    rewrite (bind_Ok _ _ _ _ _ (log_params_new_Ok env w1 _ _ _ Hr1)).
    erewrite bind_Ok; [|reflexivity].
    apply log_metric_new.
  - cbn. rewrite Hmetrics. by split_and!.
Qed.

(** X14. From any world, [prepare_dataset] returns the descriptor and pushes it
    to XCom under its task id; it adds one run, ended as FINISHED, with
    the six fields of the descriptor as parameters and the metric
    total_images = 1300; it writes nothing to the registry. *)
Theorem prepare_dataset_always_returns env ctx w :
  let r := prepare_dataset env ctx w in
  r.1 = Ok crop_disease_dataset
  ∧ xcom_dataset_info r.2 !! task_id ctx = Some crop_disease_dataset
  ∧ (∃ run,
       runs r.2 = runs w ++ [run]
       ∧ run_name run = "dataset_preparation"
       ∧ status run = "FINISHED"
       ∧ metrics run = {[ "total_images" := 1300%float ]}
       ∧ Forall (λ kv, params run !! kv.1 = Some (param_string env kv.2))
                (dataset_items crop_disease_dataset))
  ∧ registered_models r.2 = registered_models w
  ∧ xcom_model_info r.2 = xcom_model_info w.
Proof.
  cbn zeta.
  destruct (prepare_dataset_Ok env ctx w)
    as (w' & run & -> & Hruns & Hname & Hstatus & Hmetrics & Hparams & Hxcom & Hreg & Hmi & _).
  cbv [fst snd]. split_and!; try done.
  - by rewrite Hxcom, lookup_insert_eq.
  - by exists run.
Qed.

(** *** The registration task *)

(** Rewriting the entry of the version registered last. *)
Lemma update_last_version f w vs e :
  registered_models w !! MODEL_NAME = Some (vs ++ [e]) →
  update_version MODEL_NAME (Some (S (length vs))) f w
  = (Ok tt, set_registered_models (<[MODEL_NAME := vs ++ [f e]]>) w).
Proof.
  intros Hname.
  assert (Hlast : (vs ++ [e]) !! length vs = Some e).
  { by rewrite lookup_app_r, Nat.sub_diag. }
  rewrite (update_version_eq _ _ _ _ _ _ Hname Hlast). do 2 f_equal.
  replace (length vs) with (length vs + 0) by lia.
  by rewrite alter_app_r.
Qed.

(** The [model_info] that [register_model] pushes. *)
Definition with_version (v : nat) (mi : ModelInfo) : ModelInfo :=
  mkInfo (run_id mi) (model_path mi) (Some v) (training_metrics mi)
         (evaluation_metrics mi) (model_quality mi) (ab_test_results mi).

(** The registry entry of a version that [register_model] has created
    from run [rid] for a model of quality [q], at the time [now]. *)
Definition registered_entry (rid : nat) (q now : string) : VersionEntry :=
  if bool_decide (q = "good")
  then mkEntry rid Staging (<["training_date" := now]> (<["quality" := q]> ∅))
  else mkEntry rid StageNone ∅.

Section registration.
Context (env : Env) (ctx : Context) (w : World) (mi : ModelInfo) (q : string) (r : Run).
Hypothesis Hpulled : xcom_model_info w !! "evaluate_model" = Some mi.
Hypothesis Hq : model_quality mi = Some q.
Hypothesis Hrun : runs w !! run_id mi = Some r.

Lemma register_model_Ok :
  let vs := default [] (registered_models w !! MODEL_NAME) in
  ∃ w',
    register_model env ctx w = (Ok (S (length vs)), w')
    ∧ registered_models w' !! MODEL_NAME
      = Some (vs ++ [registered_entry (run_id mi) q (isoformat env (clock w))])
    ∧ (∀ name, name ≠ MODEL_NAME → registered_models w' !! name = registered_models w !! name)
    ∧ xcom_model_info w' = <[task_id ctx := with_version (S (length vs)) mi]> (xcom_model_info w)
    ∧ xcom_dataset_info w' = xcom_dataset_info w
    ∧ runs w' = runs w
    ∧ EXPERIMENT_NAME ∈ experiments w'.
Proof using All.
  intros vs.
  set (w1 := set_experiments with_experiment w).
  set (e0 := mkEntry (run_id mi) StageNone ∅).
  set (w2 := set_registered_models (<[MODEL_NAME := vs ++ [e0]]>) w1).
  assert (Hin : EXPERIMENT_NAME ∈ experiments w1).
  { cbn. unfold with_experiment. case_bool_decide; [done|].
    apply elem_of_app. right. by apply list_elem_of_singleton. }
  assert (Hreg : mlflow_register_model (run_id mi) MODEL_NAME w1
                 = (Ok (mkVersion (S (length vs)) (run_id mi) StageNone), w2)).
  { unfold mlflow_register_model.
    rewrite (bind_Ok _ _ _ _ _ (get_run_eq (run_id mi) w1 r Hrun)). reflexivity. }
  assert (Hname2 : registered_models w2 !! MODEL_NAME = Some (vs ++ [e0])).
  { cbn. by rewrite lookup_insert_eq. }
  unfold register_model.
  rewrite (bind_Ok _ _ _ _ _ (xcom_pull_model_info_eq _ w)), Hpulled.
  rewrite (bind_Ok _ _ _ _ _ (setup_mlflow_eq w)). fold w1.
  unfold registered_entry.
  case_bool_decide as Hgood.
  - set (e1 := staged Staging e0).
    set (w3 := set_registered_models (<[MODEL_NAME := vs ++ [e1]]>) w2).
    set (e2 := tagged "quality" q e1).
    set (w4 := set_registered_models (<[MODEL_NAME := vs ++ [e2]]>) w3).
    set (w5 := set_clock S w4).
    set (e3 := tagged "training_date" (isoformat env (clock w)) e2).
    set (w6 := set_registered_models (<[MODEL_NAME := vs ++ [e3]]>) w5).
    exists (set_xcom_model_info (<[task_id ctx := with_version (S (length vs)) mi]>) w6).
    split.
    + apply try_except_Ok.
      rewrite (bind_Ok (subscriptable (Some mi)) _ _ mi _ eq_refl).
      rewrite Hq. rewrite (bind_Ok (getitem _ (Some q)) _ _ q _ eq_refl).
      rewrite (bind_Ok _ _ _ _ _ Hreg).
      rewrite bool_decide_eq_true_2 by done.
      change (version (mkVersion (S (length vs)) (run_id mi) StageNone)) with (S (length vs)).
      erewrite bind_Ok; cycle 1.
      { rewrite (transition_eq _ _ "Staging" Staging eq_refl).
        rewrite (bind_Ok _ _ _ _ _ (update_last_version _ w2 vs e0 Hname2)). fold e1 w3.
        rewrite set_tag_eq.
        assert (Hname3 : registered_models w3 !! MODEL_NAME = Some (vs ++ [e1])).
        { cbn. by rewrite lookup_insert_eq. }
        rewrite (bind_Ok _ _ _ _ _ (update_last_version _ w3 vs e1 Hname3)). fold e2 w4.
        assert (Hnow : datetime_now env w4 = (Ok (isoformat env (clock w)), w5)) by reflexivity.
        rewrite (bind_Ok _ _ _ _ _ Hnow).
        rewrite set_tag_eq.
        assert (Hname5 : registered_models w5 !! MODEL_NAME = Some (vs ++ [e2])).
        { cbn. by rewrite lookup_insert_eq. }
        apply (update_last_version _ w5 vs e2 Hname5). }
      unfold with_version. rewrite Hq. reflexivity.
    + split_and!; try done.
      * cbn. by rewrite lookup_insert_eq.
      * intros name Hne. cbn. by rewrite !lookup_insert_ne.
  - exists (set_xcom_model_info (<[task_id ctx := with_version (S (length vs)) mi]>) w2).
    split.
    + apply try_except_Ok.
      rewrite (bind_Ok (subscriptable (Some mi)) _ _ mi _ eq_refl).
      rewrite Hq. rewrite (bind_Ok (getitem _ (Some q)) _ _ q _ eq_refl).
      rewrite (bind_Ok _ _ _ _ _ Hreg).
      rewrite bool_decide_eq_false_2 by done.
      unfold with_version. rewrite Hq. reflexivity.
    + split_and!; try done.
      intros name Hne. cbn. by rewrite lookup_insert_ne.
Qed.

End registration.


(** What [register_model] finds missing in a world, if anything: the
    pulled [model_info], its quality label, or the run of the model. *)
Definition missing_for_registration (w : World) : option exn :=
  match xcom_model_info w !! "evaluate_model" with
  | None => Some (Exn TypeError "'NoneType' object is not subscriptable")
  | Some mi =>
      match model_quality mi with
      | None => Some (Exn KeyError "'model_quality'")
      | Some _ =>
          match runs w !! run_id mi with
          | None => Some (Exn MlflowException "Run not found")
          | Some _ => None
          end
      end
  end.


(** *** The training task, when the trainer succeeds *)

(** A value that [mlflow.log_metric] can take, or that is skipped: not an
    integer too large for a double. *)
Definition loggable (v : value) : Prop := ∀ e, numeric v ≠ Some (Raise e).

(** The loop over [results.results_dict] in a run just started: it writes
    metrics only. *)
Lemma results_logged w ms :
  Forall (λ kv : string * value, loggable kv.2) ms →
  ∀ r, ∃ r',
    for_each ms (λ kv,
      match numeric kv.2 with
      | Some x => x ← lift x; log_metric (length (runs w)) kv.1 x
      | None => mret tt
      end) (with_new_run r w) = (Ok tt, with_new_run r' w)
    ∧ params r' = params r ∧ artifacts r' = artifacts r.
Proof.
  induction 1 as [|kv ms Hkv _ IH]; intros r.
  - by exists r.
  - cbn [for_each]. destruct (numeric kv.2) as [[x|e]|] eqn:Hnum.
    + destruct (IH (mkRun (run_name r) (status r) (params r)
                          (<[kv.1 := x]> (metrics r)) (artifacts r))) as (r' & Hr' & ? & ?).
      exists r'. split; [|done].
      erewrite bind_Ok; [exact Hr'|].
      rewrite (bind_Ok (lift (Ok x)) _ _ x _ eq_refl). apply log_metric_new.
    + by destruct (Hkv e).
    + destruct (IH r) as (r' & Hr' & ? & ?). exists r'. split; [|done].
      by rewrite (bind_Ok (mret tt) _ _ tt _ eq_refl).
Qed.

Lemma training_params_fresh env d :
  ∃ r1 r2,
    params_logged env training_params (mkRun "yolo_training" "RUNNING" ∅ ∅ []) = (Ok tt, r1)
    ∧ params_logged env (dataset_items d) r1 = (Ok tt, r2)
    ∧ params r2 !! "model_quality" = None
    ∧ params r2 !! "evaluation_status" = None
    ∧ params r2 !! "error_message" = None
    ∧ artifacts r2 = [].
Proof. eexists _, _. split; [vm_compute; reflexivity|]. vm_compute. split_and!; reflexivity. Qed.

(** The [model_info] that the training task pushes for run [run]. *)
Definition trained_info (run : nat) (results : option (list (string * value))) : ModelInfo :=
  mkInfo run ("/opt/airflow/runs/yolo_training_" +:+ pretty run +:+ "/weights/best.pt")
         None (default [] results) None None None.

Section training.
Context (env : Env) (ctx : Context) (w : World) (d : DatasetInfo).
Context (results : option (list (string * value))).
Hypothesis Hd : xcom_dataset_info w !! "prepare_dataset" = Some d.
Hypothesis Hload : YOLO env "yolov8n.pt" = Ok tt.
Hypothesis Htrain : model_train env (train_config_for (length (runs w))) = Ok results.
Hypothesis Hresults : Forall (λ kv : string * value, loggable kv.2) (default [] results).

Lemma train_yolo_model_Ok :
  let run := length (runs w) in
  let vs := default [] (registered_models w !! MODEL_NAME) in
  ∃ w' r',
    train_yolo_model env ctx w = (Ok (trained_info run results), w')
    ∧ runs w' = runs w ++ [r']
    ∧ status r' = "FINISHED"
    ∧ artifacts r' = ["model"; "model_weights"]
    ∧ params r' !! "model_quality" = None
    ∧ registered_models w' !! MODEL_NAME = Some (vs ++ [mkEntry run StageNone ∅])
    ∧ (∀ name, name ≠ MODEL_NAME → registered_models w' !! name = registered_models w !! name)
    ∧ xcom_model_info w' = <[task_id ctx := trained_info run results]> (xcom_model_info w)
    ∧ xcom_dataset_info w' = xcom_dataset_info w
    ∧ train_calls w' = train_calls w ++ [train_config_for run]
    ∧ clock w' = clock w.
Proof using All.
  intros run vs. change (length (runs w)) with run in Htrain.
  destruct (training_params_fresh env d) as (r1 & r2 & Hr1 & Hr2 & Hquality & _ & _ & Hart).
  set (w1 := set_experiments with_experiment w).
  set (r0 := mkRun "yolo_training" "RUNNING" ∅ ∅ []) in *.
  set (w2 := set_train_calls (λ cs, cs ++ [train_config_for run]) w1).
  destruct (results_logged w2 (default [] results) Hresults r2) as (r3 & Hr3 & Hparams3 & Hart3).
  set (r4 := mkRun (run_name r3) (status r3) (params r3) (metrics r3) (artifacts r3 ++ ["model"])).
  set (w3 := set_registered_models (<[MODEL_NAME := vs ++ [mkEntry run StageNone ∅]]>) w2).
  set (r5 := mkRun (run_name r4) (status r4) (params r4) (metrics r4)
                   (artifacts r4 ++ ["model_weights"])).
  set (w4 := set_xcom_model_info (<[task_id ctx := trained_info run results]>) w3).
  exists (with_new_run (with_status "FINISHED" r5) w4), (with_status "FINISHED" r5).
  split.
  - unfold train_yolo_model.
    rewrite (bind_Ok _ _ _ _ _ (xcom_pull_dataset_info_eq _ w)), Hd.
    rewrite (bind_Ok _ _ _ _ _ (setup_mlflow_eq w)). fold w1.
    rewrite start_run_eq. change (length (runs w1)) with run. fold r0.
    apply (end_run_started _ w1 r0 (Ok (trained_info run results))); [done|].
    rewrite (bind_Ok _ _ _ _ _ (log_params_new_Ok env w1 _ _ _ Hr1)).
    unfold log_params_pulled.
    rewrite (bind_Ok _ _ _ _ _ (log_params_new_Ok env w1 _ _ _ Hr2)).
    apply try_except_Ok.
    rewrite (bind_Ok (lift (YOLO env "yolov8n.pt")) _ _ tt (with_new_run r2 w1))
      by (unfold lift; by rewrite Hload).
    cbv zeta.
    rewrite (bind_Ok (modify _) _ (with_new_run r2 w1) tt (with_new_run r2 w2) eq_refl).
    rewrite (bind_Ok (lift (model_train env (train_config_for run))) _ _ results
               (with_new_run r2 w2)) by (unfold lift; by rewrite Htrain).
    erewrite bind_Ok; cycle 1.
    { etransitivity; [|exact Hr3]. by destruct results. }
    erewrite bind_Ok; cycle 1.
    { unfold pytorch_log_model.
      rewrite (bind_Ok _ _ _ _ _ (log_artifact_new w2 r3 "model")). fold r4.
      assert (Hcreate : create_model_version MODEL_NAME run (with_new_run r4 w2)
                        = (Ok (mkVersion (S (length vs)) run StageNone), with_new_run r4 w3))
        by reflexivity.
      rewrite (bind_Ok _ _ _ _ _ Hcreate). reflexivity. }
    rewrite (bind_Ok _ _ _ _ _ (log_artifact_new w3 r4 "model_weights")). fold r5.
    reflexivity.
  - split_and!; try done.
    + cbn. by rewrite Hart3, Hart.
    + cbn. by rewrite Hparams3.
    + cbn. by rewrite lookup_insert_eq.
    + intros name Hne. cbn. by rewrite lookup_insert_ne.
Qed.

End training.

(** *** The evaluation task *)

(** The world with run [rid] replaced. *)
Definition put_run (rid : nat) (r : Run) : World → World :=
  set_runs (<[rid := r]>).

Lemma alter_lookup {A} (f : A → A) (l : list A) i x :
  l !! i = Some x → alter f i l = <[i := f x]> l.
Proof.
  revert i. induction l as [|y l IH]; intros [|i] Hi; try done.
  - injection Hi as ->. done.
  - cbn. f_equal. by apply IH.
Qed.

Lemma alter_put f w rid r :
  runs w !! rid = Some r → set_runs (alter f rid) w = put_run rid (f r) w.
Proof. intros Hr. unfold put_run, set_runs. by rewrite (alter_lookup _ _ _ _ Hr). Qed.

Lemma lookup_put w rid r :
  rid < length (runs w) → runs (put_run rid r w) !! rid = Some r.
Proof. intros Hlt. cbn. by apply list_lookup_insert_eq. Qed.

Lemma put_put w rid r1 r2 : put_run rid r2 (put_run rid r1 w) = put_run rid r2 w.
Proof. unfold put_run, set_runs. cbn. by rewrite list_insert_insert_eq. Qed.

Lemma alter_put_put f w rid r :
  rid < length (runs w) →
  set_runs (alter f rid) (put_run rid r w) = put_run rid (f r) w.
Proof.
  intros Hlt. rewrite (alter_put f _ rid r) by by apply lookup_put. apply put_put.
Qed.

Lemma get_run_put w rid r :
  rid < length (runs w) → get_run rid (put_run rid r w) = (Ok r, put_run rid r w).
Proof. intros Hlt. apply get_run_eq. by apply lookup_put. Qed.

Lemma log_metric_put w rid r key x :
  rid < length (runs w) →
  log_metric rid key x (put_run rid r w)
  = (Ok tt, put_run rid (mkRun (run_name r) (status r) (params r)
                               (<[key := x]> (metrics r)) (artifacts r)) w).
Proof.
  intros Hlt. unfold log_metric. rewrite (bind_Ok _ _ _ _ _ (get_run_put w rid r Hlt)).
  unfold modify. by rewrite alter_put_put.
Qed.

Lemma log_param_put env w rid r key v :
  rid < length (runs w) →
  log_param env rid key v (put_run rid r w)
  = match param_logged env r (key, v) with
    | Ok r' => (Ok tt, put_run rid r' w)
    | Raise e => (Raise e, put_run rid r w)
    end.
Proof.
  intros Hlt. unfold log_param. rewrite (bind_Ok _ _ _ _ _ (get_run_put w rid r Hlt)).
  unfold param_logged. cbn [fst snd].
  destruct (params r !! key) as [old|]; [by case_bool_decide|].
  unfold modify. by rewrite alter_put_put.
Qed.

Lemma end_run_put {A} (body : M World A) w rid r res r' w' :
  rid < length (runs w') →
  body (put_run rid r w) = (res, put_run rid r' w') →
  end_run rid body (put_run rid r w)
  = (res, put_run rid (with_status (match res with Ok _ => "FINISHED" | Raise _ => "FAILED" end)
                                   r') w').
Proof.
  intros Hlt Hbody. unfold end_run. rewrite Hbody. unfold set_status.
  destruct res; by rewrite alter_put_put.
Qed.

Lemma resume_run_eq {A} rid (body : nat → M World A) w r :
  runs w !! rid = Some r →
  resume_run rid body w = end_run rid (body rid) (put_run rid (with_status "RUNNING" r) w).
Proof.
  intros Hr. unfold resume_run, mbind, M_bind, get. cbn -[put_run]. rewrite Hr.
  unfold modify, set_status. by rewrite (alter_put _ _ _ _ Hr).
Qed.

(** The two parameters of a failed task in a resumed run. *)
Lemma failure_logged_put {A} env w rid r key e :
  rid < length (runs w) →
  params r !! key = None → params r !! "error_message" = None → key ≠ "error_message" →
  (log_param env rid key (VStr "failed") ;;
   log_param env rid "error_message" (VStr (exn_str e)) ;;
   raise e) (put_run rid r w)
  = (@Raise A e, put_run rid (with_failure key (exn_str e) r) w).
Proof.
  intros Hlt Hkey Hmsg Hne.
  erewrite bind_Ok; cycle 1.
  { rewrite log_param_put by done. unfold param_logged. cbn [fst snd]. by rewrite Hkey. }
  erewrite bind_Ok; cycle 1.
  { rewrite log_param_put by done. unfold param_logged. cbn [fst snd params].
    by rewrite lookup_insert_ne, Hmsg. }
  reflexivity.
Qed.

(** The metrics that the evaluation task computes from the validator's
    box metrics. *)
Definition metrics_of (box : BoxMetrics) (f1 : number) : EvaluationMetrics :=
  mkEval (box_map50 box) (box_map box) (box_mp box) (box_mr box) f1.

(** The [model_info] that the evaluation task pushes. *)
Definition evaluated_info (mi : ModelInfo) (em : EvaluationMetrics) : ModelInfo :=
  mkInfo (run_id mi) (model_path mi) (model_version mi) (training_metrics mi)
         (Some em) (Some (quality_of (map50 em))) (ab_test_results mi).

(** The training run after a successful evaluation. *)
Definition evaluated_run (r : Run) (em : EvaluationMetrics) : Run :=
  mkRun (run_name r) "FINISHED"
        (<["model_quality" := quality_of (map50 em)]> (params r))
        (<["eval_f1_score" := float_of (f1_score em)]>
           (<["eval_recall" := float_of (recall em)]>
              (<["eval_precision" := float_of (precision em)]>
                 (<["eval_map50_95" := float_of (map50_95 em)]>
                    (<["eval_map50" := float_of (map50 em)]> (metrics r))))))
        (artifacts r).

Section evaluation.
Context (env : Env) (ctx : Context) (w : World) (mi : ModelInfo) (r : Run).
Hypothesis Hpulled : xcom_model_info w !! "train_yolo_model" = Some mi.
Hypothesis Hrun : runs w !! run_id mi = Some r.

Lemma evaluate_model_Ok box f1 :
  YOLO env (model_path mi) = Ok tt →
  model_val env (model_path mi) "/opt/airflow/data/dataset.yaml" = Ok box →
  f1_of (box_mp box) (box_mr box) = Ok f1 →
  params r !! "model_quality" = None →
  let em := metrics_of box f1 in
  evaluate_model env ctx w
  = (Ok em,
     put_run (run_id mi) (evaluated_run r em)
       (set_xcom_model_info (<[task_id ctx := evaluated_info mi em]>)
          (set_experiments with_experiment w))).
Proof using All.
  intros Hload Hval Hf1 Hfresh em.
  set (w1 := set_experiments with_experiment w).
  set (rid := run_id mi) in *.
  assert (Hlt : rid < length (runs w1)) by (by apply lookup_lt_Some in Hrun).
  unfold evaluate_model.
  rewrite (bind_Ok _ _ _ _ _ (xcom_pull_model_info_eq _ w)), Hpulled.
  rewrite (bind_Ok _ _ _ _ _ (setup_mlflow_eq w)). fold w1.
  rewrite (bind_Ok (subscriptable (Some mi)) _ _ mi _ eq_refl). fold rid.
  rewrite (resume_run_eq rid _ w1 r Hrun).
  set (w2 := set_xcom_model_info (<[task_id ctx := evaluated_info mi em]>) w1).
  rewrite (end_run_put _ w1 rid _ (Ok em)
             (mkRun (run_name r) "RUNNING"
                    (<["model_quality" := quality_of (map50 em)]> (params r))
                    (metrics (evaluated_run r em)) (artifacts r)) w2 Hlt); [reflexivity|].
  apply try_except_Ok.
  rewrite (bind_Ok (lift (YOLO env (model_path mi))) _ _ tt _)
    by (unfold lift; by rewrite Hload).
  rewrite (bind_Ok (lift (model_val env (model_path mi) _)) _ _ box _)
    by (unfold lift; by rewrite Hval).
  rewrite (bind_Ok (lift (f1_of _ _)) _ _ f1 _) by (unfold lift; by rewrite Hf1).
  cbv zeta. fold (metrics_of box f1). fold em.
  unfold metric_items. cbn [for_each].
  erewrite bind_Ok; cycle 1.
  { do 5 (erewrite bind_Ok; [|by apply log_metric_put]). reflexivity. }
  erewrite bind_Ok; cycle 1.
  { rewrite log_param_put by done. unfold param_logged. cbn [fst snd params].
    change (params (with_status "RUNNING" r)) with (params r).
    rewrite Hfresh. reflexivity. }
  reflexivity.
Qed.

Lemma evaluate_model_Raise e :
  YOLO env (model_path mi) = Raise e
  ∨ (YOLO env (model_path mi) = Ok tt
     ∧ (model_val env (model_path mi) "/opt/airflow/data/dataset.yaml" = Raise e
        ∨ ∃ box, model_val env (model_path mi) "/opt/airflow/data/dataset.yaml" = Ok box
                 ∧ f1_of (box_mp box) (box_mr box) = Raise e)) →
  params r !! "evaluation_status" = None →
  params r !! "error_message" = None →
  evaluate_model env ctx w
  = (Raise e,
     put_run (run_id mi)
       (with_status "FAILED" (with_failure "evaluation_status" (exn_str e)
                                (with_status "RUNNING" r)))
       (set_experiments with_experiment w)).
Proof using All.
  intros Hfails Hstatus Hmsg.
  set (w1 := set_experiments with_experiment w).
  set (rid := run_id mi) in *.
  assert (Hlt : rid < length (runs w1)) by (by apply lookup_lt_Some in Hrun).
  unfold evaluate_model.
  rewrite (bind_Ok _ _ _ _ _ (xcom_pull_model_info_eq _ w)), Hpulled.
  rewrite (bind_Ok _ _ _ _ _ (setup_mlflow_eq w)). fold w1.
  rewrite (bind_Ok (subscriptable (Some mi)) _ _ mi _ eq_refl). fold rid.
  rewrite (resume_run_eq rid _ w1 r Hrun).
  rewrite (end_run_put _ w1 rid _ (Raise e)
             (with_failure "evaluation_status" (exn_str e) (with_status "RUNNING" r))
             w1 Hlt); [reflexivity|].
  erewrite try_except_handled; [|shelve|reflexivity].
  { by apply failure_logged_put. }
  Unshelve.
  destruct Hfails as [Hload|[Hload [Hval|(box & Hval & Hf1)]]].
  - apply bind_Raise. unfold lift. by rewrite Hload.
  - rewrite (bind_Ok (lift (YOLO env (model_path mi))) _ _ tt _)
      by (unfold lift; by rewrite Hload).
    apply bind_Raise. unfold lift. by rewrite Hval.
  - rewrite (bind_Ok (lift (YOLO env (model_path mi))) _ _ tt _)
      by (unfold lift; by rewrite Hload).
    rewrite (bind_Ok (lift (model_val env (model_path mi) _)) _ _ box _)
      by (unfold lift; by rewrite Hval).
    apply bind_Raise. unfold lift. by rewrite Hf1.
Qed.

End evaluation.

(** X18. With the trained [model_info] in XCom and its run in the tracker,
    when the weights load, the validator answers and the F1 expression
    has a value: [evaluate_model] returns the five metrics, with
    f1_score = 2pr/(p+r); it writes each to the training run under its
    name prefixed with eval_, with the quality label as a parameter, and
    ends the run as FINISHED; it pushes the [model_info] with the metrics
    and the label; it touches no other run and not the registry. *)
Theorem evaluate_model_records_metrics env ctx w mi r box f1 :
  xcom_model_info w !! "train_yolo_model" = Some mi →
  runs w !! run_id mi = Some r →
  YOLO env (model_path mi) = Ok tt →
  model_val env (model_path mi) "/opt/airflow/data/dataset.yaml" = Ok box →
  f1_of (box_mp box) (box_mr box) = Ok f1 →
  params r !! "model_quality" = None →
  let res := evaluate_model env ctx w in
  let em := mkEval (box_map50 box) (box_map box) (box_mp box) (box_mr box) f1 in
  res.1 = Ok em
  ∧ (∃ run,
       runs res.2 !! run_id mi = Some run
       ∧ status run = "FINISHED"
       ∧ metrics run !! "eval_map50" = Some (float_of (box_map50 box))
       ∧ metrics run !! "eval_map50_95" = Some (float_of (box_map box))
       ∧ metrics run !! "eval_precision" = Some (float_of (box_mp box))
       ∧ metrics run !! "eval_recall" = Some (float_of (box_mr box))
       ∧ metrics run !! "eval_f1_score" = Some (float_of f1)
       ∧ params run !! "model_quality" = Some (quality_of (box_map50 box))
       ∧ artifacts run = artifacts r)
  ∧ (∀ other, other ≠ run_id mi → runs res.2 !! other = runs w !! other)
  ∧ xcom_model_info res.2 !! task_id ctx
    = Some (mkInfo (run_id mi) (model_path mi) (model_version mi) (training_metrics mi)
                   (Some em) (Some (quality_of (box_map50 box))) (ab_test_results mi))
  ∧ registered_models res.2 = registered_models w.
Proof.
  intros Hpulled Hrun Hload Hval Hf1 Hfresh. cbn zeta.
  rewrite (evaluate_model_Ok env ctx w mi r Hpulled Hrun box f1 Hload Hval Hf1 Hfresh).
  cbv [fst snd]. split_and!; try done.
  - eexists. split; [apply lookup_put; by apply lookup_lt_Some in Hrun|].
    cbn. split_and!; try done.
    all: by repeat (rewrite lookup_insert_ne by done); rewrite lookup_insert_eq.
  - intros other Hne. cbn. by apply list_lookup_insert_ne.
  - cbn. by rewrite lookup_insert_eq.
Qed.


(** *** The comparison task *)

(** The verdict of the comparison: against the run of the Production
    version, if there is one. *)
Definition verdict_of (new_version : option nat) (em : EvaluationMetrics)
    (previous : option (ModelVersion * Run)) : AbTestResults :=
  match previous with
  | None => mkAb new_version None (map50 em) (PyFloat 0) (map50 em) true
  | Some (prod, prod_run) =>
      let score := PyFloat (default 0%float (metrics prod_run !! "eval_map50")) in
      mkAb new_version (Some (version prod)) (map50 em) score
           (num_sub (map50 em) score) (gt (num_sub (map50 em) score) (PyFloat 0.05))
  end.

(** The [model_info] that the comparison task pushes. *)
Definition compared_info (mi : ModelInfo) (ab : AbTestResults) : ModelInfo :=
  mkInfo (run_id mi) (model_path mi) (model_version mi) (training_metrics mi)
         (evaluation_metrics mi) (model_quality mi) (Some ab).

Section comparison.
Context (env : Env) (ctx : Context) (w : World) (mi : ModelInfo) (em : EvaluationMetrics).
Context (vs : list VersionEntry).
Hypothesis Hpulled : xcom_model_info w !! "register_model" = Some mi.
Hypothesis Hem : evaluation_metrics mi = Some em.
Hypothesis Hname : registered_models w !! MODEL_NAME = Some vs.

Lemma run_ab_test_first :
  last (versions_in Production vs) = None →
  ∃ w',
    run_ab_test env ctx w = (Ok (verdict_of (model_version mi) em None), w')
    ∧ xcom_model_info w'
      = <[task_id ctx := compared_info mi (verdict_of (model_version mi) em None)]> (xcom_model_info w)
    ∧ registered_models w' = registered_models w
    ∧ clock w' = clock w.
Proof using All.
  intros Hlast.
  set (w1 := set_experiments with_experiment w).
  assert (Hname1 : registered_models w1 !! MODEL_NAME = Some vs) by done.
  eexists. split.
  - unfold run_ab_test.
    rewrite (bind_Ok _ _ _ _ _ (xcom_pull_model_info_eq _ w)), Hpulled.
    rewrite (bind_Ok _ _ _ _ _ (setup_mlflow_eq w)). fold w1.
    apply try_except_Ok.
    erewrite bind_Ok; cycle 1.
    { rewrite (try_except_handled _ _ _ w1 (Exn IndexError "list index out of range") w1);
        [| |reflexivity].
      2:{ rewrite (bind_Ok _ _ _ _ _ (get_latest_versions_eq _ _ _ Hname1)), Hlast.
          reflexivity. }
      rewrite (bind_Ok (subscriptable (Some mi)) _ _ mi _ eq_refl).
      rewrite Hem. reflexivity. }
    reflexivity.
  - by split_and!.
Qed.

Lemma run_ab_test_against prod prod_run :
  last (versions_in Production vs) = Some prod →
  runs w !! mv_run_id prod = Some prod_run →
  ∃ w',
    run_ab_test env ctx w = (Ok (verdict_of (model_version mi) em (Some (prod, prod_run))), w')
    ∧ xcom_model_info w'
      = <[task_id ctx := compared_info mi (verdict_of (model_version mi) em (Some (prod, prod_run)))]>
          (xcom_model_info w)
    ∧ registered_models w' = registered_models w
    ∧ clock w' = clock w.
Proof using All.
  intros Hlast Hrun.
  set (w1 := set_experiments with_experiment w).
  assert (Hname1 : registered_models w1 !! MODEL_NAME = Some vs) by done.
  set (verdict := verdict_of (model_version mi) em (Some (prod, prod_run))).
  pose proof (start_run_log_params env "ab_test_results" (ab_items verdict) w1) as Hlog.
  cbn zeta in Hlog.
  assert (Hlogged : (params_logged env (ab_items verdict)
                       (mkRun "ab_test_results" "RUNNING" ∅ ∅ [])).1 = Ok tt)
    by (vm_compute; reflexivity).
  rewrite Hlogged in Hlog.
  eexists. split.
  - unfold run_ab_test.
    rewrite (bind_Ok _ _ _ _ _ (xcom_pull_model_info_eq _ w)), Hpulled.
    rewrite (bind_Ok _ _ _ _ _ (setup_mlflow_eq w)). fold w1.
    apply try_except_Ok.
    erewrite bind_Ok; cycle 1.
    { apply try_except_Ok.
      rewrite (bind_Ok _ _ _ _ _ (get_latest_versions_eq _ _ _ Hname1)), Hlast.
      rewrite (bind_Ok (first [prod]) _ _ prod _ eq_refl).
      rewrite (bind_Ok (subscriptable (Some mi)) _ _ mi _ eq_refl).
      rewrite Hem.
      rewrite (bind_Ok (getitem _ (Some em)) _ _ em _ eq_refl).
      rewrite (bind_Ok _ _ _ _ _ (get_run_eq _ w1 _ Hrun)).
      cbv zeta. fold verdict.
      change (mkAb _ _ _ _ _ _) with verdict.
      rewrite (bind_Ok _ _ _ _ _ Hlog). reflexivity. }
    reflexivity.
  - by split_and!.
Qed.

End comparison.

(** *** One run of the DAG *)

Lemma task_Ok {A} id (python_callable : Env → Context → M World A) env w a w' :
  python_callable env (mkContext id) w = (Ok a, w') →
  PythonOperator id python_callable env w = (Ok a, w').
Proof. intros Hcall. unfold PythonOperator, retries. cbn [with_retries]. by apply try_except_Ok. Qed.

(** The decision of the promotion task for a model with score [score],
    compared with the Production version and its run, if any. *)
Definition decision (score : number) (previous : option (ModelVersion * Run)) : bool :=
  let significant :=
    match previous with
    | None => true
    | Some (_, prod_run) =>
        gt (num_sub score (PyFloat (default 0%float (metrics prod_run !! "eval_map50"))))
           (PyFloat 0.05)
    end in
  bool_decide (quality_of score = "good") && significant && gt score (PyFloat 0.6).

Lemma decision_eq v em previous :
  should_promote (quality_of (map50 em)) (verdict_of v em previous)
  = decision (map50 em) previous.
Proof. by destruct previous as [[prod prod_run]|]. Qed.

(** The Production version of a registry and its run, as the comparison
    task finds them. *)
Definition is_previous (w : World) (previous : option (ModelVersion * Run)) : Prop :=
  let vs := default [] (registered_models w !! MODEL_NAME) in
  match previous with
  | None => last (versions_in Production vs) = None
  | Some (prod, prod_run) =>
      last (versions_in Production vs) = Some prod ∧ runs w !! mv_run_id prod = Some prod_run
  end.

Lemma latest_unchanged vs rid1 rid2 q now :
  last (versions_in Production ((vs ++ [mkEntry rid1 StageNone ∅])
                                ++ [registered_entry rid2 q now]))
  = last (versions_in Production vs).
Proof.
  rewrite !versions_in_snoc.
  rewrite (bool_decide_eq_false_2 (current_stage (registered_entry rid2 q now) = Production)).
  2:{ unfold registered_entry. by case_bool_decide. }
  rewrite (bool_decide_eq_false_2 (current_stage (mkEntry rid1 StageNone ∅) = Production))
    by done.
  by rewrite !app_nil_r.
Qed.

Section dag.
Context (env : Env) (w : World).
Context (results : option (list (string * value))) (box : BoxMetrics) (f1 : number).
Context (previous : option (ModelVersion * Run)).
Let run := S (length (runs w)).
Let weights := "/opt/airflow/runs/yolo_training_" +:+ pretty run +:+ "/weights/best.pt".
Let vs := default [] (registered_models w !! MODEL_NAME).
Hypothesis Hbase : YOLO env "yolov8n.pt" = Ok tt.
Hypothesis Htrain : model_train env (train_config_for run) = Ok results.
Hypothesis Hresults : Forall (λ kv : string * value, loggable kv.2) (default [] results).
Hypothesis Hweights : YOLO env weights = Ok tt.
Hypothesis Hval : model_val env weights "/opt/airflow/data/dataset.yaml" = Ok box.
Hypothesis Hf1 : f1_of (box_mp box) (box_mr box) = Ok f1.
Hypothesis Hprevious : is_previous w previous.

(** The registry entries of the model name after the run: two new ones,
    the second promoted when the decision is to promote. *)
Lemma dag_run_Ok :
  let q := quality_of (box_map50 box) in
  ∃ w' now t1 t2,
    let registered := (vs ++ [mkEntry run StageNone ∅]) ++ [registered_entry run q now] in
    dag_run env w
    = (Ok (if decision (box_map50 box) previous then "promoted" else "not_promoted"), w')
    ∧ registered_models w' !! MODEL_NAME
      = Some (if decision (box_map50 box) previous
              then promoted (S (length vs)) t1 t2 (archived registered)
              else registered)
    ∧ (∀ name, name ≠ MODEL_NAME → registered_models w' !! name = registered_models w !! name).
Proof using All.
  intros q.
  set (em := metrics_of box f1).
  (* prepare_dataset *)
  destruct (prepare_dataset_Ok env (mkContext "prepare_dataset") w)
    as (w1 & r0 & Hp & Hruns1 & _ & _ & _ & _ & Hxd1 & Hreg1 & Hxm1 & Hclk1).
  assert (Hd1 : xcom_dataset_info w1 !! "prepare_dataset" = Some crop_disease_dataset).
  { rewrite Hxd1. apply lookup_insert_eq. }
  assert (Hlen1 : length (runs w1) = run).
  { rewrite Hruns1, length_app. cbn. subst run. lia. }
  (* train_yolo_model *)
  assert (Htrain1 : model_train env (train_config_for (length (runs w1))) = Ok results)
    by (by rewrite Hlen1).
  destruct (train_yolo_model_Ok env (mkContext "train_yolo_model") w1 crop_disease_dataset
              results Hd1 Hbase Htrain1 Hresults)
    as (w2 & r2 & Ht & Hruns2 & _ & _ & Hfresh2 & Hname2 & Hother2 & Hxm2 & _ & _ & _).
  rewrite Hlen1, Hreg1 in *. fold vs in Hname2.
  set (mi2 := trained_info run results) in *.
  assert (Hpulled2 : xcom_model_info w2 !! "train_yolo_model" = Some mi2).
  { rewrite Hxm2. apply lookup_insert_eq. }
  assert (Hrun2 : runs w2 !! run_id mi2 = Some r2).
  { rewrite Hruns2. change (run_id mi2) with run. rewrite <- Hlen1.
    by rewrite lookup_app_r, Nat.sub_diag. }
  (* evaluate_model *)
  pose proof (evaluate_model_Ok env (mkContext "evaluate_model") w2 mi2 r2 Hpulled2 Hrun2
                box f1 Hweights Hval Hf1 Hfresh2) as He.
  cbn zeta in He. fold em in He.
  set (w3 := put_run _ _ _) in He.
  set (mi3 := evaluated_info mi2 em).
  assert (Hpulled3 : xcom_model_info w3 !! "evaluate_model" = Some mi3).
  { subst w3. cbn. apply lookup_insert_eq. }
  assert (Hrun3 : runs w3 !! run_id mi3 = Some (evaluated_run r2 em)).
  { subst w3. apply lookup_put. by apply lookup_lt_Some in Hrun2. }
  assert (Hreg3 : registered_models w3 = registered_models w2) by reflexivity.
  assert (Hruns3 : runs w3 = <[run := evaluated_run r2 em]> (runs w2)) by reflexivity.
  (* register_model *)
  destruct (register_model_Ok env (mkContext "register_model") w3 mi3 q _
              Hpulled3 eq_refl Hrun3)
    as (w4 & Hr & Hname4 & Hother4 & Hxm4 & _ & Hruns4 & _).
  rewrite Hreg3, Hname2 in Hr, Hname4, Hxm4. cbn [default id] in Hr, Hname4, Hxm4.
  rewrite Hreg3 in Hother4.
  set (e1 := mkEntry run StageNone ∅) in *.
  set (now := isoformat env (clock w3)) in *.
  change (run_id mi3) with run in Hname4.
  set (e2 := registered_entry run q now) in *.
  set (v2 := S (length (vs ++ [e1]))) in *.
  set (mi4 := with_version v2 mi3) in *.
  assert (Hpulled4 : xcom_model_info w4 !! "register_model" = Some mi4).
  { rewrite Hxm4. apply lookup_insert_eq. }
  (* run_ab_test *)
  set (ab := verdict_of (Some v2) em previous).
  assert (Hab : ∃ w5,
            run_ab_test env (mkContext "run_ab_test") w4 = (Ok ab, w5)
            ∧ xcom_model_info w5
              = <["run_ab_test" := compared_info mi4 ab]> (xcom_model_info w4)
            ∧ registered_models w5 = registered_models w4).
  { unfold is_previous in Hprevious. fold vs in Hprevious.
    destruct previous as [[prod prod_run]|].
    - destruct Hprevious as [Hlast Hprod].
      assert (Hprod4 : runs w4 !! mv_run_id prod = Some prod_run).
      { pose proof (lookup_lt_Some _ _ _ Hprod) as Hlt.
        rewrite Hruns4, Hruns3, Hruns2, Hruns1.
        rewrite list_lookup_insert_ne by (subst run; lia).
        by rewrite !lookup_app_l by (rewrite ?length_app; lia). }
      destruct (run_ab_test_against env (mkContext "run_ab_test") w4 mi4 em _
                  Hpulled4 eq_refl Hname4 prod prod_run) as (w5 & Hrun5 & Hxm5 & Hreg5 & _).
      { unfold e1, e2. by rewrite latest_unchanged. }
      { done. }
      by exists w5.
    - destruct (run_ab_test_first env (mkContext "run_ab_test") w4 mi4 em _
                  Hpulled4 eq_refl Hname4) as (w5 & Hrun5 & Hxm5 & Hreg5 & _);
        [unfold e1, e2; by rewrite latest_unchanged|].
      by exists w5. }
  destruct Hab as (w5 & Hc & Hxm5 & Hreg5).
  set (mi5 := compared_info mi4 ab) in *.
  assert (Hpulled5 : xcom_model_info w5 !! "run_ab_test" = Some mi5).
  { rewrite Hxm5. apply lookup_insert_eq. }
  assert (Hname5 : registered_models w5 !! MODEL_NAME = Some ((vs ++ [e1]) ++ [e2]))
    by (by rewrite Hreg5).
  assert (Hi5 : ((vs ++ [e1]) ++ [e2]) !! S (length vs) = Some e2).
  { rewrite lookup_app_r by (rewrite length_app; cbn; lia).
    rewrite length_app. cbn. by replace (S (length vs) - (length vs + 1)) with 0 by lia. }
  assert (Hv5 : model_version mi5 = Some (S (S (length vs)))).
  { cbn. subst v2. rewrite length_app. cbn. do 2 f_equal. lia. }
  assert (Hdecision : should_promote q ab = decision (box_map50 box) previous)
    by apply (decision_eq (Some v2) em previous).
  (* promote_to_production *)
  assert (Hpromote : ∃ w6 t1 t2,
            promote_to_production env (mkContext "promote_to_production") w5
            = (Ok (if decision (box_map50 box) previous then "promoted" else "not_promoted"), w6)
            ∧ registered_models w6 !! MODEL_NAME
              = Some (if decision (box_map50 box) previous
                      then promoted (S (length vs)) t1 t2 (archived ((vs ++ [e1]) ++ [e2]))
                      else (vs ++ [e1]) ++ [e2])
            ∧ (∀ name, name ≠ MODEL_NAME →
                 registered_models w6 !! name = registered_models w5 !! name)).
  { destruct (decision (box_map50 box) previous) eqn:Hdec.
    - destruct (promote_to_production_promoted env (mkContext "promote_to_production") w5
                  mi5 ab q em _ (S (length vs)) e2 Hpulled5 eq_refl eq_refl eq_refl Hv5
                  Hname5 Hi5 Hdecision) as (w6 & t1 & t2 & Hpr & Hreg6).
      exists w6, t1, t2. split_and!; [done| |].
      + by rewrite Hreg6, lookup_insert_eq.
      + intros name Hne. by rewrite Hreg6, lookup_insert_ne.
    - eexists _, "", "". split_and!.
      + by apply (promote_to_production_declined env (mkContext "promote_to_production") w5
                    mi5 ab q Hpulled5 eq_refl eq_refl Hdecision).
      + exact Hname5.
      + done. }
  destruct Hpromote as (w6 & t1 & t2 & Hpr & Hname6 & Hother6).
  exists w6, now, t1, t2. cbn zeta. split_and!.
  - unfold dag_run, prepare_dataset_task, train_model_task, evaluate_model_task,
      register_model_task, ab_test_task, promote_model_task.
    rewrite (bind_Ok _ _ _ _ _ (task_Ok _ _ _ _ _ _ Hp)).
    rewrite (bind_Ok _ _ _ _ _ (task_Ok _ _ _ _ _ _ Ht)).
    rewrite (bind_Ok _ _ _ _ _ (task_Ok _ _ _ _ _ _ He)).
    rewrite (bind_Ok _ _ _ _ _ (task_Ok _ _ _ _ _ _ Hr)).
    rewrite (bind_Ok _ _ _ _ _ (task_Ok _ _ _ _ _ _ Hc)).
    by apply task_Ok.
  - exact Hname6.
  - intros name Hne.
    by rewrite (Hother6 name Hne), Hreg5, (Hother4 name Hne), (Hother2 name Hne).
Qed.

End dag.

(** The entries of the model name after a run, by index. *)
Lemma registered_lookup (vs : list VersionEntry) e1 e2 k :
  ((vs ++ [e1]) ++ [e2]) !! k
  = if decide (k < length vs) then vs !! k
    else if decide (k = length vs) then Some e1
    else if decide (k = S (length vs)) then Some e2
    else None.
Proof.
  repeat case_decide; subst.
  - by rewrite !lookup_app_l by (rewrite ?length_app; cbn; lia).
  - rewrite lookup_app_l by (rewrite ?length_app; cbn; lia).
    by rewrite lookup_app_r, Nat.sub_diag.
  - rewrite lookup_app_r by (rewrite ?length_app; cbn; lia).
    rewrite length_app. cbn. by replace (S (length vs) - (length vs + 1)) with 0 by lia.
  - apply lookup_ge_None. rewrite !length_app. cbn. lia.
Qed.

(** Archiving the Production version, if any, among the entries after a
    registration. *)
Lemma archived_registered_lookup w previous rid1 rid2 q now k :
  is_previous w previous →
  let vs := default [] (registered_models w !! MODEL_NAME) in
  let registered := (vs ++ [mkEntry rid1 StageNone ∅]) ++ [registered_entry rid2 q now] in
  current_stage <$> archived registered !! k
  = if bool_decide (version ∘ fst <$> previous = Some (S k))
    then Some Archived else current_stage <$> registered !! k.
Proof.
  intros Hprevious vs registered. unfold archived. subst registered.
  rewrite latest_unchanged. unfold is_previous in Hprevious. fold vs in Hprevious.
  destruct previous as [[prod prod_run]|].
  - destruct Hprevious as [Hlast _]. rewrite Hlast.
    apply latest_Some in Hlast as (j & ej & Hj & Hstj & ->). cbn [version pred fmap option_fmap
      option_map compose fst].
    pose proof (lookup_lt_Some _ _ _ Hj) as Hlt.
    case_bool_decide as Hk.
    + injection Hk as ->. rewrite list_lookup_alter_eq, registered_lookup.
      rewrite decide_True by done. by rewrite Hj.
    + rewrite list_lookup_alter_ne by congruence. done.
  - rewrite Hprevious. by rewrite bool_decide_eq_false_2.
Qed.



(** *** What the tasks leave in XCom *)

(** A property of the [model_info] entries of XCom. *)
Definition on_model_info (P : gmap string ModelInfo → Prop) : World → Prop :=
  λ w, P (xcom_model_info w).

Section keeps_model_info.
Context (P : gmap string ModelInfo → Prop).
Local Abbreviation I := (on_model_info P).

Lemma xcom_keeps_setup_mlflow : preserves I setup_mlflow.
Proof. intros w Hw. by rewrite setup_mlflow_eq. Qed.

Lemma xcom_keeps_get_run rid : preserves I (get_run rid).
Proof. unfold get_run, MlflowError. keeps. Qed.

Lemma xcom_keeps_log_param env rid key v : preserves I (log_param env rid key v).
Proof. unfold log_param, MlflowError. pose proof xcom_keeps_get_run. keeps. Qed.

Lemma xcom_keeps_log_params env rid kvs : preserves I (log_params env rid kvs).
Proof. unfold log_params. pose proof xcom_keeps_log_param. keeps. Qed.

Lemma xcom_keeps_log_metric rid key x : preserves I (log_metric rid key x).
Proof. unfold log_metric. pose proof xcom_keeps_get_run. keeps. Qed.

Lemma xcom_keeps_log_artifact rid path : preserves I (log_artifact rid path).
Proof. unfold log_artifact. pose proof xcom_keeps_get_run. keeps. Qed.

Lemma xcom_keeps_end_run {A} rid (body : M World A) :
  preserves I body → preserves I (end_run rid body).
Proof.
  intros Hbody w Hw. specialize (Hbody w Hw). unfold end_run.
  by destruct (body w) as [[a|e] w'].
Qed.

Lemma xcom_keeps_start_run {A} name (body : nat → M World A) :
  (∀ run, preserves I (body run)) → preserves I (start_run name body).
Proof.
  intros Hbody. unfold start_run.
  apply preserves_bind; [apply preserves_get|intros w].
  apply preserves_bind; [by apply preserves_modify|intros _].
  by apply xcom_keeps_end_run.
Qed.

Lemma xcom_keeps_resume_run {A} rid (body : nat → M World A) :
  (∀ run, preserves I (body run)) → preserves I (resume_run rid body).
Proof.
  intros Hbody. unfold resume_run, MlflowError.
  apply preserves_bind; [apply preserves_get|intros w].
  destruct (runs w !! rid); [|apply preserves_raise].
  apply preserves_bind; [by apply preserves_modify|intros _].
  by apply xcom_keeps_end_run.
Qed.

Lemma xcom_keeps_datetime_now env : preserves I (datetime_now env).
Proof. unfold datetime_now. keeps. Qed.

Lemma xcom_keeps_push_dataset_info ctx d : preserves I (xcom_push_dataset_info ctx d).
Proof. unfold xcom_push_dataset_info. keeps. Qed.

Lemma xcom_keeps_pull_dataset_info t : preserves I (xcom_pull_dataset_info t).
Proof. unfold xcom_pull_dataset_info. keeps. Qed.

Lemma xcom_keeps_pull_model_info t : preserves I (xcom_pull_model_info t).
Proof. unfold xcom_pull_model_info. keeps. Qed.

Lemma xcom_keeps_subscriptable {A} (pulled : option A) : preserves I (subscriptable pulled).
Proof. unfold subscriptable. keeps. Qed.

Lemma xcom_keeps_get_latest_versions name stage : preserves I (get_latest_versions name stage).
Proof. unfold get_latest_versions, MlflowError. keeps. Qed.

Lemma xcom_keeps_log_params_pulled env run d : preserves I (log_params_pulled env run d).
Proof. unfold log_params_pulled. pose proof xcom_keeps_log_params. keeps. Qed.

Lemma xcom_keeps_create_model_version name rid : preserves I (create_model_version name rid).
Proof. unfold create_model_version. keeps. Qed.

Lemma xcom_keeps_update_version name v f : preserves I (update_version name v f).
Proof. unfold update_version, MlflowError. keeps. Qed.

Lemma xcom_keeps_transition name v stage :
  preserves I (transition_model_version_stage name v stage).
Proof.
  unfold transition_model_version_stage, MlflowError.
  pose proof xcom_keeps_update_version. keeps.
Qed.

Lemma xcom_keeps_set_tag name v key value : preserves I (set_model_version_tag name v key value).
Proof. unfold set_model_version_tag. apply xcom_keeps_update_version. Qed.

End keeps_model_info.

(** The tasks keep a property of the [model_info] entries that pushing
    under the task's own id keeps. *)
Section model_info_tasks.
Context (P : gmap string ModelInfo → Prop) (env : Env) (ctx : Context).
Hypothesis Hpush : ∀ m v, P m → P (<[task_id ctx := v]> m).
Local Abbreviation I := (on_model_info P).

Lemma xcom_keeps_push_model_info m : preserves I (xcom_push_model_info ctx m).
Proof using Hpush.
  unfold xcom_push_model_info. apply preserves_modify. intros w Hw. by apply Hpush.
Qed.

Lemma xcom_keeps_prepare_dataset : preserves I (prepare_dataset env ctx).
Proof.
  unfold prepare_dataset.
  apply preserves_bind; [apply xcom_keeps_setup_mlflow|intros _].
  apply preserves_bind; [|intros _].
  - apply xcom_keeps_start_run. intros run.
    pose proof (xcom_keeps_log_params P). pose proof (xcom_keeps_log_metric P). keeps.
  - pose proof (xcom_keeps_push_dataset_info P). keeps.
Qed.

Lemma xcom_keeps_train_yolo_model : preserves I (train_yolo_model env ctx).
Proof using Hpush.
  unfold train_yolo_model.
  apply preserves_bind; [apply xcom_keeps_pull_dataset_info|intros dataset_info].
  apply preserves_bind; [apply xcom_keeps_setup_mlflow|intros _].
  apply xcom_keeps_start_run. intros run.
  apply preserves_bind; [apply xcom_keeps_log_params|intros _].
  apply preserves_bind; [apply xcom_keeps_log_params_pulled|intros _].
  apply preserves_try_except.
  - apply preserves_bind; [apply preserves_lift|intros _].
    apply preserves_bind; [by apply preserves_modify|intros _].
    apply preserves_bind; [apply preserves_lift|intros results].
    apply preserves_bind; [|intros _].
    { pose proof (xcom_keeps_log_metric P). keeps. }
    apply preserves_bind; [|intros _].
    { unfold pytorch_log_model.
      apply preserves_bind; [apply xcom_keeps_log_artifact|intros _].
      apply preserves_bind; [apply xcom_keeps_create_model_version|intros _].
      apply preserves_ret. }
    apply preserves_bind; [apply xcom_keeps_log_artifact|intros _].
    apply preserves_bind; [apply xcom_keeps_push_model_info|intros _]. apply preserves_ret.
  - intros e. pose proof (xcom_keeps_log_param P). keeps.
Qed.

Lemma xcom_keeps_evaluate_model : preserves I (evaluate_model env ctx).
Proof using Hpush.
  unfold evaluate_model.
  pose proof (xcom_keeps_setup_mlflow P). pose proof (xcom_keeps_pull_model_info P).
  pose proof (@xcom_keeps_subscriptable P).
  apply preserves_bind; [keeps|intros pulled].
  apply preserves_bind; [keeps|intros _].
  apply preserves_bind; [keeps|intros model_info].
  apply xcom_keeps_resume_run. intros run.
  pose proof (xcom_keeps_log_param P). pose proof (xcom_keeps_log_metric P).
  pose proof xcom_keeps_push_model_info. keeps.
Qed.

Lemma xcom_keeps_register_model : preserves I (register_model env ctx).
Proof using Hpush.
  unfold register_model.
  apply preserves_bind; [apply xcom_keeps_pull_model_info|intros pulled].
  apply preserves_bind; [apply xcom_keeps_setup_mlflow|intros _].
  apply preserves_try_except; [|intros e; apply preserves_raise].
  apply preserves_bind; [apply xcom_keeps_subscriptable|intros model_info].
  apply preserves_bind; [apply preserves_getitem|intros quality].
  apply preserves_bind; [|intros registered].
  { unfold mlflow_register_model.
    apply preserves_bind; [apply xcom_keeps_get_run|intros _].
    apply xcom_keeps_create_model_version. }
  apply preserves_bind; [|intros _].
  { case_bool_decide; [|apply preserves_ret].
    apply preserves_bind; [apply xcom_keeps_transition|intros _].
    apply preserves_bind; [apply xcom_keeps_set_tag|intros _].
    apply preserves_bind; [apply xcom_keeps_datetime_now|intros now].
    apply xcom_keeps_set_tag. }
  apply preserves_bind; [apply xcom_keeps_push_model_info|intros _]. apply preserves_ret.
Qed.

Lemma xcom_keeps_run_ab_test : preserves I (run_ab_test env ctx).
Proof using Hpush.
  unfold run_ab_test.
  pose proof (xcom_keeps_setup_mlflow P). pose proof (xcom_keeps_pull_model_info P).
  pose proof (@xcom_keeps_subscriptable P). pose proof (xcom_keeps_get_latest_versions P).
  pose proof (xcom_keeps_get_run P). pose proof xcom_keeps_push_model_info.
  apply preserves_bind; [keeps|intros pulled].
  apply preserves_bind; [keeps|intros _].
  apply preserves_try_except; [|intros e; apply preserves_raise].
  apply preserves_bind; [|intros ab; keeps].
  apply preserves_try_except; [|intros e; keeps].
  do 5 (apply preserves_bind; [keeps|intros ?]).
  apply preserves_bind; [|intros _; keeps].
  apply xcom_keeps_start_run. intros run. apply xcom_keeps_log_params.
Qed.

Lemma xcom_keeps_promote_to_production : preserves I (promote_to_production env ctx).
Proof.
  unfold promote_to_production.
  apply preserves_bind; [apply xcom_keeps_pull_model_info|intros pulled].
  apply preserves_bind; [apply xcom_keeps_setup_mlflow|intros _].
  apply preserves_try_except; [|intros e; apply preserves_raise].
  apply preserves_bind; [apply xcom_keeps_subscriptable|intros model_info].
  apply preserves_bind; [apply preserves_getitem|intros ab_results].
  apply preserves_bind; [apply preserves_getitem|intros quality].
  destruct (should_promote quality ab_results); [|apply preserves_ret].
  apply preserves_bind; [|intros _].
  { apply preserves_try_except; [|intros e; apply preserves_ret].
    apply preserves_bind; [apply xcom_keeps_get_latest_versions|intros latest].
    apply preserves_bind; [apply preserves_first|intros current_prod].
    apply xcom_keeps_transition. }
  apply preserves_bind; [apply xcom_keeps_transition|intros _].
  apply preserves_bind; [apply xcom_keeps_datetime_now|intros now].
  apply preserves_bind; [apply xcom_keeps_set_tag|intros _].
  apply preserves_bind; [apply xcom_keeps_set_tag|intros _].
  apply preserves_bind; [apply xcom_keeps_datetime_now|intros promoted_at].
  apply preserves_bind; [apply preserves_getitem|intros evaluation_metrics].
  apply preserves_bind; [|intros _; apply preserves_ret].
  apply xcom_keeps_start_run. intros run. apply xcom_keeps_log_params.
Qed.

End model_info_tasks.

(** The ids of the tasks that push a [model_info]. *)
Definition model_info_tasks : list string :=
  ["train_yolo_model"; "evaluate_model"; "register_model"; "run_ab_test"].

Lemma xcom_keeps_dag_run env key v :
  key ∉ model_info_tasks →
  preserves (on_model_info (λ m, m !! key = v)) (dag_run env).
Proof.
  intros Hkey.
  assert (Hpush : ∀ id, id ∈ model_info_tasks →
            ∀ (m : gmap string ModelInfo) x,
              m !! key = v → <[task_id (mkContext id) := x]> m !! key = v).
  { intros id Hid m x Hm. rewrite lookup_insert_ne; [done|]. cbn. by intros ->. }
  unfold dag_run, prepare_dataset_task, train_model_task, evaluate_model_task,
    register_model_task, ab_test_task, promote_model_task.
  repeat (apply preserves_bind; [|intros _]); apply preserves_with_retries.
  - apply xcom_keeps_prepare_dataset.
  - apply xcom_keeps_train_yolo_model, Hpush. unfold model_info_tasks. set_solver.
  - apply xcom_keeps_evaluate_model, Hpush. unfold model_info_tasks. set_solver.
  - apply xcom_keeps_register_model, Hpush. unfold model_info_tasks. set_solver.
  - apply xcom_keeps_run_ab_test, Hpush. unfold model_info_tasks. set_solver.
  - apply xcom_keeps_promote_to_production.
Qed.

(** X21. Whatever the trainer, the validator and the clock do, a run of the
    DAG through the promotion task writes [model_info] to XCom only under
    the ids of the training, evaluation, registration and comparison
    tasks: the entry of any other task id, present or not, is what it was
    before the run. *)
Theorem dag_run_pushes_under_four_ids env w key :
  key ∉ model_info_tasks →
  xcom_model_info (dag_run env w).2 !! key = xcom_model_info w !! key.
Proof.
  intros Hkey.
  by apply (xcom_keeps_dag_run env key (xcom_model_info w !! key) Hkey w).
Qed.

Lemma dag_run_pushes_under_four_ids_witness :
  xcom_model_info (dag_run quiet_env empty_world).2 !! "promote_to_production" = None.
Proof.
  rewrite (dag_run_pushes_under_four_ids quiet_env empty_world "promote_to_production").
  - reflexivity.
  - apply (bool_decide_unpack _). vm_compute. exact I.
Defined.

(** *** The notification task *)

Import Completion.

Lemma notify_completion_Raise uri promotion_result env ctx w :
  xcom_model_info w !! "promote_to_production" = None →
  notify_completion uri promotion_result env ctx w
  = (Raise (Exn TypeError "'NoneType' object is not subscriptable"), set_clock S w).
Proof.
  intros Hnone. unfold notify_completion.
  rewrite (bind_Ok _ _ _ _ _ (xcom_pull_model_info_eq _ w)), Hnone.
  rewrite (bind_Ok (datetime_now env) _ w (isoformat env (clock w)) (set_clock S w) eq_refl).
  reflexivity.
Qed.

Lemma notify_task_Raise uri promotion_result env w :
  xcom_model_info w !! "promote_to_production" = None →
  notify_task uri promotion_result env w
  = (Raise (Exn TypeError "'NoneType' object is not subscriptable"),
     set_clock S (set_clock S w)).
Proof.
  intros Hnone. unfold notify_task, PythonOperator, retries. cbn [with_retries].
  rewrite (try_except_handled _ _ _ w _ (set_clock S w)
             (notify_completion_Raise uri promotion_result env _ w Hnone) eq_refl).
  by apply notify_completion_Raise.
Qed.



(** *** A failing trainer and the retry *)

(** The run that a failed training attempt leaves. *)
Definition failed_training_run (env : Env) (d : DatasetInfo) (e : exn) : Run :=
  with_status "FAILED"
    (with_failure "training_status" (exn_str e)
       (params_logged env (dataset_items d)
          (params_logged env training_params
             (mkRun "yolo_training" "RUNNING" ∅ ∅ [])).2).2).

Lemma train_yolo_model_Raise env ctx w d e :
  xcom_dataset_info w !! "prepare_dataset" = Some d →
  YOLO env "yolov8n.pt" = Ok tt →
  model_train env (train_config_for (length (runs w))) = Raise e →
  train_yolo_model env ctx w
  = (Raise e,
     with_new_run (failed_training_run env d e)
       (set_train_calls (λ cs, cs ++ [train_config_for (length (runs w))])
          (set_experiments with_experiment w))).
Proof.
  intros Hd Hload Htrain.
  destruct (training_params_logged env d)
    as (r1 & r2 & Hr1 & Hr2 & Hstatus & Hmsg & _ & _).
  unfold failed_training_run. rewrite Hr1. cbv [snd]. rewrite Hr2. cbv [snd].
  set (w1 := set_experiments with_experiment w).
  set (run := length (runs w)) in *.
  set (r0 := mkRun "yolo_training" "RUNNING" ∅ ∅ []) in *.
  unfold train_yolo_model.
  rewrite (bind_Ok _ _ _ _ _ (xcom_pull_dataset_info_eq _ w)), Hd.
  rewrite (bind_Ok _ _ _ _ _ (setup_mlflow_eq w)). fold w1.
  rewrite start_run_eq. change (length (runs w1)) with run. fold r0.
  apply (end_run_started _ w1 r0 (Raise e)); [done|].
  rewrite (bind_Ok _ _ _ _ _ (log_params_new_Ok env w1 _ _ _ Hr1)).
  unfold log_params_pulled.
  rewrite (bind_Ok _ _ _ _ _ (log_params_new_Ok env w1 _ _ _ Hr2)).
  unfold try_except.
  rewrite (bind_Ok (lift (YOLO env "yolov8n.pt")) _ _ tt (with_new_run r2 w1))
    by (unfold lift; by rewrite Hload).
  cbv zeta.
  rewrite (bind_Ok (modify _) _ (with_new_run r2 w1) tt
             (with_new_run r2 (set_train_calls
                                 (λ cs, cs ++ [train_config_for run]) w1)) eq_refl).
  rewrite (bind_Raise (lift (model_train env (train_config_for run))) _ _ e
             (with_new_run r2 (set_train_calls (λ cs, cs ++ [train_config_for run]) w1)))
    by (unfold lift; by rewrite Htrain).
  cbn [is_Exception].
  by apply (failure_logged env (set_train_calls _ w1) r2 "training_status" e Hstatus Hmsg).
Qed.



(** *** Concrete runs of the tasks *)

Definition after_evaluation : World :=
  (evaluate_model quiet_env (mkContext "evaluate_model") after_training).2.



Lemma evaluate_model_records_metrics_witness :
  ∃ em,
    (evaluate_model quiet_env (mkContext "evaluate_model") after_training).1 = Ok em
    ∧ map50 em = PyFloat 0.75 ∧ precision em = PyFloat 0.8 ∧ recall em = PyFloat 0.7.
Proof.
  edestruct (evaluate_model_records_metrics quiet_env (mkContext "evaluate_model")
               after_training) as (Hres & _).
  - vm_compute. reflexivity.
  - vm_compute. reflexivity.
  - reflexivity.
  - reflexivity.
  - vm_compute. reflexivity.
  - vm_compute. reflexivity.
  - eexists. split; [exact Hres|]. by split_and!.
Defined.




End TaskFacts.
